(** * Emotion analytics and scoring engine: a shallow embedding

    The development follows the Python sources

      - [backend/app/routes/ml.py]         (EmotionAnalyzer, recommendations, trend),
      - [backend/app/routes/analytics.py]  (peaks / anomalies, stress levels),
      - [backend/app/utils/validators.py]  (validate_emotion_data),
      - [backend/app/models/emotion.py]    (get_dominant_emotion),
      - [backend/app/utils/responses.py]   (paginated_response).

    Conventions of the embedding.

      - For the scores and the averages, Python numbers are modelled as
        exact rationals [Q] and numeric results compared with [==] ([Qeq]);
        a result so stated holds of the running program up to the rounding
        error of binary floating point.
      - Where an answer turns on a comparison at a threshold or on a
        decimal rounding (which entries the peak detection flags, the
        digits it reports, the entries of the hourly and daily patterns,
        when the engine recommends nothing), the code is modelled on
        binary64 floats ([PyFloat], [FloatRec], [FloatAnalytics]).
      - A Python [dict] is an association list in insertion order with
        pairwise distinct keys; iteration over [d.items()] is iteration over
        the list.
      - A Python [list] is a Rocq [list]; slices follow Python's rules for
        negative and out-of-range bounds ([Py.slice]).
      - A raised exception is an [option] result ([None]). *)

From Stdlib Require Import PrimFloat.
From Stdlib Require FloatOps SpecFloat Uint63.
From Stdlib Require Import List String Ascii ZArith QArith Qround Qfield Bool Lia Lqa.
From Stdlib Require Import Qminmax Permutation Sorting.Sorted.
Import ListNotations.

Set Warnings "-register-all,-inexact-float".

Open Scope string_scope.
Open Scope list_scope.
Open Scope Q_scope.

(** ** Python primitives *)

Module Py.

(** [a < b] on numbers, as a boolean. *)
Definition ltb (a b : Q) : bool :=
  match a ?= b with Lt => true | _ => false end.

(** [a > b]. *)
Definition gtb (a b : Q) : bool := ltb b a.

(** Built-in [max(a, b)]: the first argument wins a tie. *)
Definition max (a b : Q) : Q := if gtb b a then b else a.

(** Built-in [min(a, b)]: the first argument wins a tie. *)
Definition min (a b : Q) : Q := if ltb b a then b else a.

(** Built-in [sum] over a list of numbers (left to right, from 0). *)
Definition sum (l : list Q) : Q := fold_left Qplus l 0.

(** [len(l)] as a number. *)
Definition len {A} (l : list A) : Q := inject_Z (Z.of_nat (List.length l)).

(** [np.mean(l)] on a non-empty list. *)
Definition mean (l : list Q) : Q := sum l / len l.

(** [np.var(l)]: population variance (ddof = 0). *)
Definition var (l : list Q) : Q :=
  let m := mean l in
  mean (map (fun x => (x - m) * (x - m)) l).

(** Index normalisation of a slice bound against a list of length [n]. *)
Definition clip (i n : Z) : Z :=
  if (i <? 0)%Z then Z.max (i + n) 0 else Z.min i n.

(** [l[start:stop]] with step 1; [None] is an omitted bound. *)
Definition slice {A} (start stop : option Z) (l : list A) : list A :=
  let n := Z.of_nat (List.length l) in
  let s := match start with None => 0%Z | Some i => clip i n end in
  let e := match stop with None => n | Some j => clip j n end in
  firstn (Z.to_nat (e - s)) (skipn (Z.to_nat s) l).

(** Round half to even to an integer. *)
Definition round_half_even (x : Q) : Z :=
  let f := Qfloor x in
  match Qcompare (x - inject_Z f) (1 # 2) with
  | Lt => f
  | Gt => (f + 1)%Z
  | Eq => if Z.even f then f else (f + 1)%Z
  end.

(** Built-in [round(x, ndigits)]. *)
Definition round (x : Q) (ndigits : nat) : Q :=
  let scale := inject_Z (10 ^ Z.of_nat ndigits) in
  inject_Z (round_half_even (x * scale)) / scale.

(** *** Dictionaries with string keys, in insertion order *)

Definition dict (V : Type) := list (string * V).

Fixpoint get {V} (d : dict V) (k : string) : option V :=
  match d with
  | [] => None
  | (k', v) :: d' => if String.eqb k k' then Some v else get d' k
  end.

(** [k in d]. *)
Definition contains {V} (d : dict V) (k : string) : bool :=
  match get d k with Some _ => true | None => false end.

(** [d.get(k, default)]. *)
Definition get_default {V} (d : dict V) (k : string) (default : V) : V :=
  match get d k with Some v => v | None => default end.

(** [d[k] = v]: overwrite in place, or append a new key. *)
Fixpoint set {V} (d : dict V) (k : string) (v : V) : dict V :=
  match d with
  | [] => [(k, v)]
  | (k', v') :: d' =>
      if String.eqb k k' then (k', v) :: d' else (k', v') :: set d' k v
  end.

Definition keys {V} (d : dict V) : list string := map fst d.
Definition values {V} (d : dict V) : list V := map snd d.

(** [x in l] for a list of strings. *)
Definition mem (x : string) (l : list string) : bool :=
  existsb (String.eqb x) l.

End Py.

(** An emotion vector as stored and passed around: label -> confidence. *)
Definition emotions := Py.dict Q.

(** ** [ml.py]: EmotionAnalyzer *)

Module EmotionAnalyzer.

Definition emotion_weights : Py.dict Q :=
  [ ("happy", 1);
    ("sad", -(8 # 10));
    ("angry", -(1));
    ("surprised", 3 # 10);
    ("fearful", -(7 # 10));
    ("disgusted", -(6 # 10));
    ("neutral", 0) ].

Definition stability_threshold : Q := 3 # 10.

(** Inner loop of [calculate_wellness_score]: one pass over
    [record.items()] accumulating [(record_score, total_intensity)]. *)
Definition record_totals (record : emotions) : Q * Q :=
  fold_left
    (fun acc item =>
       let '(record_score, total_intensity) := acc in
       let '(emotion, value) := item in
       match Py.get emotion_weights emotion with
       | Some weight => (record_score + value * weight, total_intensity + value)
       | None => (record_score, total_intensity)
       end)
    record (0, 0).

Definition calculate_wellness_score (emotions_history : list emotions) : Q :=
  match emotions_history with
  | [] => 1 # 2
  | _ =>
      let scores :=
        fold_left
          (fun scores record =>
             let '(record_score, total_intensity) := record_totals record in
             if Py.gtb total_intensity 0 then
               let normalized_score :=
                 (record_score + total_intensity) / (2 * total_intensity) in
               scores ++ [Py.max 0 (Py.min 1 normalized_score)]
             else scores)
          (Py.slice (Some (-10)%Z) None emotions_history) [] in
      match scores with
      | [] => 1 # 2
      | _ => Py.mean scores
      end
  end.

Definition calculate_stability_score (emotions_history : list emotions) : Q :=
  if (List.length emotions_history <? 3)%nat then 7 # 10
  else
    let recent_records := Py.slice (Some (-5)%Z) None emotions_history in
    let emotion_variances :=
      fold_left
        (fun emotion_variances emotion =>
           let values :=
             map (fun record => Py.get_default record emotion 0) recent_records in
           if (1 <? List.length values)%nat
           then Py.set emotion_variances emotion (Py.var values)
           else emotion_variances)
        (Py.keys emotion_weights) [] in
    let avg_variance := Py.mean (Py.values emotion_variances) in
    let stability := Py.max (1 # 10) (1 - avg_variance / stability_threshold) in
    Py.min 1 stability.

End EmotionAnalyzer.

(** ** [ml.py]: recommendations *)

Record recommendation := {
type : string;
title : string;
description : string;
action : string;
duration : string;
icon : string
}.

Module Rec.

Definition happy_maintain : recommendation :=
  {| type := "maintain";
     title := "Keep the Positive Energy";
     description := "Share your joy with others through meaningful connections";
     action := "Call someone you care about";
     duration := "10-15 min";
     icon := "📞" |}.

Definition happy_creative : recommendation :=
  {| type := "creative";
     title := "Channel Your Energy";
     description := "Use this positive state for productive activities";
     action := "Work on a personal project or hobby";
     duration := "30+ min";
     icon := "🎨" |}.

Definition sad_support : recommendation :=
  {| type := "support";
     title := "Gentle Self-Care";
     description := "Be kind to yourself during this time";
     action := "Take a warm shower or practice deep breathing";
     duration := "15-20 min";
     icon := "🛁" |}.

Definition sad_connection : recommendation :=
  {| type := "connection";
     title := "Reach Out";
     description := "Human connection can provide comfort";
     action := "Text a trusted friend or family member";
     duration := "5-10 min";
     icon := "💬" |}.

Definition sad_mindfulness : recommendation :=
  {| type := "mindfulness";
     title := "Mindful Moment";
     description := "Ground yourself in the present";
     action := "Try a 5-minute guided meditation";
     duration := "5 min";
     icon := "🧘" |}.

Definition angry_release : recommendation :=
  {| type := "release";
     title := "Physical Release";
     description := "Channel anger into movement";
     action := "Take a brisk walk or do some stretches";
     duration := "10-20 min";
     icon := "🚶" |}.

Definition angry_cooling : recommendation :=
  {| type := "cooling";
     title := "Cool Down Period";
     description := "Give yourself time to process";
     action := "Step away and take 10 deep breaths";
     duration := "2-5 min";
     icon := "❄️" |}.

Definition angry_expression : recommendation :=
  {| type := "expression";
     title := "Express Safely";
     description := "Write down your thoughts";
     action := "Journal about what triggered the anger";
     duration := "10-15 min";
     icon := "📝" |}.

Definition surprised_process : recommendation :=
  {| type := "process";
     title := "Process the Moment";
     description := "Take time to understand what happened";
     action := "Reflect on the situation calmly";
     duration := "5-10 min";
     icon := "🤔" |}.

Definition surprised_adaptation : recommendation :=
  {| type := "adaptation";
     title := "Adapt and Learn";
     description := "Use surprise as a learning opportunity";
     action := "Consider what this teaches you";
     duration := "10 min";
     icon := "💡" |}.

Definition fearful_grounding : recommendation :=
  {| type := "grounding";
     title := "Grounding Exercise";
     description := "Focus on your immediate environment";
     action := "Name 5 things you can see, 4 you can touch, 3 you can hear";
     duration := "3-5 min";
     icon := "🌱" |}.

Definition fearful_safety : recommendation :=
  {| type := "safety";
     title := "Create Safety";
     description := "Move to a comfortable, safe space";
     action := "Go somewhere you feel secure";
     duration := "5 min";
     icon := "🏠" |}.

Definition fearful_breathing : recommendation :=
  {| type := "breathing";
     title := "Calm Breathing";
     description := "Regulate your nervous system";
     action := "Practice 4-7-8 breathing technique";
     duration := "5-10 min";
     icon := "🫁" |}.

Definition other_awareness : recommendation :=
  {| type := "awareness";
     title := "Emotional Check-In";
     description := "Tune into how you're really feeling";
     action := "Spend a moment identifying your emotions";
     duration := "3-5 min";
     icon := "🎯" |}.

Definition other_engagement : recommendation :=
  {| type := "engagement";
     title := "Gentle Activity";
     description := "Engage in something mildly pleasant";
     action := "Listen to music or look at nature";
     duration := "10-15 min";
     icon := "🎵" |}.

Definition stability_item : recommendation :=
  {| type := "stability";
     title := "Build Routine";
     description := "Emotions seem fluctuating - establish grounding";
     action := "Create a simple 5-minute daily routine";
     duration := "5 min";
     icon := "⚖️" |}.

Definition wellness_item : recommendation :=
  {| type := "wellness";
     title := "Basic Self-Care";
     description := "Focus on fundamental needs first";
     action := "Ensure you're hydrated and have eaten";
     duration := "5 min";
     icon := "💚" |}.

(** The [if]/[elif] ladder that fills [recommendations] before the
    stability and wellness adjustments. *)
Definition base_recommendations (dominant_emotion : string) (confidence : Q)
  : list recommendation :=
  if String.eqb dominant_emotion "happy" then
    if Py.gtb confidence (7 # 10) then [happy_maintain; happy_creative] else []
  else if String.eqb dominant_emotion "sad" then
    if Py.gtb confidence (6 # 10)
    then [sad_support; sad_connection; sad_mindfulness] else []
  else if String.eqb dominant_emotion "angry" then
    [angry_release; angry_cooling; angry_expression]
  else if String.eqb dominant_emotion "surprised" then
    [surprised_process; surprised_adaptation]
  else if String.eqb dominant_emotion "fearful" then
    [fearful_grounding; fearful_safety; fearful_breathing]
  else
    [other_awareness; other_engagement].

(** [recommendations.insert(0, x)]. *)
Definition insert0 {A} (x : A) (l : list A) : list A := x :: l.

Definition generate_intelligent_recommendations
    (dominant_emotion : string) (confidence wellness_score stability_score : Q)
  : list recommendation :=
  let recommendations := base_recommendations dominant_emotion confidence in
  let recommendations :=
    if Py.ltb stability_score (4 # 10)
    then insert0 stability_item recommendations else recommendations in
  let recommendations :=
    if Py.ltb wellness_score (3 # 10)
    then insert0 wellness_item recommendations else recommendations in
  Py.slice None (Some 4%Z) recommendations.

End Rec.

(** ** [ml.py]: trend classification inside [predict_mood] *)

Module Mood.

Import EmotionAnalyzer.

(** The value bound to [trend] by [predict_mood]; the early return on an
    empty history reports ['stable'] as well. *)
Definition predict_mood_trend (emotions_history : list emotions) : string :=
  match emotions_history with
  | [] => "stable"
  | _ =>
      if (5 <=? List.length emotions_history)%nat then
        let recent_wellness :=
          calculate_wellness_score (Py.slice (Some (-3)%Z) None emotions_history) in
        let earlier_wellness :=
          calculate_wellness_score
            (Py.slice (Some (-6)%Z) (Some (-3)%Z) emotions_history) in
        if Py.gtb recent_wellness (earlier_wellness + (1 # 10)) then "improving"
        else if Py.ltb recent_wellness (earlier_wellness - (1 # 10)) then "declining"
        else "stable"
      else "stable"
  end.

End Mood.

(** ** [analytics.py] *)

Module Analytics.

(** A row of [emotion_records]: the columns the analytics read.  The
    timestamp is kept as an instant; its ISO rendering is presentation. *)
Record EmotionRecord := {
  timestamp : Z;
  emotions_json : emotions
}.

(** Entries appended to [peaks]. *)
Record peak := {
  peak_timestamp : Z;
  peak_emotion : string;
  peak_value : Q;
  peak_baseline : Q;
  intensity : Q
}.

(** Entries appended to [anomalies]; ['type'] is always ['high_intensity']. *)
Record anomaly := {
  anomaly_timestamp : Z;
  anomaly_emotion : string;
  anomaly_value : Q;
  anomaly_type : string
}.

(** [emotion_baselines[emotion].append(value)] on a [defaultdict(list)]. *)
Definition append_value (emotion_baselines : Py.dict (list Q))
    (emotion : string) (value : Q) : Py.dict (list Q) :=
  Py.set emotion_baselines emotion
    (Py.get_default emotion_baselines emotion [] ++ [value]).

(** First loop of [get_emotion_peaks]: all values seen, per emotion. *)
Definition collect_values (records : list EmotionRecord) : Py.dict (list Q) :=
  fold_left
    (fun emotion_baselines record =>
       fold_left
         (fun emotion_baselines item =>
            append_value emotion_baselines (fst item) (snd item))
         (emotions_json record) emotion_baselines)
    records [].

(** Second loop: [baselines[emotion] = sum(values) / len(values)]. *)
Definition compute_baselines (emotion_baselines : Py.dict (list Q)) : Py.dict Q :=
  fold_left
    (fun baselines entry =>
       Py.set baselines (fst entry) (Py.sum (snd entry) / Py.len (snd entry)))
    emotion_baselines [].

Definition threshold_multiplier : Q := 15 # 10.

(** Body of the inner detection loop for one [(emotion, value)] item of
    one record.  [baselines[emotion]] raises [KeyError] on a missing key. *)
Definition scan_item (baselines : Py.dict Q) (record : EmotionRecord)
    (state : list peak * list anomaly) (item : string * Q)
  : option (list peak * list anomaly) :=
  let '(peaks, anomalies) := state in
  let '(emotion, value) := item in
  match Py.get baselines emotion with
  | None => None
  | Some baseline =>
      let peaks :=
        if Py.gtb value (baseline * threshold_multiplier) && Py.gtb value (7 # 10)
        then peaks ++
             [ {| peak_timestamp := timestamp record;
                  peak_emotion := emotion;
                  peak_value := Py.round value 3;
                  peak_baseline := Py.round baseline 3;
                  intensity :=
                    if Py.gtb baseline 0
                    then Py.round (value / baseline) 2 else 1 |} ]
        else peaks in
      let anomalies :=
        if Py.gtb value (9 # 10)
        then anomalies ++
             [ {| anomaly_timestamp := timestamp record;
                  anomaly_emotion := emotion;
                  anomaly_value := Py.round value 3;
                  anomaly_type := "high_intensity" |} ]
        else anomalies in
      Some (peaks, anomalies)
  end.

(** A [for] loop whose body may raise. *)
Fixpoint for_each {S A} (body : S -> A -> option S) (l : list A) (s : S) : option S :=
  match l with
  | [] => Some s
  | x :: l' =>
      match body s x with
      | None => None
      | Some s' => for_each body l' s'
      end
  end.

(** The detection loop over all records: the lists [peaks] and [anomalies]
    as they stand before sorting and truncation. *)
Definition scan_records (baselines : Py.dict Q) (records : list EmotionRecord)
  : option (list peak * list anomaly) :=
  for_each
    (fun state record =>
       for_each (scan_item baselines record) (emotions_json record) state)
    records ([], []).

(** [peaks.sort(key=lambda x: x['intensity'], reverse=True)]: a stable
    sort, so entries with equal intensity keep their relative order. *)
Fixpoint insert_desc (p : peak) (l : list peak) : list peak :=
  match l with
  | [] => [p]
  | q :: l' =>
      if Py.gtb (intensity q) (intensity p)
      then q :: insert_desc p l' else p :: q :: l'
  end.

Definition sort_by_intensity (peaks : list peak) : list peak :=
  fold_right insert_desc [] peaks.

(** Payload of the success response of [/peaks]; the empty-data response
    carries no ['baselines'] entry. *)
Record peaks_payload := {
  peaks : list peak;
  anomalies : list anomaly;
  baselines : option (Py.dict Q)
}.

(** [get_emotion_peaks] on the fetched, timestamp-ordered records.
    [None] stands for the [except] branch (HTTP 500). *)
Definition get_emotion_peaks (records : list EmotionRecord) : option peaks_payload :=
  match records with
  | [] => Some {| peaks := []; anomalies := []; baselines := None |}
  | _ =>
      let emotion_baselines := collect_values records in
      let baselines := compute_baselines emotion_baselines in
      match scan_records baselines records with
      | None => None
      | Some (peaks, anomalies) =>
          let peaks := sort_by_intensity peaks in
          Some {| peaks := Py.slice None (Some 20%Z) peaks;
                  anomalies := Py.slice (Some (-10)%Z) None anomalies;
                  baselines :=
                    Some (map (fun kv => (fst kv, Py.round (snd kv) 3)) baselines) |}
      end
  end.

(** *** Stress levels of [get_pattern_analysis] *)

Definition stress_emotions : list string := ["angry"; "fearful"; "disgusted"; "sad"].
Definition neutral_emotions : list string := ["neutral"; "surprised"].
Definition positive_emotions : list string := ["happy"].

(** [max(emotions.items(), key=lambda x: x[1])] on a non-empty dict: the
    first item in iteration order among those of maximal value. *)
Definition max_item (first : string * Q) (rest : list (string * Q)) : string * Q :=
  fold_left
    (fun best item => if Py.gtb (snd item) (snd best) then item else best)
    rest first.

(** [max(...) if emotions else ('neutral', 0)]. *)
Definition max_emotion (emotions : emotions) : string * Q :=
  match emotions with
  | [] => ("neutral", 0)
  | first :: rest => max_item first rest
  end.

Record stress_counts := {
  high_stress_count : Z;
  medium_stress_count : Z;
  low_stress_count : Z
}.

(** The counting loop over [records]. *)
Definition count_stress (records : list EmotionRecord) : stress_counts :=
  fold_left
    (fun c record =>
       let emotion_name := fst (max_emotion (emotions_json record)) in
       if Py.mem emotion_name stress_emotions then
         {| high_stress_count := high_stress_count c + 1;
            medium_stress_count := medium_stress_count c;
            low_stress_count := low_stress_count c |}
       else if Py.mem emotion_name positive_emotions then
         {| high_stress_count := high_stress_count c;
            medium_stress_count := medium_stress_count c;
            low_stress_count := low_stress_count c + 1 |}
       else
         {| high_stress_count := high_stress_count c;
            medium_stress_count := medium_stress_count c + 1;
            low_stress_count := low_stress_count c |})
    records
    {| high_stress_count := 0; medium_stress_count := 0; low_stress_count := 0 |}.

Record stress_levels := {
  low : Q;
  medium : Q;
  high : Q
}.

(** The ['stressLevels'] entry of the response of [get_pattern_analysis]. *)
Definition get_pattern_analysis_stress (records : list EmotionRecord) : stress_levels :=
  match records with
  | [] => {| low := 333 # 10; medium := 333 # 10; high := 333 # 10 |}
  | _ =>
      let total_records := Z.of_nat (List.length records) in
      let c := count_stress records in
      let pct (count : Z) : Q :=
        if (total_records >? 0)%Z
        then (inject_Z count / inject_Z total_records) * 100
        else 333 # 10 in
      {| low := pct (low_stress_count c);
         medium := pct (medium_stress_count c);
         high := pct (high_stress_count c) |}
  end.

End Analytics.

(** ** [validators.py] *)

Module Validators.

(** Values a decoded JSON request body can hold. *)
Inductive pyval :=
| PNone
| PBool (b : bool)
| PInt (z : Z)
| PFloat (q : Q)
| PNaN
| PInf (negative : bool)
| PStr (s : string)
| PList (l : list pyval)
| PDict (d : list (string * pyval)).

(** [isinstance(value, (int, float))]; [bool] is a subclass of [int]. *)
Definition isinstance_int_float (value : pyval) : bool :=
  match value with
  | PBool _ | PInt _ | PFloat _ | PNaN | PInf _ => true
  | _ => false
  end.

(** [0 <= value <= 1] on a number. *)
Definition in_unit_range (value : pyval) : bool :=
  match value with
  | PBool _ => true
  | PInt z => (0 <=? z)%Z && (z <=? 1)%Z
  | PFloat q => Qle_bool 0 q && Qle_bool q 1
  | _ => false
  end.

Definition required_emotions : list string :=
  ["happy"; "sad"; "angry"; "fearful"; "disgusted"; "surprised"; "neutral"].

(** The [for emotion in required_emotions] loop with its early returns. *)
Fixpoint check_required (emotions : Py.dict pyval) (required : list string) : bool :=
  match required with
  | [] => true
  | emotion :: rest =>
      match Py.get emotions emotion with
      | None => false
      | Some value =>
          if negb (isinstance_int_float value) || negb (in_unit_range value)
          then false
          else check_required emotions rest
      end
  end.

Definition validate_emotion_data (emotions : pyval) : bool :=
  match emotions with
  | PDict d => check_required d required_emotions
  | _ => false
  end.

End Validators.

(** ** The properties under verification, as the specification words them *)

Module Spec.

Import Analytics.

(** The last [n] elements of a sequence (all of it when shorter). *)
Definition last_n {A} (n : nat) (l : list A) : list A :=
  skipn (List.length l - n) l.

(** [clamp(x, lo, hi)]. *)
Definition clamp (x lo hi : Q) : Q := Qmax lo (Qmin hi x).

(** *** Wellness *)

(** The fixed weight table of the scorer. *)
Definition weight (emotion : string) : option Q :=
  if String.eqb emotion "happy" then Some 1
  else if String.eqb emotion "sad" then Some (-(8 # 10))
  else if String.eqb emotion "angry" then Some (-(1))
  else if String.eqb emotion "surprised" then Some (3 # 10)
  else if String.eqb emotion "fearful" then Some (-(7 # 10))
  else if String.eqb emotion "disgusted" then Some (-(6 # 10))
  else if String.eqb emotion "neutral" then Some 0
  else None.

(** The entries of a record that carry a weight, each with its weight. *)
Definition weighted_entries (record : emotions) : list (Q * Q) :=
  flat_map
    (fun item => match weight (fst item) with
                 | Some w => [(snd item, w)]
                 | None => []
                 end)
    record.

(** Sum of value * weight. *)
Definition weighted_sum (record : emotions) : Q :=
  Py.sum (map (fun vw => fst vw * snd vw) (weighted_entries record)).

(** Sum of value. *)
Definition total_intensity (record : emotions) : Q :=
  Py.sum (map fst (weighted_entries record)).

(** The sample a record of positive total intensity contributes. *)
Definition wellness_sample (record : emotions) : Q :=
  clamp ((weighted_sum record + total_intensity record)
         / (2 * total_intensity record)) 0 1.

(** The records of the window that yield a sample. *)
Definition usable (window : list emotions) : list emotions :=
  filter (fun record => if Qlt_le_dec 0 (total_intensity record) then true else false)
         window.

Definition wellness (history : list emotions) : Q :=
  match usable (last_n 10 history) with
  | [] => 1 # 2
  | samples => Py.mean (map wellness_sample samples)
  end.

(** *** Stability *)

Definition canonical_emotions : list string :=
  ["happy"; "sad"; "angry"; "fearful"; "disgusted"; "surprised"; "neutral"].

(** The value a record gives an emotion, a missing one counting as 0. *)
Definition value_of (emotion : string) (record : emotions) : Q :=
  match Py.get record emotion with Some v => v | None => 0 end.

(** Population variance: the mean squared distance to the mean. *)
Definition variance (l : list Q) : Q :=
  Py.mean (map (fun x => (x - Py.mean l) ^ 2) l).

Definition avg_variance (window : list emotions) : Q :=
  Py.mean (map (fun emotion => variance (map (value_of emotion) window))
               canonical_emotions).

Definition stability (history : list emotions) : Q :=
  if lt_dec (List.length history) 3 then 7 # 10
  else clamp (Qmax (1 # 10) (1 - avg_variance (last_n 5 history) / (3 # 10))) 0 1.

(** *** Peaks and anomalies *)

(** The values a record gives an emotion (at most one, keys being distinct). *)
Definition values_in (items : emotions) (emotion : string) : list Q :=
  flat_map (fun item => if String.eqb (fst item) emotion then [snd item] else [])
           items.

(** All values an emotion takes over a record sequence, in order. *)
Definition values_of (records : list EmotionRecord) (emotion : string) : list Q :=
  flat_map (fun record => values_in (emotions_json record) emotion) records.

(** A dict of value lists none of which is empty. *)
Definition populated (d : Py.dict (list Q)) : Prop :=
  forall emotion l, Py.get d emotion = Some l -> l <> [].

(** The baseline of an emotion: its mean over the whole sequence. *)
Definition baseline (records : list EmotionRecord) (emotion : string) : Q :=
  Py.mean (values_of records emotion).

Definition is_peak (records : list EmotionRecord) (emotion : string) (value : Q) : Prop :=
  value > baseline records emotion * (15 # 10) /\ value > 7 # 10.

Definition is_anomaly (value : Q) : Prop := value > 9 # 10.

Definition is_peak_dec records emotion value :
  {is_peak records emotion value} + {~ is_peak records emotion value}.
Proof.
  unfold is_peak.
  destruct (Qlt_le_dec (baseline records emotion * (15 # 10)) value) as [H1|H1];
    [ destruct (Qlt_le_dec (7 # 10) value) as [H2|H2]; [left; split; assumption|] | ];
    right; intros [H3 H4];
    [ apply (Qlt_not_le _ _ H4 H2) | apply (Qlt_not_le _ _ H3 H1) ].
Defined.

Definition is_anomaly_dec value : {is_anomaly value} + {~ is_anomaly value}.
Proof.
  unfold is_anomaly.
  destruct (Qlt_le_dec (9 # 10) value) as [H|H]; [left; exact H|].
  right; intro H'; apply (Qlt_not_le _ _ H' H).
Defined.

(** The intensity of a peak as the claim words it: the plain ratio. *)
Definition ratio_intensity (records : list EmotionRecord) (emotion : string) (value : Q) : Q :=
  if Qlt_le_dec 0 (baseline records emotion)
  then value / baseline records emotion else 1.

(** The intensity of a peak as reported: the ratio rounded to 2 decimals. *)
Definition rounded_intensity (records : list EmotionRecord) (emotion : string) (value : Q) : Q :=
  if Qlt_le_dec 0 (baseline records emotion)
  then Py.round (value / baseline records emotion) 2 else 1.

Definition peak_entry (records : list EmotionRecord) (record : EmotionRecord)
    (emotion : string) (value : Q) : peak :=
  {| peak_timestamp := timestamp record;
     peak_emotion := emotion;
     peak_value := Py.round value 3;
     peak_baseline := Py.round (baseline records emotion) 3;
     intensity := rounded_intensity records emotion value |}.

Definition anomaly_entry (record : EmotionRecord) (emotion : string) (value : Q) : anomaly :=
  {| anomaly_timestamp := timestamp record;
     anomaly_emotion := emotion;
     anomaly_value := Py.round value 3;
     anomaly_type := "high_intensity" |}.

(** Every (record, emotion, value) triple of [scanned], in source order,
    contributes an entry exactly when it is a peak against the baselines
    of [records]. *)
Definition flagged_peaks (records scanned : list EmotionRecord) : list peak :=
  flat_map
    (fun record =>
       flat_map
         (fun item =>
            if is_peak_dec records (fst item) (snd item)
            then [peak_entry records record (fst item) (snd item)] else [])
         (emotions_json record))
    scanned.

Definition flagged_anomalies (scanned : list EmotionRecord) : list anomaly :=
  flat_map
    (fun record =>
       flat_map
         (fun item =>
            if is_anomaly_dec (snd item)
            then [anomaly_entry record (fst item) (snd item)] else [])
         (emotions_json record))
    scanned.

(** Descending order of intensity. *)
Definition by_intensity_desc (p q : peak) : Prop := intensity q <= intensity p.

(** *** Trend *)

(** The records at positions [-6:-3]: the last three of what is left once
    the last three records are taken off. *)
Definition preceding_window {A} (l : list A) : list A :=
  last_n 3 (firstn (List.length l - 3) l).

Inductive trend := Improving | Declining | Stable.

Definition trend_label (t : trend) : string :=
  match t with
  | Improving => "improving"
  | Declining => "declining"
  | Stable => "stable"
  end.

(** *** Stress buckets *)

Inductive bucket := High | Medium | Low.

Definition bucket_eqb (a b : bucket) : bool :=
  match a, b with
  | High, High | Medium, Medium | Low, Low => true
  | _, _ => false
  end.

Definition high_set : list string := ["angry"; "fearful"; "disgusted"; "sad"].
Definition low_set : list string := ["happy"].

Definition bucket_of (emotion : string) : bucket :=
  if in_dec string_dec emotion high_set then High
  else if in_dec string_dec emotion low_set then Low
  else Medium.

(** Number of records whose dominant emotion falls in bucket [b]. *)
Definition bucket_count (b : bucket) (records : list EmotionRecord) : nat :=
  List.length
    (filter (fun record =>
               bucket_eqb (bucket_of (fst (max_emotion (emotions_json record)))) b)
            records).

Definition percentage (count total : nat) : Q :=
  (inject_Z (Z.of_nat count) / inject_Z (Z.of_nat total)) * 100.

(** *** Validation *)

Import Validators.

(** The number a value denotes, when it is a finite number. *)
Definition number_of (v : pyval) : option Q :=
  match v with
  | PBool b => Some (if b then 1 else 0)
  | PInt z => Some (inject_Z z)
  | PFloat q => Some q
  | _ => None
  end.

(** A mapping in which every canonical key is present with a number in [0, 1]. *)
Definition valid_emotion_vector (v : pyval) : Prop :=
  exists d, v = PDict d /\
    forall emotion, In emotion canonical_emotions ->
      exists value q, Py.get d emotion = Some value /\
                      number_of value = Some q /\ 0 <= q /\ q <= 1.

(** A stored emotion vector seen as a request value. *)
Definition as_pyval (record : emotions) : pyval :=
  PDict (map (fun kv => (fst kv, PFloat (snd kv))) record).

End Spec.

(** ** Sample inputs *)

Module Examples.

Import Analytics.

Definition happy_at (t : Z) (value : Q) : EmotionRecord :=
  {| timestamp := t; emotions_json := [("happy", value)] |}.

(** Baseline of "happy" 0.4, with one value 0.9. *)
Definition baseline_04 : list EmotionRecord :=
  [happy_at 1 (9 # 10); happy_at 2 (15 # 100); happy_at 3 (15 # 100)].

(** Baseline of "happy" 0.3, with one value 0.8: the ratio 8/3 has no
    two-decimal expansion. *)
Definition baseline_03 : list EmotionRecord :=
  [happy_at 1 (8 # 10); happy_at 2 (5 # 100); happy_at 3 (5 # 100)].

End Examples.

(** ** More Python primitives *)

Module PyMore.

(** [range(n)]. *)
Definition range (n : Z) : list Z := map Z.of_nat (seq 0 (Z.to_nat n)).

(** [enumerate(l)]. *)
Definition enumerate {A} (l : list A) : list (Z * A) :=
  combine (range (Z.of_nat (List.length l))) l.

(** [max(first, *rest, key=key)]: the first element of maximal key. *)
Definition max_by {A} (key : A -> Q) (first : A) (rest : list A) : A :=
  fold_left (fun best x => if Py.gtb (key x) (key best) then x else best)
            rest first.

(** [any(l)] on numbers: some element is non-zero. *)
Definition any (l : list Q) : bool :=
  existsb (fun v => negb (Qeq_bool v 0)) l.

(** [d[k] += x] on a [defaultdict(float)]. *)
Definition add_to (d : Py.dict Q) (k : string) (x : Q) : Py.dict Q :=
  Py.set d k (Py.get_default d k 0 + x).

(** [d[k] += 1] on a [defaultdict(int)]. *)
Definition incr (d : Py.dict Z) (k : string) : Py.dict Z :=
  Py.set d k (Py.get_default d k 0%Z + 1)%Z.

(** [sorted(l, reverse=True)] on numbers. *)
Fixpoint insert_desc (x : Q) (l : list Q) : list Q :=
  match l with
  | [] => [x]
  | y :: l' => if Py.gtb y x then y :: insert_desc x l' else x :: y :: l'
  end.

Definition sorted_desc (l : list Q) : list Q := fold_right insert_desc [] l.

End PyMore.

(** ** [models/emotion.py] *)

Module Model.

(** [EmotionRecord.get_dominant_emotion]:
    [max(self.emotions_json, key=self.emotions_json.get)], or ['neutral']
    on an empty vector. *)
Definition get_dominant_emotion (emotions_json : emotions) : string :=
  match Py.keys emotions_json with
  | [] => "neutral"
  | first :: rest =>
      PyMore.max_by (fun k => Py.get_default emotions_json k 0) first rest
  end.

End Model.

(** ** [ml.py]: dominant emotion trend, insights, endpoints *)

Module MoodMore.

Import EmotionAnalyzer Rec.

(** The inner loop of [get_dominant_emotion_trend] over one record. *)
Definition add_record (weight : Q) (emotion_totals : Py.dict Q) (record : emotions)
  : Py.dict Q :=
  fold_left
    (fun emotion_totals item =>
       if Py.contains emotion_weights (fst item)
       then PyMore.add_to emotion_totals (fst item) (snd item * weight)
       else emotion_totals)
    record emotion_totals.

(** The loop over [enumerate(recent_records)]: the weighted totals and the
    total weight. *)
Definition accumulate (recent_records : list emotions) : Py.dict Q * Q :=
  fold_left
    (fun state ir =>
       let '(emotion_totals, total_weight) := state in
       let '(i, record) := ir in
       let weight := (inject_Z i + 1) / Py.len recent_records in
       (add_record weight emotion_totals record, total_weight + weight))
    (PyMore.enumerate recent_records) ([], 0).

(** [emotion_totals] once divided by the total weight. *)
Definition normalized_totals (recent_records : list emotions) : Py.dict Q :=
  let '(emotion_totals, total_weight) := accumulate recent_records in
  if Py.gtb total_weight 0
  then map (fun kv => (fst kv, snd kv / total_weight)) emotion_totals
  else emotion_totals.

Definition get_dominant_emotion_trend (emotions_history : list emotions) (lookback : Z)
  : string * Q :=
  match emotions_history with
  | [] => ("neutral", 0)
  | _ =>
      let recent_records := Py.slice (Some (- lookback)%Z) None emotions_history in
      let emotion_totals := normalized_totals recent_records in
      match Py.keys emotion_totals with
      | [] => ("neutral", 0)
      | first :: rest =>
          let dominant :=
            PyMore.max_by (fun k => Py.get_default emotion_totals k 0) first rest in
          let confidence := Py.get_default emotion_totals dominant 0 in
          (dominant, Py.min 1 confidence)
      end
  end.

(** The [insights] list built by [predict_mood]. *)
Definition build_insights (dominant_emotion : string)
    (confidence stability_score wellness_score : Q) : list string :=
  let insights := [] in
  let insights :=
    if Py.gtb confidence (7 # 10) then
      insights ++ ["Your emotions are clearly trending toward "
                   ++ dominant_emotion ++ " feelings"]%string
    else if Py.gtb confidence (4 # 10) then
      insights ++ ["You're experiencing moderate "
                   ++ dominant_emotion ++ " emotions"]%string
    else insights ++ ["Your emotions are quite mixed - this is normal!"] in
  let insights :=
    if Py.gtb stability_score (7 # 10) then
      insights ++ ["Your emotional state is quite stable"]
    else if Py.ltb stability_score (4 # 10) then
      insights ++ ["Your emotions have been fluctuating - consider what might be causing changes"]
    else insights in
  let insights :=
    if Py.gtb wellness_score (7 # 10) then
      insights ++ ["Your overall emotional wellness looks positive"]
    else if Py.ltb wellness_score (3 # 10) then
      insights ++ ["Consider focusing on self-care and support"]
    else insights in
  insights.

Record prediction_dict := {
  dominant_emotion : string;
  confidence : Q;
  trend : string;
  wellness_score : Q;
  stability_score : Q
}.

Record mood_payload := {
  prediction : prediction_dict;
  recommendations : list recommendation;
  insights : list string;
  data_points : option Z
}.

Definition start_item : recommendation :=
  {| type := "start";
     title := "Begin Your Journey";
     description := "Start using the emotion detector to build insights";
     action := "Use the Live Detection feature";
     duration := "2-3 min";
     icon := "🚀" |}.

(** The payload of [predict_mood] for the history returned by
    [get_user_emotion_history]. *)
Definition predict_mood (emotions_history : list emotions) : mood_payload :=
  match emotions_history with
  | [] =>
      {| prediction :=
           {| dominant_emotion := "neutral"; confidence := 0; trend := "stable";
              wellness_score := 1 # 2; stability_score := 7 # 10 |};
         recommendations := [start_item];
         insights := ["Not enough data yet - start by using the emotion detector!"];
         data_points := None |}
  | _ =>
      let '(dominant_emotion, confidence) :=
        get_dominant_emotion_trend emotions_history 5 in
      let wellness_score := calculate_wellness_score emotions_history in
      let stability_score := calculate_stability_score emotions_history in
      let trend := Mood.predict_mood_trend emotions_history in
      let recommendations :=
        generate_intelligent_recommendations
          dominant_emotion confidence wellness_score stability_score in
      {| prediction :=
           {| dominant_emotion := dominant_emotion;
              confidence := Py.round confidence 2;
              trend := trend;
              wellness_score := Py.round wellness_score 2;
              stability_score := Py.round stability_score 2 |};
         recommendations := recommendations;
         insights :=
           build_insights dominant_emotion confidence stability_score wellness_score;
         data_points := Some (Z.of_nat (List.length emotions_history)) |}
  end.

(** The request of [/recommendations]: a POST body's ['emotions'] entry
    ([{}] when absent), or a GET. *)
Inductive rec_request :=
| Post (body_emotions : emotions)
| Get.

Record rec_context := {
  ctx_dominant_emotion : string;
  ctx_confidence : Q;
  ctx_wellness_score : Q;
  ctx_stability_score : Q
}.

Inductive rec_response :=
| RecOk (recommendations : list recommendation) (context : rec_context)
| RecError (message : string) (status : Z).

(** [get_recommendations] of [ml.py]; [history_1day] and [history_3days]
    are what [get_user_emotion_history] returns for 1 and 3 days. *)
Definition get_recommendations (request : rec_request)
    (history_1day history_3days : list emotions) : rec_response :=
  let current_emotions :=
    match request with
    | Post body_emotions => body_emotions
    | Get =>
        match history_1day with
        | [] => [("neutral", 7 # 10); ("happy", 3 # 10)]
        | _ => last history_1day []
        end
    end in
  match Py.keys current_emotions with
  | [] => RecError "No emotion data provided" 400
  | first :: rest =>
      let dominant_emotion :=
        PyMore.max_by (fun k => Py.get_default current_emotions k 0) first rest in
      let confidence := Py.get_default current_emotions dominant_emotion 0 in
      let emotions_history := history_3days in
      let '(wellness_score, stability_score) :=
        match emotions_history with
        | [] => (1 # 2, 7 # 10)
        | _ =>
            (calculate_wellness_score (emotions_history ++ [current_emotions]),
             calculate_stability_score (emotions_history ++ [current_emotions]))
        end in
      let recommendations :=
        generate_intelligent_recommendations
          dominant_emotion confidence wellness_score stability_score in
      RecOk recommendations
            {| ctx_dominant_emotion := dominant_emotion;
               ctx_confidence := Py.round confidence 2;
               ctx_wellness_score := Py.round wellness_score 2;
               ctx_stability_score := Py.round stability_score 2 |}
  end.

End MoodMore.

(** ** [ml.py]: the history the endpoints analyse *)

Module MlHistory.

Import Analytics.

(** What reading an attribute of an [EmotionRecord] row gives: an instant,
    an emotion vector, or a value the analysis never inspects. *)
Inductive attribute :=
| Instant (t : Z)
| Vector (e : emotions)
| Unread.

(** [record.<name>].  The model class (models/emotion.py) declares the
    columns [id], [user_id], [session_id], [emotions_json],
    [confidence_scores] and [timestamp], the backref [session] and the
    methods [to_dict] and [get_dominant_emotion].  Any other name raises
    [AttributeError], here [None]. *)
Definition getattr (record : EmotionRecord) (name : string) : option attribute :=
  if (name =? "timestamp")%string then Some (Instant (timestamp record))
  else if (name =? "emotions_json")%string then Some (Vector (emotions_json record))
  else if Py.mem name ["id"; "user_id"; "session_id"; "confidence_scores";
                       "session"; "to_dict"; "get_dominant_emotion"]
       then Some Unread
       else None.

(** One turn of the loop [for record in records] of
    [get_user_emotion_history]: [if record.emotions: ... append].  The
    attribute read raises before anything is appended; the branches for a
    value are those of a vector, an empty one being falsy. *)
Definition history_step (emotions_list : list emotions) (record : EmotionRecord)
  : option (list emotions) :=
  match getattr record "emotions" with
  | None => None
  | Some (Vector []) => Some emotions_list
  | Some (Vector emotions) => Some (emotions_list ++ [emotions])
  | Some _ => Some emotions_list
  end.

(** [get_user_emotion_history]; [records] are the rows the query returns,
    the user's rows of the last [days] days by ascending timestamp.  The
    body runs inside [try], and [except Exception] returns [[]]. *)
Definition get_user_emotion_history (records : list EmotionRecord) : list emotions :=
  match for_each history_step records [] with
  | Some emotions_list => emotions_list
  | None => []
  end.

(** The endpoint [/predict-mood] on the rows of the last seven days. *)
Definition predict_mood (records : list EmotionRecord) : MoodMore.mood_payload :=
  MoodMore.predict_mood (get_user_emotion_history records).

Definition record_at (t : Z) (e : emotions) : EmotionRecord :=
  {| timestamp := t; emotions_json := e |}.


End MlHistory.

(** ** [analytics.py]: summary, trends, distribution, correlations,
    recommendations *)

Module AnalyticsMore.

Import Analytics.

Definition emotion_keys : list string :=
  ["happy"; "sad"; "angry"; "fearful"; "disgusted"; "surprised"; "neutral"].

(** The literal [{'happy': 0, 'sad': 0, ...}]. *)
Definition zero_emotions : Py.dict Q :=
  [ ("happy", 0); ("sad", 0); ("angry", 0); ("fearful", 0);
    ("disgusted", 0); ("surprised", 0); ("neutral", 0) ].

(** [for emotion in emotion_keys: emotion_sums[emotion] += d.get(emotion, 0)]. *)
Definition add_vector (emotion_sums : Py.dict Q) (d : emotions) : Py.dict Q :=
  fold_left
    (fun emotion_sums emotion =>
       PyMore.add_to emotion_sums emotion (Py.get_default d emotion 0))
    emotion_keys emotion_sums.

(** The ['average_emotions'] and ['dominant_emotion'] entries of
    [get_analytics_summary]. *)
Definition summary_emotions (emotions_in_range : list EmotionRecord)
  : Py.dict Q * string :=
  match emotions_in_range with
  | [] => (zero_emotions, "neutral")
  | _ =>
      let emotion_sums :=
        fold_left
          (fun emotion_sums record =>
             match emotions_json record with
             | [] => emotion_sums
             | _ => add_vector emotion_sums (emotions_json record)
             end)
          emotions_in_range [] in
      if Py.gtb (Py.len emotions_in_range) 0 then
        let average_emotions :=
          map (fun emotion =>
                 (emotion,
                  Py.get_default emotion_sums emotion 0 / Py.len emotions_in_range))
              emotion_keys in
        let dominant_emotion :=
          if PyMore.any (Py.values average_emotions) then
            match Py.keys average_emotions with
            | [] => "neutral"
            | first :: rest =>
                PyMore.max_by (fun k => Py.get_default average_emotions k 0)
                              first rest
            end
          else "neutral" in
        (average_emotions, dominant_emotion)
      else (zero_emotions, "neutral")
  end.

(** [day_averages] of [get_emotion_trends] for the records of one day. *)
Definition day_averages (day_emotions : list EmotionRecord) : Py.dict Q :=
  match day_emotions with
  | [] => map (fun emotion => (emotion, 0)) emotion_keys
  | _ =>
      let emotion_sums :=
        fold_left
          (fun emotion_sums record => add_vector emotion_sums (emotions_json record))
          day_emotions [] in
      map (fun emotion =>
             (emotion, Py.get_default emotion_sums emotion 0 / Py.len day_emotions))
          emotion_keys
  end.

(** Dates are proleptic Gregorian ordinals, as [date.toordinal] gives
    them: day 1 is 0001-01-01, day 3652059 is 9999-12-31. *)
Definition min_ordinal : Z := 1.
Definition max_ordinal : Z := 3652059.

(** [timedelta(days=n)]: raises [OverflowError] beyond 999999999 days. *)
Definition timedelta (days : Z) : option Z :=
  if (Z.abs days <=? 999999999)%Z then Some days else None.

(** [date + delta]: raises [OverflowError] outside the supported dates. *)
Definition date_add (date delta : Z) : option Z :=
  let ordinal := (date + delta)%Z in
  if ((min_ordinal <=? ordinal) && (ordinal <=? max_ordinal))%Z
  then Some ordinal else None.

Section Trends.

(** The per-day query: the records whose timestamp falls on a date. *)
Variable records_on : Z -> list EmotionRecord.

(** One turn of the loop [for i in range(days + 1)]: the entry
    [(date, emotions)] of day [start_date + i]. *)
Definition trend_entry (start_date i : Z) : option (Z * Py.dict Q) :=
  match timedelta i with
  | None => None
  | Some delta =>
      match date_add start_date delta with
      | None => None
      | Some current_date =>
          match date_add current_date 1 with
          | None => None
          | Some next_date =>
              Some (current_date, day_averages (records_on current_date))
          end
      end
  end.

(** [get_emotion_trends] for today's date [end_date] and the request's
    [days]; [None] stands for the [except] branch (HTTP 500). *)
Definition get_emotion_trends (end_date days : Z) : option (list (Z * Py.dict Q)) :=
  match timedelta days with
  | None => None
  | Some delta =>
      match date_add end_date (- delta) with
      | None => None
      | Some start_date =>
          for_each
            (fun trends_data i =>
               match trend_entry start_date i with
               | None => None
               | Some entry => Some (trends_data ++ [entry])
               end)
            (PyMore.range (days + 1)) []
      end
  end.

End Trends.

(** [get_emotion_distribution]: how often each emotion is dominant. *)
Definition get_emotion_distribution (emotions_in_range : list EmotionRecord)
  : Py.dict Z :=
  fold_left
    (fun distribution record =>
       PyMore.incr distribution (Model.get_dominant_emotion (emotions_json record)))
    emotions_in_range [].


(** Entries of the fallback recommendations. *)
Record tip := {
  tip_type : string;
  tip_title : string;
  tip_description : string;
  tip_emotion : string;
  tip_priority : string
}.

Definition get_fallback_recommendations (dominant_emotion : string) : list tip :=
  let recommendations := [] in
  if Py.mem dominant_emotion ["sad"; "angry"; "fearful"] then
    recommendations ++
    [ {| tip_type := "breathing";
         tip_title := "Deep Breathing Exercise";
         tip_description := "Try 4-7-8 breathing: inhale for 4, hold for 7, exhale for 8. Repeat 4 times.";
         tip_emotion := dominant_emotion;
         tip_priority := "high" |};
      {| tip_type := "activity";
         tip_title := "Take a Walk";
         tip_description := "A 10-minute walk outdoors can help improve your mood and reduce stress.";
         tip_emotion := dominant_emotion;
         tip_priority := "medium" |};
      {| tip_type := "music";
         tip_title := "Calming Music";
         tip_description := "Listen to soft instrumental music or nature sounds to help relax your mind.";
         tip_emotion := dominant_emotion;
         tip_priority := "low" |} ]
  else if String.eqb dominant_emotion "happy" then
    recommendations ++
    [ {| tip_type := "activity";
         tip_title := "Share Your Joy";
         tip_description := "Call a friend or family member to share your positive energy with them.";
         tip_emotion := dominant_emotion;
         tip_priority := "medium" |};
      {| tip_type := "tip";
         tip_title := "Practice Gratitude";
         tip_description := "Write down three things you're grateful for today to maintain positive momentum.";
         tip_emotion := dominant_emotion;
         tip_priority := "low" |} ]
  else
    recommendations ++
    [ {| tip_type := "activity";
         tip_title := "Mindfulness Moment";
         tip_description := "Take 5 minutes to focus on your breathing and observe your current feelings.";
         tip_emotion := dominant_emotion;
         tip_priority := "medium" |};
      {| tip_type := "tip";
         tip_title := "Emotional Check-in";
         tip_description := "Ask yourself: How am I feeling right now, and what do I need?";
         tip_emotion := dominant_emotion;
         tip_priority := "low" |} ].

(** The scores [get_recommendations] of [analytics.py] derives from the
    fetched records (non-empty): dominant emotion, confidence, wellness and
    stability. *)
Record derived_scores := {
  dominant_emotion_name : string;
  confidence : Q;
  wellness_score : Q;
  stability_score : Q
}.

(** The averaged [emotion_counts]. *)
Definition average_counts (recent_records : list EmotionRecord) : Py.dict Q :=
  let '(emotion_counts, total_records) :=
    fold_left
      (fun state record =>
         let '(emotion_counts, total_records) := state in
         let total_records := (total_records + 1)%Z in
         (fold_left
            (fun emotion_counts item =>
               PyMore.add_to emotion_counts (fst item) (snd item))
            (emotions_json record) emotion_counts,
          total_records))
      recent_records ([], 0%Z) in
  match emotion_counts with
  | [] => emotion_counts
  | _ => map (fun kv => (fst kv, snd kv / inject_Z total_records)) emotion_counts
  end.

Definition derive_scores (recent_records : list EmotionRecord) : derived_scores :=
  let emotion_counts := average_counts recent_records in
  let '(dominant_emotion_name, confidence) :=
    match emotion_counts with
    | [] => ("neutral", 1 # 2)
    | first :: rest =>
        let dominant_emotion := max_item first rest in
        (fst dominant_emotion, Py.min (snd dominant_emotion) 1)
    end in
  let positive_emotions :=
    Py.get_default emotion_counts "happy" 0
    + Py.get_default emotion_counts "surprised" 0 in
  let wellness_score :=
    if Py.gtb positive_emotions 0 then Py.min (positive_emotions / 2) 1
    else 3 # 10 in
  let stability_score :=
    if (0 <? List.length emotion_counts)%nat then
      let sorted_emotions := PyMore.sorted_desc (Py.values emotion_counts) in
      let top_emotion_percentage :=
        match sorted_emotions with
        | [] => 0
        | top :: _ => top
        end in
      Py.min top_emotion_percentage 1
    else 1 # 2 in
  {| dominant_emotion_name := dominant_emotion_name;
     confidence := confidence;
     wellness_score := wellness_score;
     stability_score := stability_score |}.

Inductive recommendation_list :=
| MlRecommendations (l : list recommendation)
| Tips (l : list tip).

Definition start_tip : tip :=
  {| tip_type := "tip";
     tip_title := "Start Your Journey";
     tip_description := "Begin tracking your emotions to get personalized insights and recommendations.";
     tip_emotion := "general";
     tip_priority := "medium" |}.

(** [get_recommendations] of [analytics.py] on the fetched records;
    [ML_AVAILABLE] tells whether the import of [ml.py] succeeded. *)
Definition get_recommendations (ML_AVAILABLE : bool)
    (recent_records : list EmotionRecord) : recommendation_list :=
  match recent_records with
  | [] => Tips [start_tip]
  | _ =>
      let s := derive_scores recent_records in
      if ML_AVAILABLE then
        MlRecommendations
          (Rec.generate_intelligent_recommendations
             (dominant_emotion_name s) (confidence s)
             (wellness_score s) (stability_score s))
      else Tips (get_fallback_recommendations (dominant_emotion_name s))
  end.

End AnalyticsMore.

(** ** [responses.py] *)

Module Responses.

Record pagination := {
  page : Z;
  per_page : Z;
  total : Z;
  pages : Z;
  has_prev : bool;
  has_next : bool
}.

(** The ['pagination'] entry built by [paginated_response]; [//] raises
    [ZeroDivisionError] on [per_page = 0]. *)
Definition paginated_response (page per_page total : Z) : option pagination :=
  if (per_page =? 0)%Z then None
  else
    Some {| page := page;
            per_page := per_page;
            total := total;
            pages := ((total + per_page - 1) / per_page)%Z;
            has_prev := (page >? 1)%Z;
            has_next := (page <? (total + per_page - 1) / per_page)%Z |}.

End Responses.

(** ** Recency-weighted means, for the dominant emotion trend *)

Module SpecMore.

(** What a record contributes for an emotion: its value when the emotion
    carries a weight in the scorer's table, nothing otherwise. *)
Definition weighted_value (record : emotions) (emotion : string) : Q :=
  if Py.contains EmotionAnalyzer.emotion_weights emotion
  then Py.sum (Spec.values_in record emotion) else 0.

(** The weight of the record at position [i] of a window of [n] records. *)
Definition recency_weight (n : nat) (i : Z) : Q :=
  (inject_Z i + 1) / inject_Z (Z.of_nat n).

Definition total_weight (window : list emotions) : Q :=
  Py.sum (map (fun ir => recency_weight (List.length window) (fst ir))
              (PyMore.enumerate window)).

Definition recency_total (window : list emotions) (emotion : string) : Q :=
  Py.sum (map (fun ir => recency_weight (List.length window) (fst ir)
                         * weighted_value (snd ir) emotion)
              (PyMore.enumerate window)).

(** The recency-weighted mean of an emotion over a window. *)
Definition recency_mean (window : list emotions) (emotion : string) : Q :=
  recency_total window emotion / total_weight window.

(** A weighted emotion that some record of the window mentions. *)
Definition observed (window : list emotions) (emotion : string) : Prop :=
  Py.contains EmotionAnalyzer.emotion_weights emotion = true
  /\ exists record, In record window /\ In emotion (Py.keys record).

End SpecMore.

(** ** Floating-point numbers

    The numbers of the running program are IEEE 754 binary64 values.
    Where a result depends on how a comparison at a threshold or a decimal
    rounding comes out, the code is modelled on these, with the
    processor's operations. *)

Module PyFloat.

(** [a > b] and [a < b]: false when either side is NaN. *)
Definition gtb (a b : float) : bool := PrimFloat.ltb b a.
Definition ltb (a b : float) : bool := PrimFloat.ltb a b.

(** [float(n)] for a small non-negative integer. *)
Definition of_int (n : Z) : float := PrimFloat.of_uint63 (Uint63.of_Z n).

(** [len(l)], as the float it becomes in a division. *)
Definition len {A} (l : list A) : float := of_int (Z.of_nat (List.length l)).

(** The exact value [m * 2^e] of a finite float's magnitude. *)
Definition magnitude (m : positive) (e : Z) : Q :=
  match e with
  | Zneg p => Z.pos m # (2 ^ p)%positive
  | _ => inject_Z (Z.pos m * 2 ^ e)
  end.

(** [round(x, ndigits)] for [0 <= ndigits]: the float nearest to the
    decimal with [ndigits] places nearest to the exact value of [x], ties
    between decimals going to the even one.  Zeros, infinities and NaN are
    returned as they are; so is a float too large to have a fraction. *)
Definition round (x : float) (ndigits : nat) : float :=
  match FloatOps.Prim2SF x with
  | SpecFloat.S754_finite negative m e =>
      let scale := (10 ^ Z.of_nat ndigits)%Z in
      let n := Py.round_half_even (magnitude m e * inject_Z scale) in
      if (n <? 2 ^ 53)%Z then
        let r := PrimFloat.div (of_int n) (of_int scale) in
        if negative then PrimFloat.opp r else r
      else x
  | _ => x
  end.

(** [sum(l)] on floats up to CPython 3.11: additions from left to right. *)
Definition sum_left (l : list float) : float :=
  fold_left PrimFloat.add l 0%float.

(** [sum(l)] on floats from CPython 3.12 on: Neumaier's compensated
    summation. *)
Definition compensated_step (state : float * float) (x : float) : float * float :=
  let '(f_result, c) := state in
  let t := PrimFloat.add f_result x in
  let c :=
    if PrimFloat.leb (PrimFloat.abs x) (PrimFloat.abs f_result)
    then PrimFloat.add c (PrimFloat.add (PrimFloat.sub f_result t) x)
    else PrimFloat.add c (PrimFloat.add (PrimFloat.sub x t) f_result) in
  (t, c).

Definition sum_compensated (l : list float) : float :=
  let '(f_result, c) := fold_left compensated_step l (0%float, 0%float) in
  if negb (PrimFloat.eqb c 0%float)
     && PrimFloat.ltb (PrimFloat.abs c) PrimFloat.infinity
  then PrimFloat.add f_result c
  else f_result.

End PyFloat.

(** ** [ml.py]: recommendations, on floats *)

Module FloatRec.

Import Rec.

Definition base_recommendations (dominant_emotion : string) (confidence : float)
  : list recommendation :=
  if String.eqb dominant_emotion "happy" then
    if PyFloat.gtb confidence 0.7%float then [happy_maintain; happy_creative] else []
  else if String.eqb dominant_emotion "sad" then
    if PyFloat.gtb confidence 0.6%float
    then [sad_support; sad_connection; sad_mindfulness] else []
  else if String.eqb dominant_emotion "angry" then
    [angry_release; angry_cooling; angry_expression]
  else if String.eqb dominant_emotion "surprised" then
    [surprised_process; surprised_adaptation]
  else if String.eqb dominant_emotion "fearful" then
    [fearful_grounding; fearful_safety; fearful_breathing]
  else
    [other_awareness; other_engagement].

Definition generate_intelligent_recommendations
    (dominant_emotion : string) (confidence wellness_score stability_score : float)
  : list recommendation :=
  let recommendations := base_recommendations dominant_emotion confidence in
  let recommendations :=
    if PyFloat.ltb stability_score 0.4%float
    then insert0 stability_item recommendations else recommendations in
  let recommendations :=
    if PyFloat.ltb wellness_score 0.3%float
    then insert0 wellness_item recommendations else recommendations in
  Py.slice None (Some 4%Z) recommendations.

End FloatRec.

(** ** [analytics.py]: peaks, anomalies and patterns, on floats *)

Module FloatAnalytics.

Import Analytics.

(** A row of [emotion_records] with the numbers as stored. *)
Record EmotionRecord := {
  timestamp : Z;
  emotions_json : Py.dict float
}.

Record peak := {
  peak_timestamp : Z;
  peak_emotion : string;
  peak_value : float;
  peak_baseline : float;
  intensity : float
}.

Record anomaly := {
  anomaly_timestamp : Z;
  anomaly_emotion : string;
  anomaly_value : float;
  anomaly_type : string
}.

(** [emotion_baselines[emotion].append(value)] on a [defaultdict(list)]. *)
Definition append_value (emotion_baselines : Py.dict (list float))
    (emotion : string) (value : float) : Py.dict (list float) :=
  Py.set emotion_baselines emotion
    (Py.get_default emotion_baselines emotion [] ++ [value]).

(** First loop of [get_emotion_peaks]: all values seen, per emotion. *)
Definition collect_values (records : list EmotionRecord) : Py.dict (list float) :=
  fold_left
    (fun emotion_baselines record =>
       fold_left
         (fun emotion_baselines item =>
            append_value emotion_baselines (fst item) (snd item))
         (emotions_json record) emotion_baselines)
    records [].

Definition threshold_multiplier : float := 1.5%float.

Section Interpreter.

(** The built-in [sum] on a list of floats; which additions it makes
    depends on the interpreter's version ([PyFloat.sum_left],
    [PyFloat.sum_compensated]). *)
Variable sum : list float -> float.

(** Second loop: [baselines[emotion] = sum(values) / len(values)]. *)
Definition compute_baselines (emotion_baselines : Py.dict (list float))
  : Py.dict float :=
  fold_left
    (fun baselines entry =>
       Py.set baselines (fst entry)
         (PrimFloat.div (sum (snd entry)) (PyFloat.len (snd entry))))
    emotion_baselines [].

(** Body of the inner detection loop for one [(emotion, value)] item of
    one record.  [baselines[emotion]] raises [KeyError] on a missing key. *)
Definition scan_item (baselines : Py.dict float) (record : EmotionRecord)
    (state : list peak * list anomaly) (item : string * float)
  : option (list peak * list anomaly) :=
  let '(peaks, anomalies) := state in
  let '(emotion, value) := item in
  match Py.get baselines emotion with
  | None => None
  | Some baseline =>
      let peaks :=
        if PyFloat.gtb value (PrimFloat.mul baseline threshold_multiplier)
           && PyFloat.gtb value 0.7%float
        then peaks ++
             [ {| peak_timestamp := timestamp record;
                  peak_emotion := emotion;
                  peak_value := PyFloat.round value 3;
                  peak_baseline := PyFloat.round baseline 3;
                  intensity :=
                    if PyFloat.gtb baseline 0%float
                    then PyFloat.round (PrimFloat.div value baseline) 2
                    else 1%float |} ]
        else peaks in
      let anomalies :=
        if PyFloat.gtb value 0.9%float
        then anomalies ++
             [ {| anomaly_timestamp := timestamp record;
                  anomaly_emotion := emotion;
                  anomaly_value := PyFloat.round value 3;
                  anomaly_type := "high_intensity" |} ]
        else anomalies in
      Some (peaks, anomalies)
  end.

(** The detection loop over all records: the lists [peaks] and [anomalies]
    as they stand before sorting and truncation. *)
Definition scan_records (baselines : Py.dict float) (records : list EmotionRecord)
  : option (list peak * list anomaly) :=
  for_each
    (fun state record =>
       for_each (scan_item baselines record) (emotions_json record) state)
    records ([], []).

(** [get_emotion_peaks] on the fetched records, up to the end of the
    detection loop. *)
Definition detect_peaks (records : list EmotionRecord)
  : option (list peak * list anomaly) :=
  scan_records (compute_baselines (collect_values records)) records.

(** The ['baselines'] entry of the response of [get_emotion_peaks]: absent
    from the empty-data response; the outer [None] stands for the [except]
    branch (HTTP 500). *)
Definition baselines_entry (records : list EmotionRecord)
  : option (option (Py.dict float)) :=
  match records with
  | [] => Some None
  | _ =>
      let baselines := compute_baselines (collect_values records) in
      match scan_records baselines records with
      | None => None
      | Some _ =>
          Some (Some (map (fun kv => (fst kv, PyFloat.round (snd kv) 3)) baselines))
      end
  end.

End Interpreter.

(** *** [get_emotion_patterns] *)

(** Instants are microseconds since 0001-01-01T00:00:00, the first
    instant a [datetime] holds; the last one ends 9999-12-31. *)
Definition microseconds_per_hour : Z := 3600000000.
Definition microseconds_per_day : Z := 86400000000.
Definition max_instant : Z := 3652059 * microseconds_per_day - 1.

(** [timestamp.hour], and [timestamp.weekday()] with Monday 0:
    0001-01-01 is a Monday. *)
Definition hour_of (t : Z) : Z := ((t / microseconds_per_hour) mod 24)%Z.
Definition weekday_of (t : Z) : Z := ((t / microseconds_per_day) mod 7)%Z.

(** [now - timedelta(days=days)]: [timedelta] raises [OverflowError]
    beyond 999999999 days, the subtraction outside the instants a
    [datetime] holds. *)
Definition days_before (now days : Z) : option Z :=
  if (Z.abs days <=? 999999999)%Z then
    let t := (now - days * microseconds_per_day)%Z in
    if ((0 <=? t) && (t <=? max_instant))%Z then Some t else None
  else None.

(** A dict with integer keys, in insertion order. *)
Definition zdict (V : Type) := list (Z * V).

Fixpoint zget {V} (d : zdict V) (k : Z) : option V :=
  match d with
  | [] => None
  | (k', v) :: d' => if (k =? k')%Z then Some v else zget d' k
  end.

Fixpoint zset {V} (d : zdict V) (k : Z) (v : V) : zdict V :=
  match d with
  | [] => [(k, v)]
  | (k', v') :: d' =>
      if (k =? k')%Z then (k', v) :: d' else (k', v') :: zset d' k v
  end.

(** [patterns[bucket]] on a [defaultdict(lambda: defaultdict(list))]. *)
Definition inner {V} (patterns : zdict (Py.dict V)) (bucket : Z) : Py.dict V :=
  match zget patterns bucket with Some d => d | None => [] end.

(** [patterns[bucket][emotion].append(value)]. *)
Definition append_at (patterns : zdict (Py.dict (list float)))
    (bucket : Z) (emotion : string) (value : float) : zdict (Py.dict (list float)) :=
  zset patterns bucket (append_value (inner patterns bucket) emotion value).

(** [values = patterns[bucket][emotion]]. *)
Definition values_at (patterns : zdict (Py.dict (list float)))
    (bucket : Z) (emotion : string) : list float :=
  Py.get_default (inner patterns bucket) emotion [].

Definition pattern_emotions : list string :=
  ["happy"; "sad"; "angry"; "fearful"; "disgusted"; "surprised"; "neutral"].

Definition day_names : list string :=
  ["Monday"; "Tuesday"; "Wednesday"; "Thursday"; "Friday"; "Saturday"; "Sunday"].

Record hour_info := {
  hour : Z;
  hour_emotions : Py.dict float
}.

Record day_info := {
  day : string;
  day_num : Z;
  day_emotions : Py.dict float
}.

(** The loop filling [hour_patterns] and [day_patterns]. *)
Definition fill_patterns (records : list EmotionRecord)
  : zdict (Py.dict (list float)) * zdict (Py.dict (list float)) :=
  fold_left
    (fun state record =>
       let emotions := emotions_json record in
       let hour := hour_of (timestamp record) in
       let day_of_week := weekday_of (timestamp record) in
       fold_left
         (fun state item =>
            let '(hour_patterns, day_patterns) := state in
            (append_at hour_patterns hour (fst item) (snd item),
             append_at day_patterns day_of_week (fst item) (snd item)))
         emotions state)
    records ([], []).

Section Patterns.

Variable sum : list float -> float.

(** The emotion entries of one [hour_info] or [day_info]:
    [round(sum(values) / len(values), 3) if values else 0]. *)
Definition bucket_averages (patterns : zdict (Py.dict (list float))) (bucket : Z)
  : Py.dict float :=
  map (fun emotion =>
         let values := values_at patterns bucket emotion in
         (emotion,
          match values with
          | [] => 0%float
          | _ => PyFloat.round (PrimFloat.div (sum values) (PyFloat.len values)) 3
          end))
      pattern_emotions.

(** [get_emotion_patterns]: the ['hourly_patterns'] and ['daily_patterns']
    entries of the response, for the user's stored rows in the order the
    query returns them, the current instant and the request's [days];
    [None] stands for the [except] branch (HTTP 500). *)
Definition get_emotion_patterns (stored : list EmotionRecord) (now days : Z)
  : option (list hour_info * list day_info) :=
  match days_before now days with
  | None => None
  | Some start_date =>
      let records :=
        filter (fun record => (start_date <=? timestamp record)%Z) stored in
      let '(hour_patterns, day_patterns) := fill_patterns records in
      let hour_data :=
        map (fun hour =>
               {| hour := hour; hour_emotions := bucket_averages hour_patterns hour |})
            (PyMore.range 24) in
      let day_data :=
        map (fun day =>
               {| day := nth (Z.to_nat day) day_names "";
                  day_num := day;
                  day_emotions := bucket_averages day_patterns day |})
            (PyMore.range 7) in
      Some (hour_data, day_data)
  end.

End Patterns.

End FloatAnalytics.

(** ** Peaks, anomalies and bucket means as the specification words them,
    on floats *)

Module FloatSpec.

Import FloatAnalytics.

(** The values a record gives an emotion (at most one, keys being distinct). *)
Definition values_in (items : Py.dict float) (emotion : string) : list float :=
  flat_map (fun item => if String.eqb (fst item) emotion then [snd item] else [])
           items.

(** All values an emotion takes over a record sequence, in order. *)
Definition values_of (records : list EmotionRecord) (emotion : string) : list float :=
  flat_map (fun record => values_in (emotions_json record) emotion) records.

(** A dict of value lists none of which is empty. *)
Definition populated (d : Py.dict (list float)) : Prop :=
  forall emotion l, Py.get d emotion = Some l -> l <> [].

Section Interpreter.

Variable sum : list float -> float.

(** The mean of a list of values. *)
Definition mean (values : list float) : float :=
  PrimFloat.div (sum values) (PyFloat.len values).

(** The baseline of an emotion: its mean over the whole sequence. *)
Definition baseline (records : list EmotionRecord) (emotion : string) : float :=
  mean (values_of records emotion).

(** [value > baseline * 1.5 and value > 0.7]. *)
Definition is_peak (records : list EmotionRecord) (emotion : string) (value : float)
  : bool :=
  PyFloat.gtb value (PrimFloat.mul (baseline records emotion) 1.5%float)
  && PyFloat.gtb value 0.7%float.

Definition is_anomaly (value : float) : bool := PyFloat.gtb value 0.9%float.

(** The intensity of a peak as the claim words it: the plain ratio. *)
Definition ratio_intensity (records : list EmotionRecord) (emotion : string)
    (value : float) : float :=
  if PyFloat.gtb (baseline records emotion) 0%float
  then PrimFloat.div value (baseline records emotion) else 1%float.

(** The intensity of a peak as reported: the ratio rounded to 2 decimals. *)
Definition rounded_intensity (records : list EmotionRecord) (emotion : string)
    (value : float) : float :=
  if PyFloat.gtb (baseline records emotion) 0%float
  then PyFloat.round (PrimFloat.div value (baseline records emotion)) 2
  else 1%float.

Definition peak_entry (records : list EmotionRecord) (record : EmotionRecord)
    (emotion : string) (value : float) : peak :=
  {| peak_timestamp := timestamp record;
     peak_emotion := emotion;
     peak_value := PyFloat.round value 3;
     peak_baseline := PyFloat.round (baseline records emotion) 3;
     intensity := rounded_intensity records emotion value |}.

Definition anomaly_entry (record : EmotionRecord) (emotion : string) (value : float)
  : anomaly :=
  {| anomaly_timestamp := timestamp record;
     anomaly_emotion := emotion;
     anomaly_value := PyFloat.round value 3;
     anomaly_type := "high_intensity" |}.

(** Every (record, emotion, value) triple of [scanned], in source order,
    contributes an entry exactly when it is a peak against the baselines
    of [records]. *)
Definition flagged_peaks (records scanned : list EmotionRecord) : list peak :=
  flat_map
    (fun record =>
       flat_map
         (fun item =>
            if is_peak records (fst item) (snd item)
            then [peak_entry records record (fst item) (snd item)] else [])
         (emotions_json record))
    scanned.

Definition flagged_anomalies (scanned : list EmotionRecord) : list anomaly :=
  flat_map
    (fun record =>
       flat_map
         (fun item =>
            if is_anomaly (snd item)
            then [anomaly_entry record (fst item) (snd item)] else [])
         (emotions_json record))
    scanned.

(** The averaged vector of a bucket of records: per canonical emotion, the
    mean of the values the bucket's records give it, rounded to three
    decimals, and 0 when no record of the bucket mentions the emotion. *)
Definition bucket_means (bucket : list EmotionRecord) : Py.dict float :=
  map (fun emotion =>
         (emotion,
          match values_of bucket emotion with
          | [] => 0%float
          | values => PyFloat.round (mean values) 3
          end))
      Spec.canonical_emotions.

End Interpreter.

(** The records of [stored] from [start_date] on that fall in an hour of
    the day, or on a day of the week. *)
Definition in_hour (stored : list EmotionRecord) (start_date h : Z)
  : list EmotionRecord :=
  filter (fun record =>
            (start_date <=? timestamp record)%Z
            && (hour_of (timestamp record) =? h)%Z)
         stored.

Definition on_weekday (stored : list EmotionRecord) (start_date d : Z)
  : list EmotionRecord :=
  filter (fun record =>
            (start_date <=? timestamp record)%Z
            && (weekday_of (timestamp record) =? d)%Z)
         stored.

End FloatSpec.

(** Sample inputs, on floats. *)
Module FloatExamples.

Import FloatAnalytics.

Definition happy_at (t : Z) (value : float) : EmotionRecord :=
  {| timestamp := t; emotions_json := [("happy", value)] |}.

(** Baseline of "happy" 0.4, with one value 0.9. *)
Definition baseline_04 : list EmotionRecord :=
  [happy_at 1 0.9%float; happy_at 2 0.1%float; happy_at 3 0.1%float;
   happy_at 4 0.5%float].

(** Baseline of "happy" 0.3, with one value 0.8. *)
Definition baseline_03 : list EmotionRecord :=
  [happy_at 1 0.8%float; happy_at 2 0.05%float; happy_at 3 0.05%float].

(** Baseline of "happy" 0.6, with one value 0.9: the float product
    0.6 * 1.5 lies below 0.9. *)
Definition baseline_06 : list EmotionRecord :=
  [happy_at 1 0.9%float; happy_at 2 0.3%float].

(** One value with a third decimal to round away. *)
Definition one_value : list EmotionRecord := [happy_at 1 0.9015%float].

(** Two rows of a Thursday, between 05:00 and 06:00, and one an hour
    later; the instant [now] is the end of that day. *)
Definition thursday : Z := 739000 * microseconds_per_day.
Definition now : Z := thursday + microseconds_per_day.
Definition stored : list EmotionRecord :=
  [ happy_at (thursday + 5 * microseconds_per_hour) 0.9015%float;
    happy_at (thursday + 5 * microseconds_per_hour + 1) 0.9015%float;
    happy_at (thursday + 6 * microseconds_per_hour) 0.25%float ].

End FloatExamples.

(** * Verification *)

(** ** Comparisons, [max] and [min] *)

Lemma ltb_lt (a b : Q) : Py.ltb a b = true <-> a < b.
Proof.
  unfold Py.ltb. rewrite Qlt_alt.
  destruct (a ?= b); split; intro H; try reflexivity; discriminate H.
Qed.

Lemma ltb_ge (a b : Q) : Py.ltb a b = false <-> b <= a.
Proof.
  unfold Py.ltb. rewrite Qle_alt, <- Qgt_alt, Qlt_alt.
  destruct (a ?= b) eqn:E; split; intro H; try reflexivity; try discriminate H;
    try (intro H'; discriminate H').
  exfalso. apply H. reflexivity.
Qed.

Lemma gtb_gt (a b : Q) : Py.gtb a b = true <-> a > b.
Proof. unfold Py.gtb. apply ltb_lt. Qed.

Lemma gtb_le (a b : Q) : Py.gtb a b = false <-> a <= b.
Proof. unfold Py.gtb. apply ltb_ge. Qed.

Lemma ltb_dec (a b : Q) :
  Py.ltb a b = if Qlt_le_dec a b then true else false.
Proof.
  destruct (Qlt_le_dec a b) as [H|H].
  - apply ltb_lt, H.
  - apply ltb_ge, H.
Qed.


Lemma py_max_Qmax (a b : Q) : Py.max a b == Qmax a b.
Proof.
  unfold Py.max. destruct (Py.gtb b a) eqn:E.
  - apply gtb_gt in E. symmetry. apply Q.max_r. apply Qlt_le_weak, E.
  - apply gtb_le in E. symmetry. apply Q.max_l, E.
Qed.

Lemma py_min_Qmin (a b : Q) : Py.min a b == Qmin a b.
Proof.
  unfold Py.min. destruct (Py.ltb b a) eqn:E.
  - apply ltb_lt in E. symmetry. apply Q.min_r. apply Qlt_le_weak, E.
  - apply ltb_ge in E. symmetry. apply Q.min_l, E.
Qed.

(** ** Slices *)

Lemma slice_prefix {A} (n : nat) (l : list A) :
  Py.slice None (Some (Z.of_nat n)) l = firstn n l.
Proof.
  unfold Py.slice, Py.clip. simpl skipn.
  destruct (Z.ltb_spec (Z.of_nat n) 0) as [H|_]; [lia|].
  rewrite Z.sub_0_r.
  destruct (Z.min_spec (Z.of_nat n) (Z.of_nat (List.length l))) as [[H E]|[H E]];
    rewrite E.
  - rewrite Nat2Z.id. reflexivity.
  - rewrite Nat2Z.id. rewrite firstn_all.
    symmetry. apply firstn_all2. lia.
Qed.

Lemma slice_suffix {A} (n : nat) (l : list A) :
  (0 < n)%nat ->
  Py.slice (Some (- Z.of_nat n)%Z) None l = Spec.last_n n l.
Proof.
  intro Hn. unfold Py.slice, Py.clip, Spec.last_n.
  destruct (Z.ltb_spec (- Z.of_nat n) 0) as [_|H]; [|lia].
  replace (Z.to_nat (Z.max (- Z.of_nat n + Z.of_nat (List.length l)) 0))
    with (List.length l - n)%nat by lia.
  apply firstn_all2. rewrite length_skipn. lia.
Qed.

(** ** Recommendations *)

Import Rec.

(** C1.  The final list is the base list with the stability item put in
    front when stability < 0.4, then the wellness item put in front when
    wellness < 0.3, cut to its first four entries; on wellness 0.2,
    stability 0.2, dominant "sad", confidence 0.8 it is the wellness item,
    the stability item and the first two "sad" items. *)
Theorem recommendations_prepend_then_truncate :
  forall (dominant : string) (confidence wellness stability : Q),
    let base := base_recommendations dominant confidence in
    let with_stability :=
      if Qlt_le_dec stability (4 # 10) then stability_item :: base else base in
    let with_wellness :=
      if Qlt_le_dec wellness (3 # 10)
      then wellness_item :: with_stability else with_stability in
    generate_intelligent_recommendations dominant confidence wellness stability
      = firstn 4 with_wellness
    /\ (List.length
          (generate_intelligent_recommendations dominant confidence wellness stability)
        <= 4)%nat
    /\ (List.length base <= 3)%nat
    /\ generate_intelligent_recommendations "sad" (8 # 10) (2 # 10) (2 # 10)
       = [wellness_item; stability_item; sad_support; sad_connection].
Proof.
  intros dominant confidence wellness stability base with_stability with_wellness.
  assert (E : generate_intelligent_recommendations dominant confidence wellness stability
              = firstn 4 with_wellness).
  { unfold generate_intelligent_recommendations, insert0.
    rewrite (slice_prefix 4). rewrite !ltb_dec.
    subst with_wellness with_stability base.
    destruct (Qlt_le_dec stability (4 # 10)), (Qlt_le_dec wellness (3 # 10));
      reflexivity. }
  split; [exact E|]. split; [rewrite E; apply firstn_le_length|].
  split; [|reflexivity].
  subst base. unfold base_recommendations.
  repeat match goal with
         | |- context [if ?b then _ else _] => destruct b
         end; simpl; lia.
Qed.

(** C8.  With dominant emotion "happy" and confidence at most 0.7 the base
    rule yields nothing, so with wellness >= 0.3 and stability >= 0.4 the
    engine returns the empty list; above 0.7 the base list is the two
    "happy" items. *)
Theorem happy_gated_by_confidence :
  forall confidence : Q,
    (confidence <= 7 # 10 ->
       base_recommendations "happy" confidence = [] /\
       forall wellness stability : Q,
         3 # 10 <= wellness -> 4 # 10 <= stability ->
         generate_intelligent_recommendations "happy" confidence wellness stability = [])
    /\ (confidence > 7 # 10 ->
          base_recommendations "happy" confidence = [happy_maintain; happy_creative] /\
          base_recommendations "happy" confidence <> []).
Proof.
  intro confidence. split.
  - intro Hc.
    assert (B : base_recommendations "happy" confidence = []).
    { unfold base_recommendations. simpl String.eqb. cbv iota.
      apply gtb_le in Hc. rewrite Hc. reflexivity. }
    split; [exact B|].
    intros wellness stability Hw Hs.
    unfold generate_intelligent_recommendations. rewrite B.
    apply ltb_ge in Hw. apply ltb_ge in Hs. rewrite Hw, Hs. reflexivity.
  - intro Hc.
    assert (B : base_recommendations "happy" confidence
                = [happy_maintain; happy_creative]).
    { unfold base_recommendations. simpl String.eqb. cbv iota.
      apply gtb_gt in Hc. rewrite Hc. reflexivity. }
    split; [exact B|]. rewrite B. discriminate.
Qed.

Lemma happy_gated_by_confidence_witness :
  generate_intelligent_recommendations "happy" (1 # 2) (1 # 2) (1 # 2) = []
  /\ base_recommendations "happy" (8 # 10) = [happy_maintain; happy_creative].
Proof.
  split.
  - apply (proj1 (happy_gated_by_confidence (1 # 2))).
    + vm_compute. discriminate.
    + vm_compute. discriminate.
    + vm_compute. discriminate.
  - apply (proj2 (happy_gated_by_confidence (8 # 10))).
    vm_compute. reflexivity.
Defined.



(** ** Sums and means up to [==] *)

Lemma fold_plus_morph (l l' : list Q) :
  Forall2 Qeq l l' ->
  forall a a', a == a' -> fold_left Qplus l a == fold_left Qplus l' a'.
Proof.
  induction 1 as [|x x' l l' Hx _ IH]; intros a a' Ha; simpl.
  - exact Ha.
  - apply IH. rewrite Ha, Hx. reflexivity.
Qed.

Lemma mean_morph (l l' : list Q) :
  Forall2 Qeq l l' -> Py.mean l == Py.mean l'.
Proof.
  intro H. unfold Py.mean, Py.sum, Py.len.
  rewrite (Forall2_length H).
  rewrite (fold_plus_morph l l' H 0 0) by reflexivity.
  reflexivity.
Qed.

Lemma Forall2_Qeq_refl (l : list Q) : Forall2 Qeq l l.
Proof. induction l; constructor; [reflexivity|assumption]. Qed.

(** ** Wellness *)

Import EmotionAnalyzer.

Lemma emotion_weights_lookup (emotion : string) :
  Py.get emotion_weights emotion = Spec.weight emotion.
Proof. reflexivity. Qed.

Lemma record_totals_from (record : emotions) (a b : Q) :
  fold_left
    (fun acc item =>
       let '(record_score, total_intensity) := acc in
       let '(emotion, value) := item in
       match Py.get emotion_weights emotion with
       | Some weight => (record_score + value * weight, total_intensity + value)
       | None => (record_score, total_intensity)
       end)
    record (a, b)
  = (fold_left Qplus (map (fun vw => fst vw * snd vw) (Spec.weighted_entries record)) a,
     fold_left Qplus (map fst (Spec.weighted_entries record)) b).
Proof.
  revert a b. induction record as [|[emotion value] record IH]; intros a b.
  - reflexivity.
  - cbn [fold_left]. rewrite emotion_weights_lookup.
    unfold Spec.weighted_entries. cbn [flat_map fst snd].
    destruct (Spec.weight emotion) as [w|]; rewrite IH; reflexivity.
Qed.

Lemma record_totals_spec (record : emotions) :
  record_totals record = (Spec.weighted_sum record, Spec.total_intensity record).
Proof. apply record_totals_from. Qed.

(** The samples the loop of [calculate_wellness_score] appends. *)
Lemma wellness_scores_from (window : list emotions) (scores : list Q) :
  fold_left
    (fun scores record =>
       let '(record_score, total_intensity) := record_totals record in
       if Py.gtb total_intensity 0 then
         let normalized_score :=
           (record_score + total_intensity) / (2 * total_intensity) in
         scores ++ [Py.max 0 (Py.min 1 normalized_score)]
       else scores)
    window scores
  = scores ++
    map (fun record =>
           Py.max 0 (Py.min 1 ((Spec.weighted_sum record + Spec.total_intensity record)
                               / (2 * Spec.total_intensity record))))
        (Spec.usable window).
Proof.
  revert scores. induction window as [|record window IH]; intro scores.
  - simpl. rewrite app_nil_r. reflexivity.
  - cbn [fold_left]. rewrite record_totals_spec. cbv zeta.
    unfold Spec.usable. cbn [filter]. unfold Py.gtb. rewrite ltb_dec.
    destruct (Qlt_le_dec 0 (Spec.total_intensity record)).
    + rewrite IH. rewrite <- app_assoc. reflexivity.
    + apply IH.
Qed.

Lemma clamp_unit (x : Q) : Py.max 0 (Py.min 1 x) == Spec.clamp x 0 1.
Proof.
  unfold Spec.clamp. rewrite py_max_Qmax.
  apply Q.max_compat; [reflexivity|apply py_min_Qmin].
Qed.

Lemma wellness_agrees (emotions_history : list emotions) :
  calculate_wellness_score emotions_history == Spec.wellness emotions_history.
Proof.
  destruct emotions_history as [|record history]; [reflexivity|].
  unfold calculate_wellness_score, Spec.wellness.
  rewrite (slice_suffix 10) by lia.
  rewrite wellness_scores_from. cbn [app].
  destruct (Spec.usable (Spec.last_n 10 (record :: history))) as [|r rs];
    [reflexivity|].
  set (samples := r :: rs).
  change (Py.mean
            (map (fun record =>
                    Py.max 0 (Py.min 1
                      ((Spec.weighted_sum record + Spec.total_intensity record)
                       / (2 * Spec.total_intensity record)))) samples)
          == Py.mean (map Spec.wellness_sample samples)).
  apply mean_morph. clearbody samples.
  induction samples as [|s samples IH]; constructor; [|exact IH].
  apply clamp_unit.
Qed.

(** C2.  The wellness score is the mean, over those of the last ten
    records whose total intensity is positive, of the clamped normalised
    score under the fixed weights, and 0.5 when there is no such record;
    the single record {happy: 1.0} scores 1. *)
Theorem wellness_score_spec :
  (forall emotions_history : list emotions,
     calculate_wellness_score emotions_history == Spec.wellness emotions_history)
  /\ calculate_wellness_score [] == 1 # 2
  /\ calculate_wellness_score [[("happy", 1)]] == 1.
Proof.
  split; [exact wellness_agrees|split; reflexivity].
Qed.

(** ** Dictionaries *)

Lemma set_fresh {V} (d : Py.dict V) (k : string) (v : V) :
  ~ In k (Py.keys d) -> Py.set d k v = d ++ [(k, v)].
Proof.
  induction d as [|[k' v'] d IH]; intro Hk; simpl.
  - reflexivity.
  - destruct (String.eqb_spec k k') as [E|_].
    + exfalso. apply Hk. left. symmetry. exact E.
    + rewrite IH; [reflexivity|]. intro H. apply Hk. right. exact H.
Qed.

Lemma keys_app {V} (d d' : Py.dict V) : Py.keys (d ++ d') = Py.keys d ++ Py.keys d'.
Proof. apply map_app. Qed.

(** ** Stability *)

(** With more than one record in the window every canonical emotion gets
    its variance entry, in the order of the weight table. *)
Lemma emotion_variances_from (recent_records : list emotions) :
  (1 < List.length recent_records)%nat ->
  forall (labels : list string) (seen : Py.dict Q),
    NoDup labels ->
    (forall k, In k labels -> ~ In k (Py.keys seen)) ->
    fold_left
      (fun emotion_variances emotion =>
         let values :=
           map (fun record => Py.get_default record emotion 0) recent_records in
         if (1 <? List.length values)%nat
         then Py.set emotion_variances emotion (Py.var values)
         else emotion_variances)
      labels seen
    = seen ++
      map (fun emotion =>
             (emotion,
              Py.var (map (fun record => Py.get_default record emotion 0)
                          recent_records)))
          labels.
Proof.
  intros Hlen labels. induction labels as [|e labels IH]; intros seen Hnd Hfresh.
  - simpl. rewrite app_nil_r. reflexivity.
  - cbn [fold_left map]. cbv zeta. rewrite length_map.
    match goal with
    | |- context [(1 <? ?n)%nat] =>
        assert (G : (1 <? n)%nat = true) by (apply Nat.ltb_lt; exact Hlen);
        rewrite G
    end.
    rewrite set_fresh by (apply Hfresh; left; reflexivity).
    inversion Hnd as [|? ? Hnotin Hnd']; subst.
    rewrite IH.
    + rewrite <- app_assoc. reflexivity.
    + exact Hnd'.
    + intros k Hk. rewrite keys_app. intro Hin. apply in_app_or in Hin.
      destruct Hin as [Hin|[Hin|[]]].
      * apply (Hfresh k); [right; exact Hk|exact Hin].
      * simpl in Hin. subst k. apply Hnotin, Hk.
Qed.

Lemma emotion_weights_keys_NoDup : NoDup (Py.keys emotion_weights).
Proof.
  unfold Py.keys, emotion_weights. cbn [map fst].
  repeat (constructor; [simpl; intuition discriminate|]). constructor.
Qed.

Lemma squares_agree (m : Q) (l : list Q) :
  Forall2 Qeq (map (fun x => (x - m) * (x - m)) l) (map (fun x => (x - m) ^ 2) l).
Proof. induction l as [|x l IH]; constructor; [ring|exact IH]. Qed.

Lemma var_variance (l : list Q) : Py.var l == Spec.variance l.
Proof. unfold Py.var, Spec.variance. apply mean_morph, squares_agree. Qed.

Lemma mean_over_canonical (g : string -> Q) :
  Py.mean (map g (Py.keys emotion_weights))
  == Py.mean (map g Spec.canonical_emotions).
Proof.
  unfold Py.mean, Py.sum, Py.len. cbn [Py.keys emotion_weights map fst
    Spec.canonical_emotions fold_left List.length].
  apply Qdiv_comp; [ring|reflexivity].
Qed.

Lemma clamp_floor_tenth (y : Q) :
  Py.min 1 (Py.max (1 # 10) y) == Spec.clamp (Qmax (1 # 10) y) 0 1.
Proof.
  unfold Spec.clamp. rewrite py_min_Qmin.
  rewrite (Q.min_compat 1 1 (Qeq_refl 1) _ _ (py_max_Qmax (1 # 10) y)).
  symmetry. apply Q.max_r. apply Q.min_glb.
  - discriminate.
  - apply Qle_trans with (1 # 10); [discriminate|apply Q.le_max_l].
Qed.

Lemma avg_variance_agrees (window : list emotions) :
  Py.mean
    (map (fun emotion =>
            Py.var (map (fun record => Py.get_default record emotion 0) window))
         (Py.keys emotion_weights))
  == Spec.avg_variance window.
Proof.
  rewrite mean_over_canonical. unfold Spec.avg_variance.
  apply mean_morph.
  induction Spec.canonical_emotions as [|e labels IH]; constructor; [|exact IH].
  apply (var_variance (map (Spec.value_of e) window)).
Qed.

(** C3.  With fewer than three records the stability score is 0.7;
    otherwise it is clamp(max(0.1, 1 - v / 0.3), 0, 1) where v is the mean,
    over the seven canonical emotions, of the variance of the emotion's
    values (0 when missing) across the last five records. *)
Theorem stability_score_spec :
  forall emotions_history : list emotions,
    calculate_stability_score emotions_history == Spec.stability emotions_history.
Proof.
  intro h. unfold calculate_stability_score, Spec.stability.
  destruct (Nat.ltb_spec (List.length h) 3) as [Hlt|Hge];
    destruct (lt_dec (List.length h) 3) as [Hlt'|Hge']; try lia; [reflexivity|].
  rewrite (slice_suffix 5) by lia.
  assert (Hwin : (1 < List.length (Spec.last_n 5 h))%nat).
  { unfold Spec.last_n. rewrite length_skipn. lia. }
  pose proof (emotion_variances_from _ Hwin (Py.keys emotion_weights) []
                emotion_weights_keys_NoDup) as E.
  cbv zeta in E |- *. rewrite E by (intros k _ []). clear E.
  cbn [app]. unfold Py.values. rewrite map_map. cbn [snd].
  rewrite clamp_floor_tenth. unfold Spec.clamp, stability_threshold.
  apply Q.max_compat; [reflexivity|].
  apply Q.min_compat; [reflexivity|].
  apply Q.max_compat; [reflexivity|].
  rewrite (avg_variance_agrees (Spec.last_n 5 h)). reflexivity.
Qed.

(** ** Trend *)

Import Mood.

Lemma slice_preceding {A} (l : list A) :
  Py.slice (Some (-6)%Z) (Some (-3)%Z) l = Spec.preceding_window l.
Proof.
  unfold Py.slice, Py.clip, Spec.preceding_window, Spec.last_n. cbn [Z.ltb Z.compare].
  rewrite length_firstn, skipn_firstn_comm.
  f_equal; [lia|f_equal; lia].
Qed.


(** ** Stress levels *)

Import Analytics.

Lemma mem_In (x : string) (l : list string) : Py.mem x l = true <-> In x l.
Proof.
  unfold Py.mem. rewrite existsb_exists. split.
  - intros [y [Hy E]]. apply String.eqb_eq in E. subst y. exact Hy.
  - intro H. exists x. split; [exact H|apply String.eqb_refl].
Qed.

Lemma classify_agrees (emotion_name : string) :
  (if Py.mem emotion_name stress_emotions then Spec.High
   else if Py.mem emotion_name positive_emotions then Spec.Low
   else Spec.Medium)
  = Spec.bucket_of emotion_name.
Proof.
  unfold Spec.bucket_of.
  destruct (in_dec string_dec emotion_name Spec.high_set) as [H|H].
  - apply mem_In in H. unfold stress_emotions. unfold Spec.high_set in H.
    rewrite H. reflexivity.
  - destruct (Py.mem emotion_name stress_emotions) eqn:E.
    + apply mem_In in E. contradiction.
    + destruct (in_dec string_dec emotion_name Spec.low_set) as [L|L].
      * apply mem_In in L. unfold positive_emotions. unfold Spec.low_set in L.
        rewrite L. reflexivity.
      * destruct (Py.mem emotion_name positive_emotions) eqn:E'; [|reflexivity].
        apply mem_In in E'. contradiction.
Qed.

Lemma bucket_count_cons (b : Spec.bucket) (record : EmotionRecord)
    (records : list EmotionRecord) :
  Spec.bucket_count b (record :: records)
  = ((if Spec.bucket_eqb
           (Spec.bucket_of (fst (max_emotion (emotions_json record)))) b
      then 1 else 0) + Spec.bucket_count b records)%nat.
Proof.
  unfold Spec.bucket_count. cbn [filter].
  destruct (Spec.bucket_eqb _ b); reflexivity.
Qed.

(** The counting loop adds, to each counter, the number of records of its
    bucket. *)
Lemma count_stress_from (records : list EmotionRecord) (c : stress_counts) :
  let c' :=
    fold_left
      (fun c record =>
         let emotion_name := fst (max_emotion (emotions_json record)) in
         if Py.mem emotion_name stress_emotions then
           {| high_stress_count := high_stress_count c + 1;
              medium_stress_count := medium_stress_count c;
              low_stress_count := low_stress_count c |}
         else if Py.mem emotion_name positive_emotions then
           {| high_stress_count := high_stress_count c;
              medium_stress_count := medium_stress_count c;
              low_stress_count := low_stress_count c + 1 |}
         else
           {| high_stress_count := high_stress_count c;
              medium_stress_count := medium_stress_count c + 1;
              low_stress_count := low_stress_count c |})
      records c in
  (high_stress_count c'
   = high_stress_count c + Z.of_nat (Spec.bucket_count Spec.High records)
   /\ medium_stress_count c'
      = medium_stress_count c + Z.of_nat (Spec.bucket_count Spec.Medium records)
   /\ low_stress_count c'
      = low_stress_count c + Z.of_nat (Spec.bucket_count Spec.Low records))%Z.
Proof.
  revert c. induction records as [|record records IH]; intro c.
  - unfold Spec.bucket_count. simpl. lia.
  - cbn [fold_left]. cbv zeta.
    rewrite !bucket_count_cons.
    pose proof (classify_agrees (fst (max_emotion (emotions_json record)))) as B.
    destruct (Py.mem (fst (max_emotion (emotions_json record))) stress_emotions);
      [|destruct (Py.mem (fst (max_emotion (emotions_json record)))
                   positive_emotions)];
      rewrite <- B;
      match goal with
      | |- context [fold_left ?f records ?c0] =>
          specialize (IH c0); cbv zeta in IH; destruct IH as (Ih & Im & Il)
      end;
      rewrite Ih, Im, Il; cbn [Spec.bucket_eqb high_stress_count
        medium_stress_count low_stress_count]; lia.
Qed.

Lemma count_stress_spec (records : list EmotionRecord) :
  high_stress_count (count_stress records)
  = Z.of_nat (Spec.bucket_count Spec.High records)
  /\ medium_stress_count (count_stress records)
     = Z.of_nat (Spec.bucket_count Spec.Medium records)
  /\ low_stress_count (count_stress records)
     = Z.of_nat (Spec.bucket_count Spec.Low records).
Proof.
  exact (count_stress_from records
           {| high_stress_count := 0; medium_stress_count := 0;
              low_stress_count := 0 |}).
Qed.

Lemma buckets_partition (records : list EmotionRecord) :
  (Spec.bucket_count Spec.Low records + Spec.bucket_count Spec.Medium records
   + Spec.bucket_count Spec.High records = List.length records)%nat.
Proof.
  induction records as [|record records IH]; [reflexivity|].
  rewrite !bucket_count_cons. cbn [List.length].
  destruct (Spec.bucket_of (fst (max_emotion (emotions_json record))));
    cbn [Spec.bucket_eqb]; lia.
Qed.

(** The item [max] returns is an item of the dict, of maximal value. *)
Lemma max_item_spec (rest : list (string * Q)) (first : string * Q) :
  In (max_item first rest) (first :: rest)
  /\ forall item, In item (first :: rest) -> snd item <= snd (max_item first rest).
Proof.
  revert first. induction rest as [|x rest IH]; intro first; unfold max_item.
  - simpl. split; [left; reflexivity|].
    intros item [E|[]]. subst item. apply Qle_refl.
  - cbn [fold_left].
    destruct (Py.gtb (snd x) (snd first)) eqn:G;
      [apply gtb_gt in G; destruct (IH x) as [Hin Hmax]
      |apply gtb_le in G; destruct (IH first) as [Hin Hmax]];
      unfold max_item in Hin, Hmax.
    + split.
      * right. exact Hin.
      * intros item [E|Hitem]; [|apply Hmax, Hitem]. subst item.
        apply Qle_trans with (snd x);
          [apply Qlt_le_weak, G|apply Hmax; left; reflexivity].
    + split.
      * destruct Hin as [E|Hin]; [left; exact E|right; right; exact Hin].
      * intros item [E|[E|Hitem]].
        -- apply Hmax. left. exact E.
        -- subst item. apply Qle_trans with (snd first);
             [exact G|apply Hmax; left; reflexivity].
        -- apply Hmax. right. exact Hitem.
Qed.

Lemma bucket_of_cases (emotion : string) :
  (Spec.bucket_of emotion = Spec.High
   <-> In emotion ["angry"; "fearful"; "disgusted"; "sad"])
  /\ (Spec.bucket_of emotion = Spec.Low <-> emotion = "happy")
  /\ (Spec.bucket_of emotion = Spec.Medium
      <-> ~ In emotion ["angry"; "fearful"; "disgusted"; "sad"]
          /\ emotion <> "happy").
Proof.
  unfold Spec.bucket_of.
  destruct (in_dec string_dec emotion Spec.high_set) as [H|H];
    [|destruct (in_dec string_dec emotion Spec.low_set) as [L|L]];
    unfold Spec.high_set, Spec.low_set in *.
  - repeat split; intros; try assumption; try reflexivity; try discriminate.
    + subst emotion. simpl in H. intuition discriminate.
    + tauto.
  - assert (E : emotion = "happy") by (destruct L as [E|[]]; symmetry; exact E).
    repeat split; intros; try assumption; try reflexivity; try discriminate;
      tauto.
  - assert (E : emotion <> "happy") by (intro E; apply L; left; symmetry; exact E).
    repeat split; intros; try assumption; try reflexivity; try discriminate;
      tauto.
Qed.

(** C7.  On a non-empty record sequence the three stress levels are the
    shares, times 100, of the records whose dominant (max-value) emotion
    falls in the high, low and medium bucket; the buckets partition the
    records, so the levels add up to 100.  On an empty sequence the levels
    are 33.3 each. *)
Theorem stress_levels_spec :
  (forall records : list EmotionRecord,
     records <> [] ->
     let levels := get_pattern_analysis_stress records in
     let total := List.length records in
     low levels == Spec.percentage (Spec.bucket_count Spec.Low records) total
     /\ medium levels == Spec.percentage (Spec.bucket_count Spec.Medium records) total
     /\ high levels == Spec.percentage (Spec.bucket_count Spec.High records) total
     /\ low levels + medium levels + high levels == 100
     /\ (Spec.bucket_count Spec.Low records + Spec.bucket_count Spec.Medium records
         + Spec.bucket_count Spec.High records = total)%nat)
  /\ (forall emotion : string,
        (Spec.bucket_of emotion = Spec.High
         <-> In emotion ["angry"; "fearful"; "disgusted"; "sad"])
        /\ (Spec.bucket_of emotion = Spec.Low <-> emotion = "happy")
        /\ (Spec.bucket_of emotion = Spec.Medium
            <-> ~ In emotion ["angry"; "fearful"; "disgusted"; "sad"]
                /\ emotion <> "happy"))
  /\ (forall record : EmotionRecord,
        emotions_json record <> [] ->
        In (max_emotion (emotions_json record)) (emotions_json record)
        /\ forall item, In item (emotions_json record) ->
                        snd item <= snd (max_emotion (emotions_json record)))
  /\ get_pattern_analysis_stress []
     = {| low := 333 # 10; medium := 333 # 10; high := 333 # 10 |}.
Proof.
  split; [|split; [exact bucket_of_cases|split; [|reflexivity]]].
  - intros records Hne levels total.
    destruct records as [|record records]; [contradiction|].
    pose proof (buckets_partition (record :: records)) as Hpart.
    fold total in Hpart.
    assert (Htotal : (0 < total)%nat) by (subst total; simpl; lia).
    subst levels. unfold get_pattern_analysis_stress.
    fold total.
    destruct (Z.gtb_spec (Z.of_nat total) 0) as [_|H]; [|lia].
    destruct (count_stress_spec (record :: records)) as (Eh & Em & El).
    cbn [low medium high]. rewrite Eh, Em, El.
    unfold Spec.percentage.
    repeat split; try reflexivity; [|exact Hpart].
    rewrite <- Hpart. rewrite !Nat2Z.inj_add, !inject_Z_plus.
    assert (Hnz : ~ inject_Z (Z.of_nat (Spec.bucket_count Spec.Low (record :: records)))
                    + inject_Z (Z.of_nat (Spec.bucket_count Spec.Medium (record :: records)))
                    + inject_Z (Z.of_nat (Spec.bucket_count Spec.High (record :: records)))
                    == 0).
    { rewrite <- !inject_Z_plus, <- !Nat2Z.inj_add, Hpart.
      intro E. unfold Qeq in E. simpl in E. lia. }
    field. exact Hnz.
  - intros record Hne. destruct (emotions_json record) as [|first rest];
      [contradiction|]. apply (max_item_spec rest first).
Qed.

Lemma stress_levels_spec_witness :
  (let records :=
     [ {| timestamp := 1; emotions_json := [("happy", 9 # 10); ("sad", 1 # 10)] |};
       {| timestamp := 2; emotions_json := [("angry", 8 # 10); ("neutral", 2 # 10)] |};
       {| timestamp := 3; emotions_json := [("surprised", 5 # 10); ("happy", 5 # 10)] |};
       {| timestamp := 4; emotions_json := [("fearful", 6 # 10)] |} ] in
   let levels := get_pattern_analysis_stress records in
   low levels == 25 /\ medium levels == 25 /\ high levels == 50
   /\ low levels + medium levels + high levels == 100)
  /\ In (max_emotion [("surprised", 5 # 10); ("happy", 5 # 10)])
        [("surprised", 5 # 10); ("happy", 5 # 10)].
Proof.
  split.
  - intros records levels.
    assert (Hne : records <> []) by (subst records; discriminate).
    destruct (proj1 stress_levels_spec records Hne) as (Hl & Hm & Hh & Hsum & _).
    fold levels in Hl, Hm, Hh, Hsum.
    split; [|split; [|split]].
    + rewrite Hl. vm_compute. reflexivity.
    + rewrite Hm. vm_compute. reflexivity.
    + rewrite Hh. vm_compute. reflexivity.
    + exact Hsum.
  - apply (proj1 (proj2 (proj2 stress_levels_spec))
             {| timestamp := 3;
                emotions_json := [("surprised", 5 # 10); ("happy", 5 # 10)] |}).
    simpl. discriminate.
Defined.

(** ** Validation *)

Import Validators.

Lemma number_in_unit_range (value : pyval) :
  isinstance_int_float value = true /\ in_unit_range value = true
  <-> exists q, Spec.number_of value = Some q /\ 0 <= q /\ q <= 1.
Proof.
  split.
  - intros [_ H]. destruct value; simpl in H; try discriminate H.
    + exists (if b then 1 else 0). split; [reflexivity|].
      destruct b; split; discriminate.
    + apply andb_true_iff in H. destruct H as [H0 H1].
      apply Z.leb_le in H0. apply Z.leb_le in H1.
      exists (inject_Z z). split; [reflexivity|].
      split; [change 0 with (inject_Z 0)|change 1 with (inject_Z 1)];
        rewrite <- Zle_Qle; assumption.
    + apply andb_true_iff in H. destruct H as [H0 H1].
      apply Qle_bool_iff in H0. apply Qle_bool_iff in H1.
      exists q. split; [reflexivity|split; assumption].
  - intros [q [E [H0 H1]]]. destruct value; simpl in E; try discriminate E;
      injection E as E; subst q; split; try reflexivity; simpl.
    + change 0 with (inject_Z 0) in H0. change 1 with (inject_Z 1) in H1.
      rewrite <- Zle_Qle in H0, H1.
      apply andb_true_iff. split; apply Z.leb_le; assumption.
    + apply andb_true_iff. split; apply Qle_bool_iff; assumption.
Qed.

Lemma check_required_spec (d : Py.dict pyval) (required : list string) :
  check_required d required = true
  <-> forall emotion, In emotion required ->
        exists value q, Py.get d emotion = Some value /\
                        Spec.number_of value = Some q /\ 0 <= q /\ q <= 1.
Proof.
  induction required as [|e required IH]; simpl.
  - split; [intros _ ? []|reflexivity].
  - destruct (Py.get d e) as [value|] eqn:G.
    + destruct (isinstance_int_float value) eqn:I;
        destruct (in_unit_range value) eqn:R; simpl.
      * rewrite IH. split.
        -- intros H emotion [E|Hin]; [|apply H, Hin]. subst emotion.
           destruct (proj1 (number_in_unit_range value) (conj I R)) as [q Hq].
           exists value, q. split; [exact G|exact Hq].
        -- intros H emotion Hin. apply H. right. exact Hin.
      * split; [discriminate|]. intro H.
        destruct (H e (or_introl eq_refl)) as (v & q & Hv & Hq).
        rewrite G in Hv. injection Hv as Hv. subst v.
        destruct (proj2 (number_in_unit_range value) (ex_intro _ q Hq)) as [_ R'].
        congruence.
      * split; [discriminate|]. intro H.
        destruct (H e (or_introl eq_refl)) as (v & q & Hv & Hq).
        rewrite G in Hv. injection Hv as Hv. subst v.
        destruct (proj2 (number_in_unit_range value) (ex_intro _ q Hq)) as [I' _].
        congruence.
      * split; [discriminate|]. intro H.
        destruct (H e (or_introl eq_refl)) as (v & q & Hv & Hq).
        rewrite G in Hv. injection Hv as Hv. subst v.
        destruct (proj2 (number_in_unit_range value) (ex_intro _ q Hq)) as [I' _].
        congruence.
    + split; [discriminate|]. intro H.
      destruct (H e (or_introl eq_refl)) as (v & q & Hv & _). congruence.
Qed.

Lemma validate_iff (v : pyval) :
  validate_emotion_data v = true <-> Spec.valid_emotion_vector v.
Proof.
  unfold Spec.valid_emotion_vector. split.
  - intro H. destruct v; simpl in H; try discriminate H.
    exists d. split; [reflexivity|].
    apply (check_required_spec d required_emotions), H.
  - intros [d [E H]]. subst v. simpl.
    apply (check_required_spec d required_emotions), H.
Qed.

(** C9.  Validation accepts exactly the mappings in which each of the
    seven canonical keys is present with a number in [0, 1]; a missing
    canonical key or a canonical value outside [0, 1] is rejected; the
    scoring functions apply no such check and score vectors that
    validation rejects. *)
Theorem validate_emotion_data_spec :
  (forall v : pyval,
     validate_emotion_data v = true <-> Spec.valid_emotion_vector v)
  /\ (forall (d : Py.dict pyval) (emotion : string),
        In emotion Spec.canonical_emotions ->
        Py.get d emotion = None ->
        validate_emotion_data (PDict d) = false)
  /\ (forall (d : Py.dict pyval) (emotion : string) (value : pyval) (q : Q),
        In emotion Spec.canonical_emotions ->
        Py.get d emotion = Some value ->
        Spec.number_of value = Some q ->
        (q < 0 \/ 1 < q) ->
        validate_emotion_data (PDict d) = false)
  /\ (exists record : emotions,
        validate_emotion_data (Spec.as_pyval record) = false
        /\ calculate_wellness_score [record] == 1
        /\ calculate_stability_score [record; record; record] == 1).
Proof.
  split; [exact validate_iff|]. split; [|split].
  - intros d emotion Hin Hget.
    destruct (validate_emotion_data (PDict d)) eqn:V; [|reflexivity].
    apply validate_iff in V. destruct V as [d' [E H]]. injection E as E. subst d'.
    destruct (H emotion Hin) as (v & q & Hv & _). congruence.
  - intros d emotion value q Hin Hget Hnum Hout.
    destruct (validate_emotion_data (PDict d)) eqn:V; [|reflexivity].
    apply validate_iff in V. destruct V as [d' [E H]]. injection E as E. subst d'.
    destruct (H emotion Hin) as (v & q' & Hv & Hq' & H0 & H1).
    rewrite Hget in Hv. injection Hv as Hv. subst v.
    rewrite Hnum in Hq'. injection Hq' as Hq'. subst q'.
    exfalso. destruct Hout as [Hout|Hout]; lra.
  - exists [("happy", 2)]. split; [reflexivity|]. split; reflexivity.
Qed.

Lemma validate_emotion_data_spec_witness :
  validate_emotion_data (PDict [("happy", PFloat (1 # 2))]) = false
  /\ validate_emotion_data
       (PDict [ ("happy", PFloat (12 # 10)); ("sad", PInt 0); ("angry", PInt 0);
                ("fearful", PInt 0); ("disgusted", PInt 0); ("surprised", PInt 0);
                ("neutral", PInt 0) ]) = false.
Proof.
  split.
  - apply (proj1 (proj2 validate_emotion_data_spec)
             [("happy", PFloat (1 # 2))] "sad").
    + simpl. right. left. reflexivity.
    + reflexivity.
  - apply (proj1 (proj2 (proj2 validate_emotion_data_spec))
             [ ("happy", PFloat (12 # 10)); ("sad", PInt 0); ("angry", PInt 0);
               ("fearful", PInt 0); ("disgusted", PInt 0); ("surprised", PInt 0);
               ("neutral", PInt 0) ]
             "happy" (PFloat (12 # 10)) (12 # 10)).
    + simpl. left. reflexivity.
    + reflexivity.
    + reflexivity.
    + right. vm_compute. reflexivity.
Defined.

(** ** More on dictionaries *)

Lemma get_set {V} (d : Py.dict V) (k k' : string) (v : V) :
  Py.get (Py.set d k v) k' = if String.eqb k' k then Some v else Py.get d k'.
Proof.
  induction d as [|[k0 v0] d IH]; simpl.
  - reflexivity.
  - destruct (String.eqb_spec k k0) as [E|N]; simpl.
    + subst k0. destruct (String.eqb k' k); reflexivity.
    + rewrite IH. destruct (String.eqb_spec k' k0) as [E'|N'];
        [|reflexivity].
      subst k0. destruct (String.eqb_spec k' k) as [E''|_]; [|reflexivity].
      congruence.
Qed.

Lemma keys_set {V} (d : Py.dict V) (k : string) (v : V) :
  Py.keys (Py.set d k v)
  = if Py.contains d k then Py.keys d else Py.keys d ++ [k].
Proof.
  unfold Py.contains. induction d as [|[k0 v0] d IH]; simpl.
  - reflexivity.
  - destruct (String.eqb k k0); simpl; [reflexivity|].
    rewrite IH. destruct (Py.get d k); reflexivity.
Qed.

Lemma get_None_keys {V} (d : Py.dict V) (k : string) :
  Py.get d k = None <-> ~ In k (Py.keys d).
Proof.
  induction d as [|[k0 v0] d IH]; simpl.
  - split; [intros _ []|reflexivity].
  - destruct (String.eqb_spec k k0) as [E|N].
    + split; [discriminate|]. intro H. exfalso. apply H. left. symmetry. exact E.
    + rewrite IH. split.
      * intros H [E|Hin]; [apply N; symmetry; exact E|apply H, Hin].
      * intros H Hin. apply H. right. exact Hin.
Qed.

Lemma NoDup_keys_set {V} (d : Py.dict V) (k : string) (v : V) :
  NoDup (Py.keys d) -> NoDup (Py.keys (Py.set d k v)).
Proof.
  intro H. rewrite keys_set. unfold Py.contains.
  destruct (Py.get d k) eqn:G; [exact H|].
  apply get_None_keys in G.
  apply NoDup_app; [exact H|constructor; [intros []|constructor]|].
  intros x Hx [E|[]]. subst x. contradiction.
Qed.

Lemma get_map_values {V W} (f : V -> W) (d : Py.dict V) (k : string) :
  Py.get (map (fun entry => (fst entry, f (snd entry))) d) k
  = option_map f (Py.get d k).
Proof.
  induction d as [|[k0 v0] d IH]; simpl; [reflexivity|].
  destruct (String.eqb k k0); [reflexivity|exact IH].
Qed.

(** Assigning, in turn, one entry per key of a dict to a dict that has none
    of these keys appends the entries in order. *)
Lemma fold_set_fresh {V W} (f : V -> W) (d : Py.dict V) :
  NoDup (Py.keys d) ->
  forall acc : Py.dict W,
    (forall k, In k (Py.keys d) -> ~ In k (Py.keys acc)) ->
    fold_left (fun b entry => Py.set b (fst entry) (f (snd entry))) d acc
    = acc ++ map (fun entry => (fst entry, f (snd entry))) d.
Proof.
  induction d as [|[k v] d IH]; intros Hnd acc Hfresh.
  - simpl. rewrite app_nil_r. reflexivity.
  - cbn [fold_left map fst snd].
    rewrite set_fresh by (apply Hfresh; left; reflexivity).
    inversion Hnd as [|? ? Hnotin Hnd']; subst.
    rewrite IH.
    + rewrite <- app_assoc. reflexivity.
    + exact Hnd'.
    + intros k' Hk'. rewrite keys_app. intro Hin. apply in_app_or in Hin.
      destruct Hin as [Hin|[Hin|[]]].
      * apply (Hfresh k'); [right; exact Hk'|exact Hin].
      * simpl in Hin. subst k'. apply Hnotin, Hk'.
Qed.

(** ** Baselines *)

Lemma append_value_lookup (d : Py.dict (list Q)) (e e' : string) (v : Q) :
  Py.get_default (append_value d e v) e' []
  = Py.get_default d e' [] ++ (if String.eqb e e' then [v] else []).
Proof.
  unfold append_value, Py.get_default. rewrite get_set.
  destruct (String.eqb_spec e' e) as [E|N].
  - subst e'. rewrite String.eqb_refl. reflexivity.
  - destruct (String.eqb_spec e e') as [E|_]; [congruence|].
    rewrite app_nil_r. reflexivity.
Qed.

Lemma append_value_populated (d : Py.dict (list Q)) (e : string) (v : Q) :
  Spec.populated d -> Spec.populated (append_value d e v).
Proof.
  intros H e' l. unfold append_value. rewrite get_set.
  destruct (String.eqb e' e).
  - intro E. injection E as E. subst l.
    destruct (Py.get_default d e []); discriminate.
  - apply H.
Qed.

Lemma collect_items (items : emotions) (e : string) :
  forall d : Py.dict (list Q),
    let d' := fold_left (fun eb item => append_value eb (fst item) (snd item))
                        items d in
    Py.get_default d' e [] = Py.get_default d e [] ++ Spec.values_in items e
    /\ (Spec.populated d -> Spec.populated d')
    /\ (NoDup (Py.keys d) -> NoDup (Py.keys d')).
Proof.
  induction items as [|[e0 v0] items IH]; intro d; cbv zeta.
  - simpl. rewrite app_nil_r. auto.
  - cbn [fold_left fst snd].
    destruct (IH (append_value d e0 v0)) as (E & P & N). cbv zeta in E, P, N.
    split; [|split].
    + rewrite E, append_value_lookup. unfold Spec.values_in. cbn [flat_map fst snd].
      rewrite <- app_assoc. reflexivity.
    + intro H. apply P, append_value_populated, H.
    + intro H. apply N. unfold append_value. apply NoDup_keys_set, H.
Qed.

Lemma collect_records (records : list EmotionRecord) (e : string) :
  forall d : Py.dict (list Q),
    let d' :=
      fold_left
        (fun emotion_baselines record =>
           fold_left
             (fun emotion_baselines item =>
                append_value emotion_baselines (fst item) (snd item))
             (emotions_json record) emotion_baselines)
        records d in
    Py.get_default d' e [] = Py.get_default d e [] ++ Spec.values_of records e
    /\ (Spec.populated d -> Spec.populated d')
    /\ (NoDup (Py.keys d) -> NoDup (Py.keys d')).
Proof.
  induction records as [|record records IH]; intro d; cbv zeta.
  - simpl. rewrite app_nil_r. auto.
  - cbn [fold_left].
    destruct (collect_items (emotions_json record) e d) as (Ei & Pi & Ni).
    cbv zeta in Ei, Pi, Ni.
    match goal with
    | |- context [fold_left _ records ?d0] =>
        destruct (IH d0) as (E & P & N); cbv zeta in E, P, N
    end.
    split; [|split].
    + rewrite E, Ei. unfold Spec.values_of. cbn [flat_map].
      rewrite <- app_assoc. reflexivity.
    + intro H. apply P, Pi, H.
    + intro H. apply N, Ni, H.
Qed.

Lemma collected_lookup (records : list EmotionRecord) (e : string) :
  Py.get (collect_values records) e
  = match Spec.values_of records e with [] => None | l => Some l end.
Proof.
  destruct (collect_records records e []) as (E & P & _). cbv zeta in E, P.
  fold (collect_values records) in E, P.
  assert (Hp : Spec.populated (collect_values records))
    by (apply P; intros ? ? H; discriminate H).
  unfold Py.get_default in E. simpl in E.
  destruct (Py.get (collect_values records) e) as [l|] eqn:G.
  - rewrite <- E. specialize (Hp e l G). destruct l; [contradiction|reflexivity].
  - rewrite <- E. reflexivity.
Qed.

Lemma collected_keys_NoDup (records : list EmotionRecord) :
  NoDup (Py.keys (collect_values records)).
Proof.
  destruct (collect_records records "" []) as (_ & _ & N). apply N. constructor.
Qed.

Lemma baselines_lookup (records : list EmotionRecord) (e : string) :
  Py.get (compute_baselines (collect_values records)) e
  = match Spec.values_of records e with
    | [] => None
    | _ => Some (Spec.baseline records e)
    end.
Proof.
  unfold compute_baselines.
  pose proof (fold_set_fresh (fun values : list Q => Py.sum values / Py.len values)
                (collect_values records) (collected_keys_NoDup records) [])
    as E.
  cbv beta in E. rewrite E by (intros k _ []). clear E. cbn [app].
  rewrite (get_map_values (fun values : list Q => Py.sum values / Py.len values)).
  rewrite collected_lookup. unfold Spec.baseline.
  destruct (Spec.values_of records e); reflexivity.
Qed.

Lemma item_has_values (records : list EmotionRecord) (record : EmotionRecord)
    (item : string * Q) :
  In record records -> In item (emotions_json record) ->
  Spec.values_of records (fst item) <> [].
Proof.
  intros Hr Hi E.
  assert (Hin : In (snd item) (Spec.values_of records (fst item))).
  { unfold Spec.values_of. apply in_flat_map. exists record. split; [exact Hr|].
    unfold Spec.values_in. apply in_flat_map. exists item. split; [exact Hi|].
    rewrite String.eqb_refl. left. reflexivity. }
  rewrite E in Hin. exact Hin.
Qed.

Lemma baseline_known (records : list EmotionRecord) (record : EmotionRecord)
    (item : string * Q) :
  In record records -> In item (emotions_json record) ->
  Py.get (compute_baselines (collect_values records)) (fst item)
  = Some (Spec.baseline records (fst item)).
Proof.
  intros Hr Hi. rewrite baselines_lookup.
  pose proof (item_has_values records record item Hr Hi) as H.
  destruct (Spec.values_of records (fst item)); [contradiction|reflexivity].
Qed.

(** ** The detection loop *)

Lemma scan_item_spec (records : list EmotionRecord) (bl : Py.dict Q)
    (record : EmotionRecord) (ps : list peak) (ans : list anomaly)
    (item : string * Q) :
  Py.get bl (fst item) = Some (Spec.baseline records (fst item)) ->
  scan_item bl record (ps, ans) item
  = Some (ps ++ (if Spec.is_peak_dec records (fst item) (snd item)
                 then [Spec.peak_entry records record (fst item) (snd item)]
                 else []),
          ans ++ (if Spec.is_anomaly_dec (snd item)
                  then [Spec.anomaly_entry record (fst item) (snd item)]
                  else [])).
Proof.
  destruct item as [emotion value]. cbn [fst snd]. intro Hb.
  unfold scan_item. rewrite Hb. unfold Py.gtb, threshold_multiplier.
  rewrite !ltb_dec. f_equal. f_equal.
  - destruct (Spec.is_peak_dec records emotion value) as [[H1 H2]|Hn].
    + destruct (Qlt_le_dec (Spec.baseline records emotion * (15 # 10)) value)
        as [_|C]; [|exfalso; apply (Qlt_not_le _ _ H1 C)].
      destruct (Qlt_le_dec (7 # 10) value)
        as [_|C]; [|exfalso; apply (Qlt_not_le _ _ H2 C)].
      cbn [andb]. unfold Spec.peak_entry, Spec.rounded_intensity.
      destruct (Qlt_le_dec 0 (Spec.baseline records emotion)); reflexivity.
    + destruct (Qlt_le_dec (Spec.baseline records emotion * (15 # 10)) value)
        as [H1|_]; cbn [andb]; [|rewrite app_nil_r; reflexivity].
      destruct (Qlt_le_dec (7 # 10) value)
        as [H2|_]; [|rewrite app_nil_r; reflexivity].
      exfalso. apply Hn. split; assumption.
  - destruct (Spec.is_anomaly_dec value) as [H|Hn].
    + destruct (Qlt_le_dec (9 # 10) value)
        as [_|C]; [|exfalso; apply (Qlt_not_le _ _ H C)].
      reflexivity.
    + destruct (Qlt_le_dec (9 # 10) value) as [H|_];
        [|rewrite app_nil_r; reflexivity].
      exfalso. apply Hn, H.
Qed.

Lemma scan_items_spec (records : list EmotionRecord) (bl : Py.dict Q)
    (record : EmotionRecord) (items : emotions) :
  (forall item, In item items ->
     Py.get bl (fst item) = Some (Spec.baseline records (fst item))) ->
  forall (ps : list peak) (ans : list anomaly),
    for_each (scan_item bl record) items (ps, ans)
    = Some (ps ++ flat_map
                    (fun item =>
                       if Spec.is_peak_dec records (fst item) (snd item)
                       then [Spec.peak_entry records record (fst item) (snd item)]
                       else [])
                    items,
            ans ++ flat_map
                     (fun item =>
                        if Spec.is_anomaly_dec (snd item)
                        then [Spec.anomaly_entry record (fst item) (snd item)]
                        else [])
                     items).
Proof.
  induction items as [|item items IH]; intros Hbl ps ans.
  - simpl. rewrite !app_nil_r. reflexivity.
  - cbn [for_each flat_map].
    rewrite (scan_item_spec records) by (apply Hbl; left; reflexivity).
    rewrite IH by (intros i Hi; apply Hbl; right; exact Hi).
    rewrite <- !app_assoc. reflexivity.
Qed.

Lemma scan_from (records : list EmotionRecord) (bl : Py.dict Q)
    (scanned : list EmotionRecord) :
  (forall record item, In record scanned -> In item (emotions_json record) ->
     Py.get bl (fst item) = Some (Spec.baseline records (fst item))) ->
  forall (ps : list peak) (ans : list anomaly),
    for_each
      (fun state record =>
         for_each (scan_item bl record) (emotions_json record) state)
      scanned (ps, ans)
    = Some (ps ++ Spec.flagged_peaks records scanned,
            ans ++ Spec.flagged_anomalies scanned).
Proof.
  induction scanned as [|record scanned IH]; intros Hbl ps ans.
  - simpl. rewrite !app_nil_r. reflexivity.
  - cbn [for_each].
    rewrite (scan_items_spec records)
      by (intros i Hi; apply (Hbl record i); [left; reflexivity|exact Hi]).
    rewrite IH by (intros r i Hr Hi; apply (Hbl r i); [right; exact Hr|exact Hi]).
    unfold Spec.flagged_peaks, Spec.flagged_anomalies. cbn [flat_map].
    rewrite <- !app_assoc. reflexivity.
Qed.

(** The detection loop never raises and flags exactly the peaks and the
    anomalies of the specification, in source order. *)
Lemma scan_records_spec (records : list EmotionRecord) :
  scan_records (compute_baselines (collect_values records)) records
  = Some (Spec.flagged_peaks records records, Spec.flagged_anomalies records).
Proof.
  unfold scan_records.
  rewrite (scan_from records) by (intros r i; apply baseline_known).
  reflexivity.
Qed.

(** ** Sorting by intensity *)

Lemma insert_desc_perm (p : peak) (l : list peak) :
  Permutation (p :: l) (insert_desc p l).
Proof.
  induction l as [|q l IH]; simpl; [apply Permutation_refl|].
  destruct (Py.gtb (intensity q) (intensity p)); [|apply Permutation_refl].
  apply perm_trans with (q :: p :: l); [apply perm_swap|apply perm_skip, IH].
Qed.

Lemma insert_desc_sorted (p : peak) (l : list peak) :
  StronglySorted Spec.by_intensity_desc l ->
  StronglySorted Spec.by_intensity_desc (insert_desc p l).
Proof.
  induction 1 as [|q l Hs IH Hq]; simpl.
  - constructor; constructor.
  - destruct (Py.gtb (intensity q) (intensity p)) eqn:G.
    + apply gtb_gt in G. constructor; [exact IH|].
      apply (Permutation_Forall (insert_desc_perm p l)).
      constructor; [|exact Hq].
      unfold Spec.by_intensity_desc. apply Qlt_le_weak, G.
    + apply gtb_le in G. constructor; [constructor; assumption|].
      constructor; [exact G|].
      apply Forall_impl with (P := Spec.by_intensity_desc q); [|exact Hq].
      intros r Hr. unfold Spec.by_intensity_desc in *.
      apply Qle_trans with (intensity q); assumption.
Qed.

Lemma sort_by_intensity_spec (l : list peak) :
  Permutation l (sort_by_intensity l)
  /\ StronglySorted Spec.by_intensity_desc (sort_by_intensity l).
Proof.
  unfold sort_by_intensity. induction l as [|p l [IHp IHs]]; simpl.
  - split; constructor.
  - split.
    + apply perm_trans with (p :: fold_right insert_desc [] l);
        [apply perm_skip, IHp|apply insert_desc_perm].
    + apply insert_desc_sorted, IHs.
Qed.



(** ** Peaks and anomalies *)

Lemma In_flagged_peaks (records : list EmotionRecord) (p : peak) :
  In p (Spec.flagged_peaks records records)
  <-> exists record emotion value,
        In record records /\ In (emotion, value) (emotions_json record)
        /\ Spec.is_peak records emotion value
        /\ p = Spec.peak_entry records record emotion value.
Proof.
  unfold Spec.flagged_peaks. rewrite in_flat_map. split.
  - intros [record [Hr Hp]]. apply in_flat_map in Hp.
    destruct Hp as [[emotion value] [Hi Hp]]. cbn [fst snd] in Hp.
    destruct (Spec.is_peak_dec records emotion value) as [Hpk|_]; [|destruct Hp].
    destruct Hp as [E|[]]. exists record, emotion, value. auto.
  - intros (record & emotion & value & Hr & Hi & Hpk & E).
    exists record. split; [exact Hr|]. apply in_flat_map.
    exists (emotion, value). split; [exact Hi|]. cbn [fst snd].
    destruct (Spec.is_peak_dec records emotion value) as [_|Hn];
      [left; symmetry; exact E|contradiction].
Qed.

Lemma In_flagged_anomalies (records : list EmotionRecord) (a : anomaly) :
  In a (Spec.flagged_anomalies records)
  <-> exists record emotion value,
        In record records /\ In (emotion, value) (emotions_json record)
        /\ Spec.is_anomaly value
        /\ a = Spec.anomaly_entry record emotion value.
Proof.
  unfold Spec.flagged_anomalies. rewrite in_flat_map. split.
  - intros [record [Hr Ha]]. apply in_flat_map in Ha.
    destruct Ha as [[emotion value] [Hi Ha]]. cbn [fst snd] in Ha.
    destruct (Spec.is_anomaly_dec value) as [Han|_]; [|destruct Ha].
    destruct Ha as [E|[]]. exists record, emotion, value. auto.
  - intros (record & emotion & value & Hr & Hi & Han & E).
    exists record. split; [exact Hr|]. apply in_flat_map.
    exists (emotion, value). split; [exact Hi|]. cbn [fst snd].
    destruct (Spec.is_anomaly_dec value) as [_|Hn];
      [left; symmetry; exact E|contradiction].
Qed.

(** ** The detection loop on floats *)

Lemma float_append_value_lookup (d : Py.dict (list float)) (e e' : string) (v : float) :
  Py.get_default (FloatAnalytics.append_value d e v) e' []
  = Py.get_default d e' [] ++ (if String.eqb e e' then [v] else []).
Proof.
  unfold FloatAnalytics.append_value, Py.get_default. rewrite get_set.
  destruct (String.eqb_spec e' e) as [E|N].
  - subst e'. rewrite String.eqb_refl. reflexivity.
  - destruct (String.eqb_spec e e') as [E|_]; [congruence|].
    rewrite app_nil_r. reflexivity.
Qed.

Lemma float_append_value_populated (d : Py.dict (list float)) (e : string) (v : float) :
  FloatSpec.populated d -> FloatSpec.populated (FloatAnalytics.append_value d e v).
Proof.
  intros H e' l. unfold FloatAnalytics.append_value. rewrite get_set.
  destruct (String.eqb e' e).
  - intro E. injection E as E. subst l.
    destruct (Py.get_default d e []); discriminate.
  - apply H.
Qed.

Lemma float_collect_items (items : Py.dict float) (e : string) :
  forall d : Py.dict (list float),
    let d' :=
      fold_left (fun eb item => FloatAnalytics.append_value eb (fst item) (snd item))
                items d in
    Py.get_default d' e [] = Py.get_default d e [] ++ FloatSpec.values_in items e
    /\ (FloatSpec.populated d -> FloatSpec.populated d')
    /\ (NoDup (Py.keys d) -> NoDup (Py.keys d')).
Proof.
  induction items as [|[e0 v0] items IH]; intro d; cbv zeta.
  - simpl. rewrite app_nil_r. auto.
  - cbn [fold_left fst snd].
    destruct (IH (FloatAnalytics.append_value d e0 v0)) as (E & P & N).
    cbv zeta in E, P, N.
    split; [|split].
    + rewrite E, float_append_value_lookup. unfold FloatSpec.values_in.
      cbn [flat_map fst snd]. rewrite <- app_assoc. reflexivity.
    + intro H. apply P, float_append_value_populated, H.
    + intro H. apply N. unfold FloatAnalytics.append_value. apply NoDup_keys_set, H.
Qed.

Lemma float_collect_records (records : list FloatAnalytics.EmotionRecord) (e : string) :
  forall d : Py.dict (list float),
    let d' :=
      fold_left
        (fun emotion_baselines record =>
           fold_left
             (fun emotion_baselines item =>
                FloatAnalytics.append_value emotion_baselines (fst item) (snd item))
             (FloatAnalytics.emotions_json record) emotion_baselines)
        records d in
    Py.get_default d' e [] = Py.get_default d e [] ++ FloatSpec.values_of records e
    /\ (FloatSpec.populated d -> FloatSpec.populated d')
    /\ (NoDup (Py.keys d) -> NoDup (Py.keys d')).
Proof.
  induction records as [|record records IH]; intro d; cbv zeta.
  - simpl. rewrite app_nil_r. auto.
  - cbn [fold_left].
    destruct (float_collect_items (FloatAnalytics.emotions_json record) e d)
      as (Ei & Pi & Ni).
    cbv zeta in Ei, Pi, Ni.
    match goal with
    | |- context [fold_left _ records ?d0] =>
        destruct (IH d0) as (E & P & N); cbv zeta in E, P, N
    end.
    split; [|split].
    + rewrite E, Ei. unfold FloatSpec.values_of. cbn [flat_map].
      rewrite <- app_assoc. reflexivity.
    + intro H. apply P, Pi, H.
    + intro H. apply N, Ni, H.
Qed.

Lemma float_collected_lookup (records : list FloatAnalytics.EmotionRecord) (e : string) :
  Py.get (FloatAnalytics.collect_values records) e
  = match FloatSpec.values_of records e with [] => None | l => Some l end.
Proof.
  destruct (float_collect_records records e []) as (E & P & _). cbv zeta in E, P.
  fold (FloatAnalytics.collect_values records) in E, P.
  assert (Hp : FloatSpec.populated (FloatAnalytics.collect_values records))
    by (apply P; intros ? ? H; discriminate H).
  unfold Py.get_default in E. simpl in E.
  destruct (Py.get (FloatAnalytics.collect_values records) e) as [l|] eqn:G.
  - rewrite <- E. specialize (Hp e l G). destruct l; [contradiction|reflexivity].
  - rewrite <- E. reflexivity.
Qed.

Lemma float_collected_keys_NoDup (records : list FloatAnalytics.EmotionRecord) :
  NoDup (Py.keys (FloatAnalytics.collect_values records)).
Proof.
  destruct (float_collect_records records "" []) as (_ & _ & N). apply N. constructor.
Qed.

(** The baselines hold, for exactly the emotions some record mentions, the
    sum of the emotion's values divided by their number. *)
Lemma float_baselines_lookup (sum : list float -> float)
    (records : list FloatAnalytics.EmotionRecord) (e : string) :
  Py.get (FloatAnalytics.compute_baselines sum (FloatAnalytics.collect_values records)) e
  = match FloatSpec.values_of records e with
    | [] => None
    | _ => Some (FloatSpec.baseline sum records e)
    end.
Proof.
  unfold FloatAnalytics.compute_baselines.
  pose proof (fold_set_fresh
                (fun values : list float =>
                   PrimFloat.div (sum values) (PyFloat.len values))
                (FloatAnalytics.collect_values records)
                (float_collected_keys_NoDup records) [])
    as E.
  cbv beta in E. rewrite E by (intros k _ []). clear E. cbn [app].
  rewrite (get_map_values
             (fun values : list float =>
                PrimFloat.div (sum values) (PyFloat.len values))).
  rewrite float_collected_lookup. unfold FloatSpec.baseline, FloatSpec.mean.
  destruct (FloatSpec.values_of records e); reflexivity.
Qed.

Lemma float_item_has_values (records : list FloatAnalytics.EmotionRecord)
    (record : FloatAnalytics.EmotionRecord) (item : string * float) :
  In record records -> In item (FloatAnalytics.emotions_json record) ->
  FloatSpec.values_of records (fst item) <> [].
Proof.
  intros Hr Hi E.
  assert (Hin : In (snd item) (FloatSpec.values_of records (fst item))).
  { unfold FloatSpec.values_of. apply in_flat_map. exists record. split; [exact Hr|].
    unfold FloatSpec.values_in. apply in_flat_map. exists item. split; [exact Hi|].
    rewrite String.eqb_refl. left. reflexivity. }
  rewrite E in Hin. exact Hin.
Qed.

Lemma float_baseline_known (sum : list float -> float)
    (records : list FloatAnalytics.EmotionRecord)
    (record : FloatAnalytics.EmotionRecord) (item : string * float) :
  In record records -> In item (FloatAnalytics.emotions_json record) ->
  Py.get (FloatAnalytics.compute_baselines sum (FloatAnalytics.collect_values records))
         (fst item)
  = Some (FloatSpec.baseline sum records (fst item)).
Proof.
  intros Hr Hi. rewrite float_baselines_lookup.
  pose proof (float_item_has_values records record item Hr Hi) as H.
  destruct (FloatSpec.values_of records (fst item)); [contradiction|reflexivity].
Qed.

Lemma float_scan_item_spec (sum : list float -> float)
    (records : list FloatAnalytics.EmotionRecord) (bl : Py.dict float)
    (record : FloatAnalytics.EmotionRecord)
    (ps : list FloatAnalytics.peak) (ans : list FloatAnalytics.anomaly)
    (item : string * float) :
  Py.get bl (fst item) = Some (FloatSpec.baseline sum records (fst item)) ->
  FloatAnalytics.scan_item bl record (ps, ans) item
  = Some (ps ++ (if FloatSpec.is_peak sum records (fst item) (snd item)
                 then [FloatSpec.peak_entry sum records record (fst item) (snd item)]
                 else []),
          ans ++ (if FloatSpec.is_anomaly (snd item)
                  then [FloatSpec.anomaly_entry record (fst item) (snd item)]
                  else [])).
Proof.
  destruct item as [emotion value]. cbn [fst snd]. intro Hb.
  unfold FloatAnalytics.scan_item. rewrite Hb.
  unfold FloatSpec.is_peak, FloatSpec.is_anomaly, FloatAnalytics.threshold_multiplier.
  f_equal. f_equal.
  - destruct (PyFloat.gtb value
                (PrimFloat.mul (FloatSpec.baseline sum records emotion) 1.5%float)
              && PyFloat.gtb value 0.7%float);
      [reflexivity|rewrite app_nil_r; reflexivity].
  - destruct (PyFloat.gtb value 0.9%float);
      [reflexivity|rewrite app_nil_r; reflexivity].
Qed.

Lemma float_scan_items_spec (sum : list float -> float)
    (records : list FloatAnalytics.EmotionRecord) (bl : Py.dict float)
    (record : FloatAnalytics.EmotionRecord) (items : Py.dict float) :
  (forall item, In item items ->
     Py.get bl (fst item) = Some (FloatSpec.baseline sum records (fst item))) ->
  forall (ps : list FloatAnalytics.peak) (ans : list FloatAnalytics.anomaly),
    for_each (FloatAnalytics.scan_item bl record) items (ps, ans)
    = Some (ps ++ flat_map
                    (fun item =>
                       if FloatSpec.is_peak sum records (fst item) (snd item)
                       then [FloatSpec.peak_entry sum records record
                               (fst item) (snd item)]
                       else [])
                    items,
            ans ++ flat_map
                     (fun item =>
                        if FloatSpec.is_anomaly (snd item)
                        then [FloatSpec.anomaly_entry record (fst item) (snd item)]
                        else [])
                     items).
Proof.
  induction items as [|item items IH]; intros Hbl ps ans.
  - simpl. rewrite !app_nil_r. reflexivity.
  - cbn [for_each flat_map].
    rewrite (float_scan_item_spec sum records) by (apply Hbl; left; reflexivity).
    rewrite IH by (intros i Hi; apply Hbl; right; exact Hi).
    rewrite <- !app_assoc. reflexivity.
Qed.

Lemma float_scan_from (sum : list float -> float)
    (records : list FloatAnalytics.EmotionRecord) (bl : Py.dict float)
    (scanned : list FloatAnalytics.EmotionRecord) :
  (forall record item,
     In record scanned -> In item (FloatAnalytics.emotions_json record) ->
     Py.get bl (fst item) = Some (FloatSpec.baseline sum records (fst item))) ->
  forall (ps : list FloatAnalytics.peak) (ans : list FloatAnalytics.anomaly),
    for_each
      (fun state record =>
         for_each (FloatAnalytics.scan_item bl record)
                  (FloatAnalytics.emotions_json record) state)
      scanned (ps, ans)
    = Some (ps ++ FloatSpec.flagged_peaks sum records scanned,
            ans ++ FloatSpec.flagged_anomalies scanned).
Proof.
  induction scanned as [|record scanned IH]; intros Hbl ps ans.
  - simpl. rewrite !app_nil_r. reflexivity.
  - cbn [for_each].
    rewrite (float_scan_items_spec sum records)
      by (intros i Hi; apply (Hbl record i); [left; reflexivity|exact Hi]).
    rewrite IH by (intros r i Hr Hi; apply (Hbl r i); [right; exact Hr|exact Hi]).
    unfold FloatSpec.flagged_peaks, FloatSpec.flagged_anomalies. cbn [flat_map].
    rewrite <- !app_assoc. reflexivity.
Qed.

(** The detection loop never raises and flags exactly the triples that
    pass the comparisons, in source order. *)
Lemma float_scan_records_spec (sum : list float -> float)
    (records : list FloatAnalytics.EmotionRecord) :
  FloatAnalytics.scan_records
    (FloatAnalytics.compute_baselines sum (FloatAnalytics.collect_values records))
    records
  = Some (FloatSpec.flagged_peaks sum records records,
          FloatSpec.flagged_anomalies records).
Proof.
  unfold FloatAnalytics.scan_records.
  rewrite (float_scan_from sum records) by (intros r i; apply float_baseline_known).
  reflexivity.
Qed.

Lemma In_float_flagged_peaks (sum : list float -> float)
    (records : list FloatAnalytics.EmotionRecord) (p : FloatAnalytics.peak) :
  In p (FloatSpec.flagged_peaks sum records records)
  <-> exists record emotion value,
        In record records
        /\ In (emotion, value) (FloatAnalytics.emotions_json record)
        /\ FloatSpec.is_peak sum records emotion value = true
        /\ p = FloatSpec.peak_entry sum records record emotion value.
Proof.
  unfold FloatSpec.flagged_peaks. rewrite in_flat_map. split.
  - intros [record [Hr Hp]]. apply in_flat_map in Hp.
    destruct Hp as [[emotion value] [Hi Hp]]. cbn [fst snd] in Hp.
    destruct (FloatSpec.is_peak sum records emotion value) eqn:Hpk; [|destruct Hp].
    destruct Hp as [E|[]]. exists record, emotion, value. auto.
  - intros (record & emotion & value & Hr & Hi & Hpk & E).
    exists record. split; [exact Hr|]. apply in_flat_map.
    exists (emotion, value). split; [exact Hi|]. cbn [fst snd].
    rewrite Hpk. left. symmetry. exact E.
Qed.

Lemma In_float_flagged_anomalies
    (records : list FloatAnalytics.EmotionRecord) (a : FloatAnalytics.anomaly) :
  In a (FloatSpec.flagged_anomalies records)
  <-> exists record emotion value,
        In record records
        /\ In (emotion, value) (FloatAnalytics.emotions_json record)
        /\ FloatSpec.is_anomaly value = true
        /\ a = FloatSpec.anomaly_entry record emotion value.
Proof.
  unfold FloatSpec.flagged_anomalies. rewrite in_flat_map. split.
  - intros [record [Hr Ha]]. apply in_flat_map in Ha.
    destruct Ha as [[emotion value] [Hi Ha]]. cbn [fst snd] in Ha.
    destruct (FloatSpec.is_anomaly value) eqn:Han; [|destruct Ha].
    destruct Ha as [E|[]]. exists record, emotion, value. auto.
  - intros (record & emotion & value & Hr & Hi & Han & E).
    exists record. split; [exact Hr|]. apply in_flat_map.
    exists (emotion, value). split; [exact Hi|]. cbn [fst snd].
    rewrite Han. left. symmetry. exact E.
Qed.

(** C4, as the code has it, on the floats the code computes with and for
    either way the interpreter sums.  The detection loop never fails; it
    appends a peak entry for a (record, emotion, value) triple exactly when
    value > baseline * 1.5 and value > 0.7, the baseline being the sum of
    the emotion's values over the whole sequence divided by their number,
    and an anomaly entry exactly when value > 0.9; the intensity of a peak
    is value / baseline rounded to two decimals when the baseline is
    positive and 1 otherwise.  A value 0.9 against a baseline 0.4 is a peak
    and no anomaly. *)
Theorem peaks_and_anomalies_flagged :
  forall (sum : list float -> float) (records : list FloatAnalytics.EmotionRecord),
    FloatAnalytics.detect_peaks sum records
    = Some (FloatSpec.flagged_peaks sum records records,
            FloatSpec.flagged_anomalies records)
    /\ (forall p : FloatAnalytics.peak,
          In p (FloatSpec.flagged_peaks sum records records)
          <-> exists record emotion value,
                In record records
                /\ In (emotion, value) (FloatAnalytics.emotions_json record)
                /\ (PyFloat.gtb value
                      (PrimFloat.mul (FloatSpec.baseline sum records emotion) 1.5%float)
                    = true
                    /\ PyFloat.gtb value 0.7%float = true)
                /\ p = FloatSpec.peak_entry sum records record emotion value)
    /\ (forall record emotion value,
          FloatAnalytics.intensity
            (FloatSpec.peak_entry sum records record emotion value)
          = if PyFloat.gtb (FloatSpec.baseline sum records emotion) 0%float
            then PyFloat.round
                   (PrimFloat.div value (FloatSpec.baseline sum records emotion)) 2
            else 1%float)
    /\ (forall a : FloatAnalytics.anomaly,
          In a (FloatSpec.flagged_anomalies records)
          <-> exists record emotion value,
                In record records
                /\ In (emotion, value) (FloatAnalytics.emotions_json record)
                /\ PyFloat.gtb value 0.9%float = true
                /\ a = FloatSpec.anomaly_entry record emotion value)
    /\ (forall record emotion value,
          In record records ->
          In (emotion, value) (FloatAnalytics.emotions_json record) ->
          Py.get (FloatAnalytics.compute_baselines sum
                    (FloatAnalytics.collect_values records)) emotion
          = Some (PrimFloat.div (sum (FloatSpec.values_of records emotion))
                                (PyFloat.len (FloatSpec.values_of records emotion))))
    /\ (FloatSpec.baseline sum records "happy" = 0.4%float ->
        FloatSpec.is_peak sum records "happy" 0.9%float = true
        /\ FloatSpec.is_anomaly 0.9%float = false).
Proof.
  intros sum records.
  split; [apply float_scan_records_spec|].
  split.
  { intro p. rewrite In_float_flagged_peaks. unfold FloatSpec.is_peak.
    split; intros (record & emotion & value & Hr & Hi & Hpk & E);
      exists record, emotion, value;
      (split; [exact Hr|]); (split; [exact Hi|]); (split; [|exact E]).
    - apply andb_true_iff in Hpk. exact Hpk.
    - apply andb_true_iff. exact Hpk. }
  split; [reflexivity|].
  split; [apply In_float_flagged_anomalies|].
  split.
  - intros record emotion value Hr Hi.
    apply (float_baseline_known sum records record (emotion, value) Hr Hi).
  - intro Hb. unfold FloatSpec.is_peak. rewrite Hb.
    split; vm_compute; reflexivity.
Qed.

Lemma peaks_and_anomalies_flagged_witness :
  In (FloatSpec.peak_entry PyFloat.sum_compensated FloatExamples.baseline_04
        (FloatExamples.happy_at 1 0.9%float) "happy" 0.9%float)
     (FloatSpec.flagged_peaks PyFloat.sum_compensated
        FloatExamples.baseline_04 FloatExamples.baseline_04)
  /\ Py.get (FloatAnalytics.compute_baselines PyFloat.sum_compensated
               (FloatAnalytics.collect_values FloatExamples.baseline_04)) "happy"
     = Some 0.4%float
  /\ FloatSpec.is_peak PyFloat.sum_compensated FloatExamples.baseline_04
       "happy" 0.9%float = true
  /\ FloatSpec.is_anomaly 0.9%float = false
  /\ FloatSpec.is_peak PyFloat.sum_left FloatExamples.baseline_04
       "happy" 0.9%float = true
  /\ In (FloatSpec.peak_entry PyFloat.sum_left FloatExamples.baseline_06
           (FloatExamples.happy_at 1 0.9%float) "happy" 0.9%float)
        (FloatSpec.flagged_peaks PyFloat.sum_left
           FloatExamples.baseline_06 FloatExamples.baseline_06).
Proof.
  destruct (peaks_and_anomalies_flagged PyFloat.sum_compensated
              FloatExamples.baseline_04)
    as (_ & Hp & _ & _ & Hb & Hex).
  destruct (peaks_and_anomalies_flagged PyFloat.sum_left FloatExamples.baseline_04)
    as (_ & _ & _ & _ & _ & Hex').
  destruct (peaks_and_anomalies_flagged PyFloat.sum_left FloatExamples.baseline_06)
    as (_ & Hp' & _).
  split; [|split; [|split; [|split; [|split]]]].
  - apply (proj2 (Hp _)).
    exists (FloatExamples.happy_at 1 0.9%float), "happy", 0.9%float.
    split; [left; reflexivity|]. split; [left; reflexivity|].
    split; [split; vm_compute; reflexivity|reflexivity].
  - rewrite (Hb (FloatExamples.happy_at 1 0.9%float) "happy" 0.9%float).
    + vm_compute. reflexivity.
    + left. reflexivity.
    + left. reflexivity.
  - apply Hex. vm_compute. reflexivity.
  - apply Hex. vm_compute. reflexivity.
  - apply Hex'. vm_compute. reflexivity.
  - apply (proj2 (Hp' _)).
    exists (FloatExamples.happy_at 1 0.9%float), "happy", 0.9%float.
    split; [left; reflexivity|]. split; [left; reflexivity|].
    split; [split; vm_compute; reflexivity|reflexivity].
Defined.

(** C4, as stated, fails: on the sequence happy = 0.8, 0.05, 0.05 the value
    0.8 is a peak against a positive baseline, and the intensity reported
    for it is 2.67, not the ratio value / baseline; so it is whichever way
    the interpreter sums. *)
Lemma peak_intensity_not_plain_ratio :
  (exists p : FloatAnalytics.peak,
     FloatAnalytics.detect_peaks PyFloat.sum_compensated FloatExamples.baseline_03
     = Some ([p], [])
     /\ FloatAnalytics.peak_emotion p = "happy"
     /\ FloatAnalytics.peak_timestamp p = 1%Z
     /\ FloatSpec.is_peak PyFloat.sum_compensated FloatExamples.baseline_03
          "happy" 0.8%float = true
     /\ PyFloat.gtb
          (FloatSpec.baseline PyFloat.sum_compensated FloatExamples.baseline_03 "happy")
          0%float = true
     /\ FloatAnalytics.intensity p = 2.67%float
     /\ FloatSpec.ratio_intensity PyFloat.sum_compensated FloatExamples.baseline_03
          "happy" 0.8%float = 2.666666666666667%float
     /\ FloatAnalytics.intensity p
        <> FloatSpec.ratio_intensity PyFloat.sum_compensated FloatExamples.baseline_03
             "happy" 0.8%float)
  /\ (exists p : FloatAnalytics.peak,
        FloatAnalytics.detect_peaks PyFloat.sum_left FloatExamples.baseline_03
        = Some ([p], [])
        /\ FloatAnalytics.intensity p = 2.67%float
        /\ FloatSpec.ratio_intensity PyFloat.sum_left FloatExamples.baseline_03
             "happy" 0.8%float = 2.6666666666666665%float
        /\ FloatAnalytics.intensity p
           <> FloatSpec.ratio_intensity PyFloat.sum_left FloatExamples.baseline_03
                "happy" 0.8%float).
Proof.
  split.
  - eexists.
    split; [vm_compute; reflexivity|].
    split; [reflexivity|]. split; [reflexivity|].
    split; [vm_compute; reflexivity|].
    split; [vm_compute; reflexivity|].
    split; [vm_compute; reflexivity|].
    split; [vm_compute; reflexivity|].
    intro E. apply (f_equal (fun x => PrimFloat.ltb x 2.67%float)) in E.
    vm_compute in E. discriminate E.
  - eexists.
    split; [vm_compute; reflexivity|].
    split; [vm_compute; reflexivity|].
    split; [vm_compute; reflexivity|].
    intro E. apply (f_equal (fun x => PrimFloat.ltb x 2.67%float)) in E.
    vm_compute in E. discriminate E.
Qed.


(** * Further properties of the scoring and analytics code *)

(** ** Bounds on sums and means *)

Lemma len_cons {A} (x : A) (l : list A) : Py.len (x :: l) == Py.len l + 1.
Proof.
  unfold Py.len. cbn [List.length]. rewrite Nat2Z.inj_succ.
  unfold Z.succ. rewrite inject_Z_plus. reflexivity.
Qed.

Lemma len_nonneg {A} (l : list A) : 0 <= Py.len l.
Proof.
  unfold Py.len. change 0 with (inject_Z 0). rewrite <- Zle_Qle. lia.
Qed.

Lemma len_pos {A} (l : list A) : l <> [] -> 0 < Py.len l.
Proof.
  intro H. destruct l as [|x l]; [contradiction|].
  rewrite len_cons. pose proof (len_nonneg l). lra.
Qed.

Lemma fold_plus_bounds (lo hi : Q) (l : list Q) :
  Forall (fun x => lo <= x <= hi) l ->
  forall acc,
    acc + Py.len l * lo <= fold_left Qplus l acc
    /\ fold_left Qplus l acc <= acc + Py.len l * hi.
Proof.
  induction 1 as [|x l [Hlo Hhi] _ IH]; intro acc.
  - cbn [fold_left]. change (Py.len (@nil Q)) with 0. split; lra.
  - cbn [fold_left]. destruct (IH (acc + x)) as [IHlo IHhi].
    rewrite len_cons. split.
    + apply Qle_trans with (acc + x + Py.len l * lo); [|exact IHlo]. lra.
    + apply Qle_trans with (acc + x + Py.len l * hi); [exact IHhi|]. lra.
Qed.

Lemma mean_bounds (lo hi : Q) (l : list Q) :
  l <> [] -> Forall (fun x => lo <= x <= hi) l ->
  lo <= Py.mean l /\ Py.mean l <= hi.
Proof.
  intros Hne Hall. pose proof (len_pos l Hne) as Hlen.
  destruct (fold_plus_bounds lo hi l Hall 0) as [Hlo Hhi].
  unfold Py.mean, Py.sum. split.
  - apply Qle_shift_div_l; [exact Hlen|]. lra.
  - apply Qle_shift_div_r; [exact Hlen|]. lra.
Qed.

Lemma py_min_le_l (a b : Q) : Py.min a b <= a.
Proof.
  unfold Py.min. destruct (Py.ltb b a) eqn:E; [|apply Qle_refl].
  apply ltb_lt in E. apply Qlt_le_weak, E.
Qed.

Lemma py_min_le_r (a b : Q) : Py.min a b <= b.
Proof.
  unfold Py.min. destruct (Py.ltb b a) eqn:E; [apply Qle_refl|].
  apply ltb_ge in E. exact E.
Qed.

Lemma py_min_glb (a b c : Q) : c <= a -> c <= b -> c <= Py.min a b.
Proof. intros Ha Hb. unfold Py.min. destruct (Py.ltb b a); assumption. Qed.

Lemma py_max_ge_l (a b : Q) : a <= Py.max a b.
Proof.
  unfold Py.max. destruct (Py.gtb b a) eqn:E; [|apply Qle_refl].
  apply gtb_gt in E. apply Qlt_le_weak, E.
Qed.

Lemma py_max_ge_r (a b : Q) : b <= Py.max a b.
Proof.
  unfold Py.max. destruct (Py.gtb b a) eqn:E; [apply Qle_refl|].
  apply gtb_le in E. exact E.
Qed.

(** ** Ranges of the two scores *)

Lemma wellness_score_in_unit_interval_aux :
  forall emotions_history : list emotions,
    0 <= calculate_wellness_score emotions_history
    /\ calculate_wellness_score emotions_history <= 1.
Proof.
  intros [|record history]; [split; discriminate|].
  unfold calculate_wellness_score.
  rewrite (slice_suffix 10) by lia. rewrite wellness_scores_from. cbn [app].
  destruct (Spec.usable (Spec.last_n 10 (record :: history))) as [|r rs];
    [split; discriminate|].
  set (samples := r :: rs).
  change (0 <= Py.mean
                 (map (fun record =>
                         Py.max 0 (Py.min 1
                           ((Spec.weighted_sum record + Spec.total_intensity record)
                            / (2 * Spec.total_intensity record)))) samples)
          /\ Py.mean
               (map (fun record =>
                       Py.max 0 (Py.min 1
                         ((Spec.weighted_sum record + Spec.total_intensity record)
                          / (2 * Spec.total_intensity record)))) samples) <= 1).
  apply mean_bounds; [subst samples; discriminate|].
  apply Forall_map, Forall_forall. intros s _. split.
  - apply py_max_ge_l.
  - unfold Py.max. destruct (Py.gtb _ 0); [apply py_min_le_l|discriminate].
Qed.

(** The wellness score of any history lies in [0, 1]. *)
Theorem wellness_score_in_unit_interval :
  forall emotions_history : list emotions,
    0 <= calculate_wellness_score emotions_history
    /\ calculate_wellness_score emotions_history <= 1.
Proof.
  intro h. destruct (wellness_score_in_unit_interval_aux h) as [Hlo Hhi].
  split; [exact Hlo|exact Hhi].
Qed.

Lemma stability_score_in_range_aux :
  forall emotions_history : list emotions,
    1 # 10 <= calculate_stability_score emotions_history
    /\ calculate_stability_score emotions_history <= 1.
Proof.
  intro h. unfold calculate_stability_score.
  destruct (List.length h <? 3)%nat; [split; discriminate|].
  cbv zeta. split.
  - apply py_min_glb; [discriminate|apply py_max_ge_l].
  - apply py_min_le_l.
Qed.

(** The stability score of any history lies in [0.1, 1]. *)
Theorem stability_score_in_range :
  forall emotions_history : list emotions,
    1 # 10 <= calculate_stability_score emotions_history
    /\ calculate_stability_score emotions_history <= 1.
Proof.
  intro h. destruct (stability_score_in_range_aux h) as [Hlo Hhi].
  split; [exact Hlo|exact Hhi].
Qed.

(** ** When the engine recommends nothing *)

(** The recommendation list is empty exactly when neither override fires
    (the wellness is not below 0.3, the stability not below 0.4) and the
    dominant emotion is "happy" with a confidence that is not above 0.7, or
    "sad" with a confidence that is not above 0.6.  The conditions are the
    comparisons the code makes, on floats, coming out false; so a NaN
    confidence, which is above nothing, leaves a "happy" list empty. *)
Theorem recommendations_empty_iff :
  (forall (dominant : string) (confidence wellness stability : float),
      FloatRec.generate_intelligent_recommendations
        dominant confidence wellness stability = []
      <-> PyFloat.ltb wellness 0.3%float = false
          /\ PyFloat.ltb stability 0.4%float = false
          /\ ((dominant = "happy" /\ PyFloat.gtb confidence 0.7%float = false)
              \/ (dominant = "sad" /\ PyFloat.gtb confidence 0.6%float = false)))
  /\ FloatRec.generate_intelligent_recommendations
       "happy" PrimFloat.nan 0.5%float 0.7%float = []
  /\ FloatRec.generate_intelligent_recommendations
       "happy" 0.7%float 0.3%float 0.4%float = [].
Proof.
  split; [|split; vm_compute; reflexivity].
  intros dominant confidence wellness stability.
  unfold FloatRec.generate_intelligent_recommendations, insert0.
  rewrite (slice_prefix 4).
  destruct (PyFloat.ltb stability 0.4%float) eqn:Hs;
    destruct (PyFloat.ltb wellness 0.3%float) eqn:Hw.
  1-3: split; [discriminate|intros (Hw' & Hs' & _); discriminate].
  unfold FloatRec.base_recommendations.
  destruct (String.eqb_spec dominant "happy") as [Eh|Nh].
  - destruct (PyFloat.gtb confidence 0.7%float) eqn:Hc.
    + split; [discriminate|].
      intros (_ & _ & [[_ Hc']|[E _]]); [discriminate Hc'|].
      subst dominant. discriminate E.
    + split; [|reflexivity]. intros _. auto.
  - destruct (String.eqb_spec dominant "sad") as [Es|Ns].
    + destruct (PyFloat.gtb confidence 0.6%float) eqn:Hc.
      * split; [discriminate|].
        intros (_ & _ & [[E _]|[_ Hc']]); [contradiction|discriminate Hc'].
      * split; [|reflexivity]. intros _. auto.
    + split.
      * repeat match goal with
               | |- context [String.eqb ?a ?b] => destruct (String.eqb a b)
               end; discriminate.
      * intros (_ & _ & [[E _]|[E _]]); contradiction.
Qed.

(** ** Pagination *)

(** With a positive page size, [pages] is the least number of pages that
    hold [total] items, and [has_next] says exactly that items remain
    beyond the current page; a page size of 0 raises. *)
Theorem paginated_response_pages :
  forall page per_page total : Z,
    (Responses.paginated_response page 0 total = None)
    /\ ((0 < per_page)%Z ->
        exists p,
          Responses.paginated_response page per_page total = Some p
          /\ ((Responses.pages p - 1) * per_page < total
              <= Responses.pages p * per_page)%Z
          /\ (Responses.has_next p = true <-> (page * per_page < total)%Z)
          /\ (Responses.has_prev p = true <-> (1 < page)%Z)).
Proof.
  intros page per_page total. split; [reflexivity|]. intro Hpp.
  unfold Responses.paginated_response.
  destruct (Z.eqb_spec per_page 0) as [E|_]; [lia|].
  eexists. split; [reflexivity|]. cbn [Responses.pages Responses.has_next
    Responses.has_prev].
  pose proof (Z.div_mod (total + per_page - 1) per_page ltac:(lia)) as Hdm.
  pose proof (Z.mod_pos_bound (total + per_page - 1) per_page Hpp) as Hr.
  set (q := ((total + per_page - 1) / per_page)%Z) in *.
  set (r := ((total + per_page - 1) mod per_page)%Z) in *.
  split; [nia|]. split.
  - rewrite Z.ltb_lt. split; intro H; nia.
  - rewrite Z.gtb_ltb, Z.ltb_lt. reflexivity.
Qed.

Lemma paginated_response_pages_witness :
  exists p,
    Responses.paginated_response 2 20 45 = Some p
    /\ Responses.pages p = 3%Z /\ Responses.has_next p = true.
Proof.
  destruct (proj2 (paginated_response_pages 2 20 45)) as (p & Hp & Hpages & Hnext & _).
  - reflexivity.
  - exists p. split; [exact Hp|]. split.
    + lia.
    + apply (proj2 Hnext). reflexivity.
Defined.

(** ** Fallback recommendations *)

(** The fallback list is never empty: three tips for "sad", "angry" and
    "fearful", two for any other emotion, each tagged with the emotion
    asked for. *)
Theorem fallback_recommendations_tagged :
  forall dominant_emotion : string,
    let tips := AnalyticsMore.get_fallback_recommendations dominant_emotion in
    (List.length tips
     = if in_dec string_dec dominant_emotion ["sad"; "angry"; "fearful"]
       then 3%nat else 2%nat)
    /\ Forall (fun t => AnalyticsMore.tip_emotion t = dominant_emotion) tips.
Proof.
  intro d. cbv zeta. unfold AnalyticsMore.get_fallback_recommendations.
  destruct (in_dec string_dec d ["sad"; "angry"; "fearful"]) as [H|H].
  - apply mem_In in H. rewrite H. split; [reflexivity|].
    repeat constructor.
  - destruct (Py.mem d ["sad"; "angry"; "fearful"]) eqn:E;
      [apply mem_In in E; contradiction|].
    destruct (String.eqb d "happy"); split; try reflexivity; repeat constructor.
Qed.

(** ** The dominant emotion of a record *)

Lemma max_by_spec {A} (key : A -> Q) (rest : list A) (first : A) :
  In (PyMore.max_by key first rest) (first :: rest)
  /\ forall x, In x (first :: rest) -> key x <= key (PyMore.max_by key first rest).
Proof.
  revert first. induction rest as [|y rest IH]; intro first; unfold PyMore.max_by.
  - simpl. split; [left; reflexivity|].
    intros x [E|[]]. subst x. apply Qle_refl.
  - cbn [fold_left].
    destruct (Py.gtb (key y) (key first)) eqn:G;
      [apply gtb_gt in G; destruct (IH y) as [Hin Hmax]
      |apply gtb_le in G; destruct (IH first) as [Hin Hmax]];
      unfold PyMore.max_by in Hin, Hmax.
    + split.
      * right. exact Hin.
      * intros x [E|Hx]; [|apply Hmax, Hx]. subst x.
        apply Qle_trans with (key y);
          [apply Qlt_le_weak, G|apply Hmax; left; reflexivity].
    + split.
      * destruct Hin as [E|Hin]; [left; exact E|right; right; exact Hin].
      * intros x [E|[E|Hx]].
        -- apply Hmax. left. exact E.
        -- subst x. apply Qle_trans with (key first);
             [exact G|apply Hmax; left; reflexivity].
        -- apply Hmax. right. exact Hx.
Qed.

Lemma get_NoDup_item {V} (d : Py.dict V) (k : string) (v : V) :
  NoDup (Py.keys d) -> In (k, v) d -> Py.get d k = Some v.
Proof.
  induction d as [|[k0 v0] d IH]; intros Hnd Hin; [destruct Hin|].
  simpl. inversion Hnd as [|? ? Hnotin Hnd']; subst.
  destruct Hin as [E|Hin].
  - injection E as E1 E2. subst. rewrite String.eqb_refl. reflexivity.
  - destruct (String.eqb_spec k k0) as [E|_]; [|apply IH; assumption].
    subst k0. exfalso. apply Hnotin.
    change k with (fst (k, v)). apply in_map, Hin.
Qed.

Lemma max_by_keys_max_item (d : emotions) (rest : list (string * Q))
    (best : string * Q) :
  Py.get_default d (fst best) 0 = snd best ->
  (forall item, In item rest -> Py.get_default d (fst item) 0 = snd item) ->
  PyMore.max_by (fun k => Py.get_default d k 0) (fst best) (Py.keys rest)
  = fst (max_item best rest).
Proof.
  revert best. induction rest as [|item rest IH]; intros best Hb Hrest.
  - reflexivity.
  - unfold PyMore.max_by, max_item, Py.keys in *. cbn [map fold_left].
    rewrite Hb, (Hrest item (or_introl eq_refl)).
    destruct (Py.gtb (snd item) (snd best)).
    + apply IH; [apply Hrest; left; reflexivity|].
      intros i Hi. apply Hrest. right. exact Hi.
    + apply IH; [exact Hb|].
      intros i Hi. apply Hrest. right. exact Hi.
Qed.

(** On a vector with distinct keys, the dominant emotion of the record
    model is the one the stress classifier computes. *)
Theorem dominant_emotion_consistent :
  forall emotions_json : emotions,
    NoDup (Py.keys emotions_json) ->
    Model.get_dominant_emotion emotions_json = fst (max_emotion emotions_json).
Proof.
  intros d Hnd. unfold Model.get_dominant_emotion, max_emotion.
  destruct d as [|first rest]; [reflexivity|]. cbn [Py.keys map].
  assert (L : forall item, In item (first :: rest) ->
                Py.get_default (first :: rest) (fst item) 0 = snd item).
  { intros [k v] Hin. cbn [fst snd]. unfold Py.get_default.
    rewrite (get_NoDup_item (first :: rest) k v Hnd Hin). reflexivity. }
  apply (max_by_keys_max_item (first :: rest) rest first).
  - apply L. left. reflexivity.
  - intros item Hin. apply L. right. exact Hin.
Qed.

Lemma dominant_emotion_consistent_witness :
  Model.get_dominant_emotion [("sad", 3 # 10); ("happy", 6 # 10); ("angry", 6 # 10)]
  = "happy".
Proof.
  rewrite (dominant_emotion_consistent
             [("sad", 3 # 10); ("happy", 6 # 10); ("angry", 6 # 10)]).
  - reflexivity.
  - repeat (constructor; [simpl; intuition discriminate|]). constructor.
Defined.

(** ** Distribution of dominant emotions *)

Lemma sum_values_set (d : Py.dict Z) (k : string) (v : Z) :
  (fold_right Z.add 0 (Py.values (Py.set d k v))
   = fold_right Z.add 0 (Py.values d) - Py.get_default d k 0 + v)%Z.
Proof.
  unfold Py.values, Py.get_default.
  induction d as [|[k0 v0] d IH]; simpl.
  - lia.
  - destruct (String.eqb k k0); simpl; [lia|]. rewrite IH. lia.
Qed.

Lemma distribution_from (records : list EmotionRecord) :
  forall d : Py.dict Z,
    (forall e n, Py.get d e = Some n -> (0 < n)%Z) ->
    let d' :=
      fold_left
        (fun distribution record =>
           PyMore.incr distribution
             (Model.get_dominant_emotion (emotions_json record)))
        records d in
    (fold_right Z.add 0 (Py.values d')
     = fold_right Z.add 0 (Py.values d) + Z.of_nat (List.length records))%Z
    /\ (forall e,
          Py.get_default d' e 0%Z
          = (Py.get_default d e 0
             + Z.of_nat
                 (List.length
                    (filter (fun record =>
                               String.eqb
                                 (Model.get_dominant_emotion (emotions_json record)) e)
                            records)))%Z)
    /\ (forall e n, Py.get d' e = Some n -> (0 < n)%Z).
Proof.
  induction records as [|record records IH]; intros d Hpos; cbv zeta.
  - simpl. split; [lia|split; [intro e; lia|exact Hpos]].
  - cbn [fold_left].
    set (k := Model.get_dominant_emotion (emotions_json record)).
    assert (Hge : (0 <= Py.get_default d k 0)%Z).
    { unfold Py.get_default. destruct (Py.get d k) as [n|] eqn:G; [|lia].
      specialize (Hpos k n G). lia. }
    assert (Hpos' : forall e n, Py.get (PyMore.incr d k) e = Some n -> (0 < n)%Z).
    { intros e n. unfold PyMore.incr. rewrite get_set.
      destruct (String.eqb e k); [|apply Hpos].
      intro E. injection E as E. lia. }
    destruct (IH (PyMore.incr d k) Hpos') as (Hsum & Hget & Hp). cbv zeta in *.
    split; [|split; [|exact Hp]].
    + rewrite Hsum. unfold PyMore.incr at 1. rewrite sum_values_set.
      cbn [List.length]. lia.
    + intro e. rewrite Hget. cbn [filter]. fold k.
      unfold PyMore.incr, Py.get_default at 1. rewrite get_set.
      rewrite (String.eqb_sym e k).
      destruct (String.eqb_spec k e) as [E|N].
      * subst e. cbn [List.length]. lia.
      * fold (Py.get_default d e 0%Z). lia.
Qed.

(** The distribution counts every record once: its counts add up to the
    number of records, an emotion's count is the number of records it
    dominates, and an emotion that dominates no record has no entry. *)
Theorem distribution_counts_records :
  forall emotions_in_range : list EmotionRecord,
    let distribution := AnalyticsMore.get_emotion_distribution emotions_in_range in
    let dominated (emotion : string) : nat :=
      List.length
        (filter (fun record =>
                   String.eqb (Model.get_dominant_emotion (emotions_json record))
                              emotion)
                emotions_in_range) in
    fold_right Z.add 0%Z (Py.values distribution)
    = Z.of_nat (List.length emotions_in_range)
    /\ forall emotion : string,
         Py.get distribution emotion
         = match dominated emotion with
           | O => None
           | n => Some (Z.of_nat n)
           end.
Proof.
  intro records. cbv zeta.
  destruct (distribution_from records [] ltac:(intros e n H; discriminate H))
    as (Hsum & Hget & Hpos).
  cbv zeta in *. fold (AnalyticsMore.get_emotion_distribution records) in *.
  split; [rewrite Hsum; simpl; lia|].
  intro e. specialize (Hget e). unfold Py.get_default in Hget. simpl in Hget.
  clear Hsum.
  destruct (Py.get (AnalyticsMore.get_emotion_distribution records) e) as [n|] eqn:G.
  - specialize (Hpos e n G).
    destruct (List.length _) as [|m]; [lia|]. rewrite Hget. reflexivity.
  - destruct (List.length _) as [|m]; [reflexivity|lia].
Qed.

(** ** Accumulating into a [defaultdict(float)] *)

Lemma add_to_lookup (d : Py.dict Q) (k : string) (x : Q) (e : string) :
  Py.get_default (PyMore.add_to d k x) e 0
  = if String.eqb k e then Py.get_default d k 0 + x else Py.get_default d e 0.
Proof.
  unfold PyMore.add_to. unfold Py.get_default at 1. rewrite get_set.
  rewrite (String.eqb_sym e k). destruct (String.eqb k e); reflexivity.
Qed.

Lemma add_items_lookup (items : emotions) (e : string) :
  forall d : Py.dict Q,
    Py.get_default
      (fold_left (fun sums item => PyMore.add_to sums (fst item) (snd item)) items d)
      e 0
    = fold_left Qplus (Spec.values_in items e) (Py.get_default d e 0).
Proof.
  induction items as [|[k v] items IH]; intro d; [reflexivity|].
  cbn [fold_left fst snd]. rewrite IH, add_to_lookup.
  unfold Spec.values_in. cbn [flat_map fst snd].
  destruct (String.eqb_spec k e) as [E|N]; [subst k|]; reflexivity.
Qed.

Lemma add_records_lookup (records : list EmotionRecord) (e : string) :
  forall d : Py.dict Q,
    Py.get_default
      (fold_left
         (fun sums record =>
            fold_left (fun sums item => PyMore.add_to sums (fst item) (snd item))
                      (emotions_json record) sums)
         records d)
      e 0
    = fold_left Qplus (Spec.values_of records e) (Py.get_default d e 0).
Proof.
  induction records as [|record records IH]; intro d; [reflexivity|].
  cbn [fold_left]. rewrite IH, add_items_lookup.
  unfold Spec.values_of. cbn [flat_map]. rewrite fold_left_app. reflexivity.
Qed.

Lemma sum_fold_right (l : list Q) : Py.sum l == fold_right Qplus 0 l.
Proof.
  unfold Py.sum.
  assert (G : forall a, fold_left Qplus l a == a + fold_right Qplus 0 l).
  { induction l as [|x l IH]; intro a; simpl; [ring|]. rewrite IH. ring. }
  rewrite G. ring.
Qed.


Lemma sum_cons (x : Q) (l : list Q) : Py.sum (x :: l) == x + Py.sum l.
Proof. rewrite !sum_fold_right. reflexivity. Qed.




Lemma sum_scaled (c : Q) (l : list Q) :
  Py.sum (map (fun v => v * c) l) == Py.sum l * c.
Proof.
  induction l as [|x l IH].
  - unfold Py.sum. simpl. ring.
  - cbn [map]. rewrite !sum_cons, IH. ring.
Qed.

Lemma sum_morph (l l' : list Q) : Forall2 Qeq l l' -> Py.sum l == Py.sum l'.
Proof. intro H. apply (fold_plus_morph l l' H 0 0). reflexivity. Qed.

Lemma get_default_map_values (f : Q -> Q) (d : Py.dict Q) (e : string) :
  f 0 == 0 ->
  Py.get_default (map (fun kv => (fst kv, f (snd kv))) d) e 0
  == f (Py.get_default d e 0).
Proof.
  intro H0. unfold Py.get_default. rewrite (get_map_values f).
  destruct (Py.get d e); simpl; [reflexivity|symmetry; exact H0].
Qed.


(** ** Emotion correlations *)



(** ** Scores derived by the analytics recommendations endpoint *)

Lemma In_keys_add_to (d : Py.dict Q) (k : string) (x : Q) (e : string) :
  In e (Py.keys (PyMore.add_to d k x)) <-> In e (Py.keys d) \/ e = k.
Proof.
  unfold PyMore.add_to. rewrite keys_set. unfold Py.contains.
  destruct (Py.get d k) eqn:G.
  - split; [intro H; left; exact H|]. intros [H|E]; [exact H|]. subst e.
    destruct (in_dec string_dec k (Py.keys d)) as [H|H]; [exact H|].
    apply get_None_keys in H. congruence.
  - rewrite in_app_iff. simpl. intuition.
Qed.

Lemma count_records_from (records : list EmotionRecord) :
  forall (d : Py.dict Q) (n : Z),
    fold_left
      (fun state record =>
         let '(emotion_counts, total_records) := state in
         let total_records := (total_records + 1)%Z in
         (fold_left
            (fun emotion_counts item =>
               PyMore.add_to emotion_counts (fst item) (snd item))
            (emotions_json record) emotion_counts,
          total_records))
      records (d, n)
    = (fold_left
         (fun sums record =>
            fold_left (fun sums item => PyMore.add_to sums (fst item) (snd item))
                      (emotions_json record) sums)
         records d,
       (n + Z.of_nat (List.length records))%Z).
Proof.
  induction records as [|record records IH]; intros d n.
  - simpl. f_equal. lia.
  - cbn [fold_left]. cbv zeta. rewrite IH. f_equal. cbn [List.length]. lia.
Qed.

(** An averaged count is the sum of the emotion's values divided by the
    number of records, a record without the emotion counting as 0. *)
Lemma average_counts_lookup (records : list EmotionRecord) (e : string) :
  Py.get_default (AnalyticsMore.average_counts records) e 0
  == Py.sum (Spec.values_of records e) / Py.len records.
Proof.
  unfold AnalyticsMore.average_counts. rewrite count_records_from.
  pose proof (add_records_lookup records e []) as L.
  change (Py.get_default [] e 0) with 0 in L. fold (Py.sum (Spec.values_of records e)) in L.
  match type of L with
  | Py.get_default ?t _ _ = _ => set (collected := t) in *
  end.
  destruct collected as [|kv sums].
  - rewrite <- L. unfold Py.get_default. simpl. unfold Qdiv. ring.
  - rewrite (get_default_map_values
               (fun v => v / inject_Z (0 + Z.of_nat (List.length records)))).
    + rewrite L. reflexivity.
    + unfold Qdiv. ring.
Qed.

Lemma In_insert_desc (x y : Q) (l : list Q) :
  In y (PyMore.insert_desc x l) <-> y = x \/ In y l.
Proof.
  induction l as [|z l IH]; simpl.
  - intuition.
  - destruct (Py.gtb z x); simpl; [rewrite IH|]; intuition.
Qed.

Lemma In_sorted_desc (y : Q) (l : list Q) :
  In y (PyMore.sorted_desc l) <-> In y l.
Proof.
  unfold PyMore.sorted_desc. induction l as [|x l IH]; simpl; [reflexivity|].
  rewrite In_insert_desc, IH. intuition.
Qed.

(** The first element of [sorted(l, reverse=True)] bounds all of [l]. *)
Lemma sorted_desc_head (l : list Q) :
  match PyMore.sorted_desc l with
  | [] => l = []
  | top :: _ => In top l /\ forall y, In y l -> y <= top
  end.
Proof.
  assert (G : forall l,
             match PyMore.sorted_desc l with
             | [] => True
             | top :: rest => forall y, In y rest -> y <= top
             end).
  { clear l. unfold PyMore.sorted_desc. induction l as [|x l IH]; simpl; [exact I|].
    destruct (fold_right PyMore.insert_desc [] l) as [|top rest]; simpl.
    - intros y [].
    - destruct (Py.gtb top x) eqn:C; [apply gtb_gt in C|apply gtb_le in C].
      + intros y Hy. apply In_insert_desc in Hy. destruct Hy as [E|Hy].
        * subst y. apply Qlt_le_weak, C.
        * apply IH, Hy.
      + intros y [E|Hy]; [subst y; exact C|].
        apply Qle_trans with top; [apply IH, Hy|exact C]. }
  specialize (G l). pose proof (fun y => In_sorted_desc y l) as M.
  destruct (PyMore.sorted_desc l) as [|top rest].
  - destruct l as [|x l]; [reflexivity|].
    exfalso. apply (proj2 (M x)). left. reflexivity.
  - split; [apply M; left; reflexivity|].
    intros y Hy. apply M in Hy. destruct Hy as [E|Hy];
      [subst y; apply Qle_refl|apply G, Hy].
Qed.

Lemma py_min_morph_l (a b c : Q) : a == b -> Py.min a c == Py.min b c.
Proof.
  intro H. rewrite !py_min_Qmin. apply Q.min_compat; [exact H|reflexivity].
Qed.

Lemma add_items_keys (items : emotions) (e : string) :
  forall d : Py.dict Q,
    In e (Py.keys
            (fold_left (fun sums item => PyMore.add_to sums (fst item) (snd item))
                       items d))
    <-> In e (Py.keys d) \/ In e (Py.keys items).
Proof.
  induction items as [|[k v] items IH]; intro d; cbn [fold_left fst snd].
  - unfold Py.keys. simpl. intuition.
  - rewrite IH, In_keys_add_to. unfold Py.keys. simpl. intuition.
Qed.

Lemma add_records_keys (records : list EmotionRecord) (e : string) :
  forall d : Py.dict Q,
    In e (Py.keys
            (fold_left
               (fun sums record =>
                  fold_left (fun sums item => PyMore.add_to sums (fst item) (snd item))
                            (emotions_json record) sums)
               records d))
    <-> In e (Py.keys d)
        \/ In e (flat_map (fun record => Py.keys (emotions_json record)) records).
Proof.
  induction records as [|record records IH]; intro d; cbn [fold_left flat_map].
  - simpl. intuition.
  - rewrite IH, add_items_keys, in_app_iff. intuition.
Qed.

Lemma add_records_NoDup (records : list EmotionRecord) :
  forall d : Py.dict Q,
    NoDup (Py.keys d) ->
    NoDup (Py.keys
             (fold_left
                (fun sums record =>
                   fold_left (fun sums item => PyMore.add_to sums (fst item) (snd item))
                             (emotions_json record) sums)
                records d)).
Proof.
  assert (G : forall (items : emotions) (d : Py.dict Q),
             NoDup (Py.keys d) ->
             NoDup (Py.keys
                      (fold_left
                         (fun sums item => PyMore.add_to sums (fst item) (snd item))
                         items d))).
  { induction items as [|item items IH]; intros d H; [exact H|].
    cbn [fold_left]. apply IH. unfold PyMore.add_to. apply NoDup_keys_set, H. }
  induction records as [|record records IH]; intros d H; [exact H|].
  cbn [fold_left]. apply IH, G, H.
Qed.

(** The keys of the averaged counts are the emotions some record mentions,
    each once. *)
Lemma average_counts_keys (records : list EmotionRecord) :
  NoDup (Py.keys (AnalyticsMore.average_counts records))
  /\ forall e,
       In e (Py.keys (AnalyticsMore.average_counts records))
       <-> In e (flat_map (fun record => Py.keys (emotions_json record)) records).
Proof.
  unfold AnalyticsMore.average_counts. rewrite count_records_from.
  pose proof (add_records_NoDup records [] (NoDup_nil _)) as N.
  pose proof (fun e => add_records_keys records e []) as K.
  match type of N with
  | NoDup (Py.keys ?t) => set (collected := t) in *
  end.
  assert (E : forall f : string * Q -> Q,
             Py.keys (map (fun kv => (fst kv, f kv)) collected) = Py.keys collected).
  { intro f. unfold Py.keys. rewrite map_map. reflexivity. }
  destruct collected as [|kv sums] eqn:C.
  - split; [exact N|]. intro e. rewrite K. simpl. intuition.
  - rewrite <- C in *. rewrite (E (fun kv => snd kv / _)).
    split; [exact N|]. intro e. rewrite K. simpl. intuition.
Qed.

Lemma stability_confidence_agree (recent_records : list EmotionRecord) :
  AnalyticsMore.stability_score (AnalyticsMore.derive_scores recent_records)
  == AnalyticsMore.confidence (AnalyticsMore.derive_scores recent_records).
Proof.
  unfold AnalyticsMore.derive_scores.
  destruct (AnalyticsMore.average_counts recent_records) as [|first rest] eqn:E;
    [reflexivity|].
  cbv zeta. cbn [AnalyticsMore.stability_score AnalyticsMore.confidence
    List.length Nat.ltb Nat.leb].
  pose proof (sorted_desc_head (Py.values (first :: rest))) as H.
  destruct (PyMore.sorted_desc (Py.values (first :: rest))) as [|top l];
    [discriminate H|].
  destruct H as [Hin Hmax].
  destruct (max_item_spec rest first) as [Min Mmax].
  apply py_min_morph_l. apply Qle_antisym.
  - unfold Py.values in Hin. apply in_map_iff in Hin.
    destruct Hin as [item [Es Hitem]]. subst top. apply Mmax, Hitem.
  - apply Hmax. unfold Py.values. apply in_map, Min.
Qed.

(** The stability score this endpoint derives always equals the
    confidence it derives.  When no fetched record mentions an emotion,
    the dominant emotion is "neutral" and both scores are 0.5.  Otherwise
    both scores are the largest average among the emotions the records
    mention, capped at 1, the average of an emotion being the sum of its
    values over the number of records. *)
Theorem analytics_stability_equals_confidence :
  forall recent_records : list EmotionRecord,
    let scores := AnalyticsMore.derive_scores recent_records in
    let mentioned :=
      flat_map (fun record => Py.keys (emotions_json record)) recent_records in
    let average emotion :=
      Py.sum (Spec.values_of recent_records emotion) / Py.len recent_records in
    AnalyticsMore.stability_score scores == AnalyticsMore.confidence scores
    /\ (mentioned = [] ->
        AnalyticsMore.dominant_emotion_name scores = "neutral"
        /\ AnalyticsMore.confidence scores == 1 # 2
        /\ AnalyticsMore.stability_score scores == 1 # 2)
    /\ (mentioned <> [] ->
        exists largest : string,
          In largest mentioned
          /\ (forall emotion, In emotion mentioned ->
                average emotion <= average largest)
          /\ AnalyticsMore.confidence scores == Qmin (average largest) 1
          /\ AnalyticsMore.stability_score scores == Qmin (average largest) 1).
Proof.
  intros rs scores mentioned average.
  pose proof (stability_confidence_agree rs) as Hsc. fold scores in Hsc.
  destruct (average_counts_keys rs) as [N K]. fold mentioned in K.
  assert (L : forall e v,
             In (e, v) (AnalyticsMore.average_counts rs) -> v == average e).
  { intros e v Hin. unfold average. rewrite <- average_counts_lookup.
    unfold Py.get_default. rewrite (get_NoDup_item _ _ _ N Hin). reflexivity. }
  split; [exact Hsc|]. split.
  - intro Hm.
    assert (E : AnalyticsMore.average_counts rs = []).
    { destruct (AnalyticsMore.average_counts rs) as [|[k v] rest]; [reflexivity|].
      exfalso. assert (Hk : In k mentioned) by (apply K; left; reflexivity).
      rewrite Hm in Hk. destruct Hk. }
    subst scores. unfold AnalyticsMore.derive_scores in *. rewrite E in *.
    cbn in *. repeat split; reflexivity.
  - intro Hm.
    assert (Hconf : exists first rest,
               AnalyticsMore.average_counts rs = first :: rest
               /\ AnalyticsMore.confidence scores
                  = Py.min (snd (max_item first rest)) 1).
    { subst scores. unfold AnalyticsMore.derive_scores.
      destruct (AnalyticsMore.average_counts rs) as [|first rest] eqn:E.
      - exfalso. destruct mentioned as [|e m]; [apply Hm; reflexivity|].
        apply (proj2 (K e)). left. reflexivity.
      - exists first, rest. repeat split. }
    destruct Hconf as (first & rest & E & Hc).
    destruct (max_item_spec rest first) as [Min Mmax].
    rewrite <- E in Min, Mmax.
    destruct (max_item first rest) as [dk dv] eqn:Em. cbn [fst snd] in *.
    assert (Hdv : dv == average dk) by (apply L, Min).
    assert (Hconf : AnalyticsMore.confidence scores == Qmin (average dk) 1).
    { rewrite Hc, py_min_Qmin. apply Q.min_compat; [exact Hdv|reflexivity]. }
    exists dk. split; [|split; [|split]].
    + apply K. unfold Py.keys. apply (in_map fst _ _ Min).
    + intros e He. apply K in He. unfold Py.keys in He.
      apply in_map_iff in He. destruct He as [[k v] [Ek Hin]].
      cbn [fst] in Ek. subst k.
      rewrite <- (L e v Hin), <- Hdv. apply (Mmax (e, v) Hin).
    + exact Hconf.
    + rewrite Hsc. exact Hconf.
Qed.

Lemma analytics_stability_equals_confidence_witness :
  AnalyticsMore.stability_score
    (AnalyticsMore.derive_scores
       [ MlHistory.record_at 1 [("happy", 2 # 10); ("sad", 5 # 10)];
         MlHistory.record_at 2 [("happy", 4 # 10)] ]) == 3 # 10
  /\ AnalyticsMore.stability_score (AnalyticsMore.derive_scores []) == 1 # 2.
Proof.
  pose proof (analytics_stability_equals_confidence
                [ MlHistory.record_at 1 [("happy", 2 # 10); ("sad", 5 # 10)];
                  MlHistory.record_at 2 [("happy", 4 # 10)] ]) as H1.
  pose proof (analytics_stability_equals_confidence []) as H2.
  cbv zeta in H1, H2.
  destruct H1 as (Heq & _ & H1). destruct H2 as (_ & H2 & _).
  split.
  - assert (Hm : flat_map (fun record => Py.keys (emotions_json record))
                   [ MlHistory.record_at 1 [("happy", 2 # 10); ("sad", 5 # 10)];
                     MlHistory.record_at 2 [("happy", 4 # 10)] ] <> [])
      by (simpl; discriminate).
    destruct (H1 Hm) as (largest & _ & _ & Hc & _).
    rewrite Heq. vm_compute. reflexivity.
  - apply H2. reflexivity.
Defined.

(** ** Averages per canonical emotion *)

Lemma get_map_keys {V} (g : string -> V) (ks : list string) (e : string) :
  Py.get (map (fun k => (k, g k)) ks) e
  = if in_dec string_dec e ks then Some (g e) else None.
Proof.
  induction ks as [|k ks IH]; [reflexivity|]. cbn [map Py.get].
  destruct (String.eqb_spec e k) as [E|N].
  - subst k. destruct (in_dec string_dec e (e :: ks)) as [_|H];
      [reflexivity|exfalso; apply H; left; reflexivity].
  - rewrite IH. destruct (in_dec string_dec e ks) as [H|H];
      destruct (in_dec string_dec e (k :: ks)) as [H'|H']; try reflexivity.
    + exfalso. apply H'. right. exact H.
    + exfalso. destruct H' as [E|H']; [apply N; symmetry; exact E|contradiction].
Qed.

Lemma add_keys_lookup (f : string -> Q) (ks : list string) (e : string) :
  NoDup ks ->
  forall d : Py.dict Q,
    Py.get_default (fold_left (fun sums k => PyMore.add_to sums k (f k)) ks d) e 0
    = if in_dec string_dec e ks
      then Py.get_default d e 0 + f e else Py.get_default d e 0.
Proof.
  induction 1 as [|k ks Hnotin Hnd IH]; intro d; [reflexivity|].
  cbn [fold_left]. rewrite IH, add_to_lookup.
  destruct (String.eqb_spec k e) as [E|N].
  - subst k. destruct (in_dec string_dec e ks) as [H|_]; [contradiction|].
    destruct (in_dec string_dec e (e :: ks)) as [_|H];
      [reflexivity|exfalso; apply H; left; reflexivity].
  - destruct (in_dec string_dec e ks) as [H|H];
      destruct (in_dec string_dec e (k :: ks)) as [H'|H']; try reflexivity.
    + exfalso. apply H'. right. exact H.
    + exfalso. destruct H' as [E|H']; [contradiction|contradiction].
Qed.

Lemma emotion_keys_NoDup : NoDup AnalyticsMore.emotion_keys.
Proof.
  unfold AnalyticsMore.emotion_keys.
  repeat (constructor; [simpl; intuition discriminate|]). constructor.
Qed.

Lemma add_vector_lookup (d v : Py.dict Q) (e : string) :
  In e AnalyticsMore.emotion_keys ->
  Py.get_default (AnalyticsMore.add_vector d v) e 0
  = Py.get_default d e 0 + Spec.value_of e v.
Proof.
  intro Hin. unfold AnalyticsMore.add_vector.
  rewrite (add_keys_lookup (fun k => Py.get_default v k 0)
             AnalyticsMore.emotion_keys e emotion_keys_NoDup).
  destruct (in_dec string_dec e AnalyticsMore.emotion_keys); [reflexivity|contradiction].
Qed.

Lemma day_sums_lookup (records : list EmotionRecord) (e : string) :
  In e AnalyticsMore.emotion_keys ->
  forall d : Py.dict Q,
    Py.get_default
      (fold_left
         (fun sums record => AnalyticsMore.add_vector sums (emotions_json record))
         records d)
      e 0
    = fold_left Qplus
        (map (fun record => Spec.value_of e (emotions_json record)) records)
        (Py.get_default d e 0).
Proof.
  intro Hin. induction records as [|record records IH]; intro d; [reflexivity|].
  cbn [fold_left map]. rewrite IH, add_vector_lookup by exact Hin. reflexivity.
Qed.

Lemma day_averages_means_aux (day_emotions : list EmotionRecord) :
  AnalyticsMore.day_averages day_emotions
  = map (fun emotion =>
           (emotion,
            match day_emotions with
            | [] => 0
            | _ => Py.mean (map (fun record =>
                                   Spec.value_of emotion (emotions_json record))
                                day_emotions)
            end))
        Spec.canonical_emotions.
Proof.
  destruct day_emotions as [|record records]; [reflexivity|].
  unfold AnalyticsMore.day_averages.
  change Spec.canonical_emotions with AnalyticsMore.emotion_keys.
  apply map_ext_in. intros e Hin. f_equal.
  rewrite (day_sums_lookup (record :: records) e Hin []).
  unfold Py.mean, Py.sum, Py.len. rewrite length_map. reflexivity.
Qed.

(** The daily averages list the seven canonical emotions in order, each
    with the mean over the day's records of the emotion's value, a record
    without the emotion counting as 0; a day without records gives 0
    throughout. *)
Theorem day_averages_are_means :
  forall day_emotions : list EmotionRecord,
    AnalyticsMore.day_averages day_emotions
    = map (fun emotion =>
             (emotion,
              match day_emotions with
              | [] => 0
              | _ => Py.mean (map (fun record =>
                                     Spec.value_of emotion (emotions_json record))
                                  day_emotions)
              end))
          Spec.canonical_emotions.
Proof.
  intro day_emotions. rewrite day_averages_means_aux. reflexivity.
Qed.

Lemma summary_sums_lookup (records : list EmotionRecord) (e : string) :
  In e AnalyticsMore.emotion_keys ->
  forall d : Py.dict Q,
    Py.get_default
      (fold_left
         (fun emotion_sums record =>
            match emotions_json record with
            | [] => emotion_sums
            | _ => AnalyticsMore.add_vector emotion_sums (emotions_json record)
            end)
         records d)
      e 0
    == fold_left Qplus
         (map (fun record => Spec.value_of e (emotions_json record)) records)
         (Py.get_default d e 0).
Proof.
  intro Hin. induction records as [|record records IH]; intro d; [reflexivity|].
  cbn [fold_left map]. destruct (emotions_json record) as [|item items] eqn:E.
  - rewrite IH. apply fold_plus_morph; [apply Forall2_Qeq_refl|].
    unfold Spec.value_of. simpl. ring.
  - rewrite IH, add_vector_lookup by exact Hin. reflexivity.
Qed.

Lemma Forall2_map_same {A B} (R : B -> B -> Prop) (f g : A -> B) (l : list A) :
  (forall x, In x l -> R (f x) (g x)) -> Forall2 R (map f l) (map g l).
Proof.
  induction l as [|x l IH]; intro H; [constructor|].
  constructor; [apply H; left; reflexivity|].
  apply IH. intros y Hy. apply H. right. exact Hy.
Qed.

(** How the summary picks the dominant emotion from the averages [g]. *)
Lemma dominant_of_averages (g : string -> Q) :
  let average_emotions := map (fun emotion => (emotion, g emotion))
                              AnalyticsMore.emotion_keys in
  let dominant_emotion :=
    if PyMore.any (Py.values average_emotions) then
      match Py.keys average_emotions with
      | [] => "neutral"
      | first :: rest =>
          PyMore.max_by (fun k => Py.get_default average_emotions k 0) first rest
      end
    else "neutral" in
  In dominant_emotion AnalyticsMore.emotion_keys
  /\ (forall e, In e AnalyticsMore.emotion_keys -> g e <= g dominant_emotion)
  /\ ((forall e, In e AnalyticsMore.emotion_keys -> g e == 0) ->
      dominant_emotion = "neutral").
Proof.
  intros avg dom.
  assert (L : forall e, In e AnalyticsMore.emotion_keys ->
                        Py.get_default avg e 0 = g e).
  { intros e He. subst avg. unfold Py.get_default. rewrite get_map_keys.
    destruct (in_dec string_dec e AnalyticsMore.emotion_keys);
      [reflexivity|contradiction]. }
  assert (V : forall v, In v (Py.values avg)
                        <-> exists e, In e AnalyticsMore.emotion_keys /\ v = g e).
  { intro v. subst avg. unfold Py.values. rewrite map_map. cbn [snd].
    rewrite in_map_iff. split; intros [e [H1 H2]]; exists e; auto. }
  assert (K : Py.keys avg = AnalyticsMore.emotion_keys).
  { subst avg. unfold Py.keys. rewrite map_map. cbn [fst]. apply map_id. }
  subst dom. rewrite K. unfold PyMore.any.
  destruct (existsb (fun v => negb (Qeq_bool v 0)) (Py.values avg)) eqn:A.
  - cbn [AnalyticsMore.emotion_keys].
    destruct (max_by_spec (fun k => Py.get_default avg k 0)
                ["sad"; "angry"; "fearful"; "disgusted"; "surprised"; "neutral"]
                "happy") as [Hin Hmax].
    fold AnalyticsMore.emotion_keys in Hin, Hmax.
    split; [exact Hin|]. split.
    + intros e He. rewrite <- (L e He), <- (L _ Hin). apply Hmax, He.
    + intro Hzero. exfalso. apply existsb_exists in A.
      destruct A as [v [Hv Hnz]]. apply V in Hv. destruct Hv as [e [He Ev]].
      subst v. apply negb_true_iff in Hnz.
      assert (Z0 : Qeq_bool (g e) 0 = true) by (apply Qeq_bool_iff, Hzero, He).
      congruence.
  - assert (Hzero : forall e, In e AnalyticsMore.emotion_keys -> g e == 0).
    { intros e He. apply Qeq_bool_iff.
      destruct (Qeq_bool (g e) 0) eqn:Z0; [reflexivity|].
      assert (T : existsb (fun v => negb (Qeq_bool v 0)) (Py.values avg) = true).
      { apply existsb_exists. exists (g e). split.
        - apply V. exists e. auto.
        - rewrite Z0. reflexivity. }
      congruence. }
    split; [simpl; tauto|]. split; [|reflexivity].
    intros e He. rewrite (Hzero e He), (Hzero "neutral"); [apply Qle_refl|].
    simpl; tauto.
Qed.

(** The summary reports the same averages as the daily trend does for the
    same records; its dominant emotion is a canonical emotion of largest
    average, and "neutral" when every average is zero. *)
Theorem summary_emotions_spec :
  forall emotions_in_range : list EmotionRecord,
    let average_emotions := fst (AnalyticsMore.summary_emotions emotions_in_range) in
    let dominant_emotion := snd (AnalyticsMore.summary_emotions emotions_in_range) in
    Forall2 (fun a b => fst a = fst b /\ snd a == snd b)
            average_emotions (AnalyticsMore.day_averages emotions_in_range)
    /\ In dominant_emotion Spec.canonical_emotions
    /\ (forall e, In e Spec.canonical_emotions ->
          Py.get_default average_emotions e 0
          <= Py.get_default average_emotions dominant_emotion 0)
    /\ ((forall e, In e Spec.canonical_emotions ->
           Py.get_default average_emotions e 0 == 0) ->
        dominant_emotion = "neutral").
Proof.
  intros [|record records]; cbv zeta.
  { split; [repeat constructor; reflexivity|].
    split; [simpl; tauto|]. split; [|reflexivity].
    intros e He. simpl in He.
    repeat destruct He as [He|He]; try subst e; try discriminate; destruct He. }
  set (rs := record :: records).
  unfold AnalyticsMore.summary_emotions. fold rs.
  assert (G : Py.gtb (Py.len rs) 0 = true)
    by (apply gtb_gt, len_pos; subst rs; discriminate).
  change (match rs with [] => (AnalyticsMore.zero_emotions, "neutral") | _ => ?x end)
    with x.
  rewrite G. cbv zeta.
  match goal with
  | |- context [Py.get_default (fold_left ?f rs []) _ 0] =>
      set (sums := fold_left f rs [])
  end.
  set (g := fun emotion : string => Py.get_default sums emotion 0 / Py.len rs).
  destruct (dominant_of_averages g) as (Din & Dmax & Dzero). cbv zeta in *.
  set (avg := map (fun emotion => (emotion, g emotion)) AnalyticsMore.emotion_keys) in *.
  cbn [fst snd].
  change (map (fun emotion => (emotion, Py.get_default sums emotion 0 / Py.len rs))
              AnalyticsMore.emotion_keys) with avg.
  set (dom := if PyMore.any (Py.values avg) then _ else "neutral") in *.
  assert (L : forall e, In e AnalyticsMore.emotion_keys ->
                        Py.get_default avg e 0 = g e).
  { intros e He. subst avg. unfold Py.get_default. rewrite get_map_keys.
    destruct (in_dec string_dec e AnalyticsMore.emotion_keys);
      [reflexivity|contradiction]. }
  split; [|split; [exact Din|split]].
  - subst avg. unfold AnalyticsMore.day_averages. fold rs.
    change (match rs with [] => ?y | _ => ?x end) with x.
    apply Forall2_map_same. intros e He. cbn [fst snd]. split; [reflexivity|].
    subst g. cbv beta. subst sums.
    rewrite (summary_sums_lookup rs e He []), (day_sums_lookup rs e He []).
    reflexivity.
  - intros e He. rewrite (L e He), (L dom Din). apply Dmax, He.
  - intro Hzero. apply Dzero. intros e He. rewrite <- (L e He). apply Hzero, He.
Qed.

Lemma summary_emotions_spec_witness :
  Py.get_default (fst (AnalyticsMore.summary_emotions Examples.baseline_04)) "sad" 0
  <= Py.get_default
       (fst (AnalyticsMore.summary_emotions Examples.baseline_04))
       (snd (AnalyticsMore.summary_emotions Examples.baseline_04)) 0.
Proof.
  apply (proj1 (proj2 (proj2 (summary_emotions_spec Examples.baseline_04)))).
  simpl. right. left. reflexivity.
Defined.

(** ** Daily trends *)

Lemma range_nth (n i : Z) :
  (0 <= i < n)%Z -> nth_error (PyMore.range n) (Z.to_nat i) = Some i.
Proof.
  intro H. unfold PyMore.range. rewrite nth_error_map, nth_error_seq.
  destruct (Nat.ltb_spec (Z.to_nat i) (Z.to_nat n)) as [_|C]; [|lia].
  simpl. f_equal. lia.
Qed.

Lemma for_each_collect {A B} (g : A -> option B) (f : A -> B) (l : list A) :
  (forall x, In x l -> g x = Some (f x)) ->
  forall acc : list B,
    for_each
      (fun acc x => match g x with None => None | Some y => Some (acc ++ [y]) end)
      l acc
    = Some (acc ++ map f l).
Proof.
  induction l as [|x l IH]; intros H acc.
  - simpl. rewrite app_nil_r. reflexivity.
  - cbn [for_each map]. rewrite (H x) by (left; reflexivity).
    rewrite IH by (intros y Hy; apply H; right; exact Hy).
    rewrite <- app_assoc. reflexivity.
Qed.

Lemma for_each_raises {A B} (g : A -> option B) (l : list A) (x : A) :
  In x l -> g x = None ->
  forall acc : list B,
    for_each
      (fun acc x => match g x with None => None | Some y => Some (acc ++ [y]) end)
      l acc
    = None.
Proof.
  induction l as [|y l IH]; intros Hin Hx acc; [destruct Hin|].
  cbn [for_each]. destruct (g y) as [b|] eqn:G; [|reflexivity].
  destruct Hin as [E|Hin]; [subst y; congruence|].
  apply IH; assumption.
Qed.

Lemma In_range (n i : Z) : In i (PyMore.range n) <-> (0 <= i < n)%Z.
Proof.
  unfold PyMore.range. rewrite in_map_iff. split.
  - intros [k [E Hk]]. apply in_seq in Hk. lia.
  - intro H. exists (Z.to_nat i). split; [lia|]. apply in_seq. lia.
Qed.

(** With today's date a supported one, and every day of the range and the
    day after today supported too, the trend has one entry per day from
    [end_date - days] to [end_date] inclusive, in order, each holding that
    day's averages, and none for a negative [days].  The request fails
    when [days] exceeds 999999999 in magnitude, when [end_date - days]
    leaves the supported dates, and when the last day of a non-empty range
    is the last supported date. *)
Theorem emotion_trends_cover_range :
  forall (records_on : Z -> list EmotionRecord) (end_date days : Z),
    (AnalyticsMore.min_ordinal <= end_date <= AnalyticsMore.max_ordinal)%Z ->
    let trends := AnalyticsMore.get_emotion_trends records_on end_date days in
    let start_date := (end_date - days)%Z in
    ((999999999 < Z.abs days)%Z -> trends = None)
    /\ ((start_date < AnalyticsMore.min_ordinal)%Z -> trends = None)
    /\ ((AnalyticsMore.max_ordinal < start_date)%Z -> trends = None)
    /\ ((0 <= days)%Z -> end_date = AnalyticsMore.max_ordinal -> trends = None)
    /\ ((days < 0)%Z -> (start_date <= AnalyticsMore.max_ordinal)%Z ->
        trends = Some [])
    /\ ((0 <= days)%Z -> (AnalyticsMore.min_ordinal <= start_date)%Z ->
        (end_date < AnalyticsMore.max_ordinal)%Z ->
        exists entries,
          trends = Some entries
          /\ List.length entries = Z.to_nat (days + 1)
          /\ forall i : Z,
               (0 <= i <= days)%Z ->
               nth_error entries (Z.to_nat i)
               = Some ((start_date + i)%Z,
                       AnalyticsMore.day_averages (records_on (start_date + i)%Z))).
Proof.
  intros records_on end_date days Hend trends start_date.
  subst trends start_date.
  unfold AnalyticsMore.get_emotion_trends, AnalyticsMore.timedelta,
    AnalyticsMore.date_add, AnalyticsMore.min_ordinal, AnalyticsMore.max_ordinal in *.
  cbv zeta.
  destruct (Z.leb_spec (Z.abs days) 999999999) as [Hd|Hd].
  2: { repeat split; intros; try reflexivity; exfalso; lia. }
  replace (end_date + - days)%Z with (end_date - days)%Z by lia.
  destruct (Z.leb_spec 1 (end_date - days)) as [Hlo|Hlo]; cbn [andb].
  2: { repeat split; intros; try reflexivity; exfalso; lia. }
  destruct (Z.leb_spec (end_date - days) 3652059) as [Hhi|Hhi].
  2: { repeat split; intros; try reflexivity; exfalso; lia. }
  split; [intro; exfalso; lia|].
  split; [intro; exfalso; lia|].
  split; [intro; exfalso; lia|].
  split; [|split].
  - intros Hpos Hmax.
    apply (for_each_raises _ _ days); [apply In_range; lia|].
    unfold AnalyticsMore.trend_entry, AnalyticsMore.timedelta,
      AnalyticsMore.date_add, AnalyticsMore.min_ordinal, AnalyticsMore.max_ordinal.
    cbv zeta.
    destruct (Z.leb_spec (Z.abs days) 999999999) as [_|C]; [|lia].
    destruct (Z.leb_spec 1 (end_date - days + days)) as [_|C]; [|lia].
    destruct (Z.leb_spec (end_date - days + days) 3652059) as [_|C]; [|lia].
    cbn [andb].
    destruct (Z.leb_spec 1 (end_date - days + days + 1)) as [_|C]; [|lia].
    destruct (Z.leb_spec (end_date - days + days + 1) 3652059) as [C|_]; [lia|].
    reflexivity.
  - intros Hneg _. unfold PyMore.range.
    replace (Z.to_nat (days + 1)) with 0%nat by lia. reflexivity.
  - intros Hpos _ Hmax.
    rewrite (for_each_collect _
               (fun i => ((end_date - days + i)%Z,
                          AnalyticsMore.day_averages
                            (records_on (end_date - days + i)%Z)))).
    + eexists. split; [reflexivity|]. cbn [app]. split.
      * rewrite length_map. unfold PyMore.range. rewrite length_map, length_seq.
        reflexivity.
      * intros i Hi. rewrite nth_error_map, range_nth by lia. reflexivity.
    + intros i Hi. apply In_range in Hi.
      unfold AnalyticsMore.trend_entry, AnalyticsMore.timedelta,
        AnalyticsMore.date_add, AnalyticsMore.min_ordinal, AnalyticsMore.max_ordinal.
      cbv zeta.
      destruct (Z.leb_spec (Z.abs i) 999999999) as [_|C]; [|lia].
      destruct (Z.leb_spec 1 (end_date - days + i)) as [_|C]; [|lia].
      destruct (Z.leb_spec (end_date - days + i) 3652059) as [_|C]; [|lia].
      cbn [andb].
      destruct (Z.leb_spec 1 (end_date - days + i + 1)) as [_|C]; [|lia].
      destruct (Z.leb_spec (end_date - days + i + 1) 3652059) as [_|C]; [|lia].
      reflexivity.
Qed.

Lemma emotion_trends_cover_range_witness :
  (exists entries,
      AnalyticsMore.get_emotion_trends (fun _ => []) 739000 7 = Some entries
      /\ List.length entries = 8%nat)
  /\ AnalyticsMore.get_emotion_trends (fun _ => Examples.baseline_04) 739000 (-3)
     = Some []
  /\ AnalyticsMore.get_emotion_trends (fun _ => Examples.baseline_04) 739000 1000000
     = None
  /\ AnalyticsMore.get_emotion_trends (fun _ => Examples.baseline_04)
       739000 (-3000000)
     = None
  /\ AnalyticsMore.get_emotion_trends (fun _ => Examples.baseline_04)
       739000 1000000000
     = None.
Proof.
  assert (Hend : (AnalyticsMore.min_ordinal <= 739000 <= AnalyticsMore.max_ordinal)%Z)
    by (vm_compute; split; discriminate).
  split; [|split; [|split; [|split]]].
  - destruct (emotion_trends_cover_range (fun _ => []) 739000 7 Hend)
      as (_ & _ & _ & _ & _ & H).
    destruct H as (entries & E & L & _);
      [lia|vm_compute; discriminate|vm_compute; reflexivity|].
    exists entries. split; [exact E|exact L].
  - destruct (emotion_trends_cover_range (fun _ => Examples.baseline_04)
                739000 (-3) Hend) as (_ & _ & _ & _ & H & _).
    apply H; [lia|vm_compute; discriminate].
  - destruct (emotion_trends_cover_range (fun _ => Examples.baseline_04)
                739000 1000000 Hend) as (_ & H & _).
    apply H. vm_compute. reflexivity.
  - destruct (emotion_trends_cover_range (fun _ => Examples.baseline_04)
                739000 (-3000000) Hend) as (_ & _ & H & _).
    apply H. vm_compute. reflexivity.
  - destruct (emotion_trends_cover_range (fun _ => Examples.baseline_04)
                739000 1000000000 Hend) as (H & _).
    apply H. vm_compute. reflexivity.
Defined.

(** ** The recommendation endpoint of [ml.py] *)

Lemma base_recommendations_short (dominant : string) (confidence : Q) :
  (List.length (base_recommendations dominant confidence) <= 3)%nat.
Proof.
  unfold base_recommendations.
  repeat match goal with
         | |- context [if ?b then _ else _] => destruct b
         end; simpl; lia.
Qed.

Lemma recommendations_without_override (dominant : string) (confidence : Q) :
  generate_intelligent_recommendations dominant confidence (1 # 2) (7 # 10)
  = base_recommendations dominant confidence.
Proof.
  unfold generate_intelligent_recommendations.
  change (Py.ltb (7 # 10) (4 # 10)) with false.
  change (Py.ltb (1 # 2) (3 # 10)) with false.
  cbv iota zeta. rewrite (slice_prefix 4).
  apply firstn_all2. pose proof (base_recommendations_short dominant confidence). lia.
Qed.

(** Without emotion data the endpoint answers 400.  Without history no
    override fires: the answer is the base list of the vector's dominant
    emotion at that emotion's value; a GET without any history answers
    with the two items of the default branch. *)
Theorem ml_recommendations_without_history :
  (forall history_1day history_3days : list emotions,
     MoodMore.get_recommendations (MoodMore.Post []) history_1day history_3days
     = MoodMore.RecError "No emotion data provided" 400)
  /\ (forall (current_emotions : emotions) (history_1day : list emotions),
        current_emotions <> [] ->
        let dominant := Model.get_dominant_emotion current_emotions in
        let confidence := Py.get_default current_emotions dominant 0 in
        MoodMore.get_recommendations (MoodMore.Post current_emotions) history_1day []
        = MoodMore.RecOk
            (base_recommendations dominant confidence)
            {| MoodMore.ctx_dominant_emotion := dominant;
               MoodMore.ctx_confidence := Py.round confidence 2;
               MoodMore.ctx_wellness_score := Py.round (1 # 2) 2;
               MoodMore.ctx_stability_score := Py.round (7 # 10) 2 |})
  /\ (exists context,
        MoodMore.get_recommendations MoodMore.Get [] []
        = MoodMore.RecOk [other_awareness; other_engagement] context).
Proof.
  split; [reflexivity|]. split; [|eexists; reflexivity].
  intros current h1 Hne dominant confidence.
  unfold MoodMore.get_recommendations.
  subst confidence dominant. unfold Model.get_dominant_emotion.
  destruct current as [|[k v] rest]; [contradiction|].
  cbn [Py.keys map fst]. cbv zeta.
  rewrite recommendations_without_override. reflexivity.
Qed.

Lemma ml_recommendations_without_history_witness :
  MoodMore.get_recommendations
    (MoodMore.Post [("sad", 2 # 10); ("angry", 7 # 10)]) [] []
  = MoodMore.RecOk
      [angry_release; angry_cooling; angry_expression]
      {| MoodMore.ctx_dominant_emotion := "angry";
         MoodMore.ctx_confidence := Py.round (7 # 10) 2;
         MoodMore.ctx_wellness_score := Py.round (1 # 2) 2;
         MoodMore.ctx_stability_score := Py.round (7 # 10) 2 |}.
Proof.
  apply (proj1 (proj2 ml_recommendations_without_history)
           [("sad", 2 # 10); ("angry", 7 # 10)] []).
  discriminate.
Defined.

(** ** Rounding keeps bounds *)

Lemma round_half_even_lower (a : Z) (y : Q) :
  inject_Z a <= y -> (a <= Py.round_half_even y)%Z.
Proof.
  intro H. unfold Py.round_half_even.
  assert (F : (a <= Qfloor y)%Z).
  { rewrite <- (Qfloor_Z a). apply Qfloor_resp_le, H. }
  destruct (Qcompare (y - inject_Z (Qfloor y)) (1 # 2)); [|lia|lia].
  destruct (Z.even (Qfloor y)); lia.
Qed.

Lemma round_half_even_upper (b : Z) (y : Q) :
  y <= inject_Z b -> (Py.round_half_even y <= b)%Z.
Proof.
  intro H. unfold Py.round_half_even.
  assert (F : (Qfloor y <= b)%Z).
  { rewrite <- (Qfloor_Z b). apply Qfloor_resp_le, H. }
  pose proof (Qfloor_le y) as Hfl.
  destruct (Z.eq_dec (Qfloor y) b) as [E|N].
  - assert (L : y - inject_Z (Qfloor y) < 1 # 2) by (rewrite E in *; lra).
    destruct (Qcompare (y - inject_Z (Qfloor y)) (1 # 2)) eqn:C;
      [apply Qeq_alt in C; exfalso; lra|lia|apply Qgt_alt in C; exfalso; lra].
  - destruct (Qcompare (y - inject_Z (Qfloor y)) (1 # 2)); [|lia|lia].
    destruct (Z.even (Qfloor y)); lia.
Qed.

Lemma round2_lower (a : Z) (x : Q) :
  inject_Z a / 100 <= x -> inject_Z a / 100 <= Py.round x 2.
Proof.
  intro H. unfold Py.round. change (inject_Z (10 ^ Z.of_nat 2)) with 100.
  apply Qle_shift_div_l; [reflexivity|].
  assert (E : inject_Z a / 100 * 100 == inject_Z a) by field. rewrite E.
  rewrite <- Zle_Qle. apply round_half_even_lower. lra.
Qed.

Lemma round2_upper (b : Z) (x : Q) :
  x <= inject_Z b / 100 -> Py.round x 2 <= inject_Z b / 100.
Proof.
  intro H. unfold Py.round. change (inject_Z (10 ^ Z.of_nat 2)) with 100.
  apply Qle_shift_div_r; [reflexivity|].
  assert (E : inject_Z b / 100 * 100 == inject_Z b) by field. rewrite E.
  rewrite <- Zle_Qle. apply round_half_even_upper. lra.
Qed.

Lemma round2_ge_0 (x : Q) : 0 <= x -> 0 <= Py.round x 2.
Proof.
  intro H. apply Qle_trans with (inject_Z 0 / 100); [discriminate|].
  apply round2_lower. apply Qle_trans with 0; [discriminate|exact H].
Qed.

Lemma round2_ge_tenth (x : Q) : 1 # 10 <= x -> 1 # 10 <= Py.round x 2.
Proof.
  intro H. apply Qle_trans with (inject_Z 10 / 100); [discriminate|].
  apply round2_lower. apply Qle_trans with (1 # 10); [discriminate|exact H].
Qed.

Lemma round2_le_1 (x : Q) : x <= 1 -> Py.round x 2 <= 1.
Proof.
  intro H. apply Qle_trans with (inject_Z 100 / 100); [|discriminate].
  apply round2_upper. apply Qle_trans with 1; [exact H|discriminate].
Qed.

(** ** The mood prediction payload *)

Lemma dominant_trend_confidence_le_1 (emotions_history : list emotions) (lookback : Z) :
  snd (MoodMore.get_dominant_emotion_trend emotions_history lookback) <= 1.
Proof.
  unfold MoodMore.get_dominant_emotion_trend.
  destruct emotions_history as [|r h]; [discriminate|]. cbv zeta.
  destruct (Py.keys _) as [|first rest]; [discriminate|].
  cbn [snd]. apply py_min_le_l.
Qed.

Lemma insights_count (dominant_emotion : string)
    (confidence stability_score wellness_score : Q) :
  (1 <= List.length (MoodMore.build_insights dominant_emotion confidence
                       stability_score wellness_score) <= 3)%nat.
Proof.
  unfold MoodMore.build_insights. cbv zeta.
  repeat match goal with
         | |- context [if ?b then _ else _] => destruct b
         end; simpl; lia.
Qed.

Lemma trend_labels (emotions_history : list emotions) :
  In (predict_mood_trend emotions_history) ["improving"; "declining"; "stable"].
Proof.
  unfold predict_mood_trend. destruct emotions_history as [|r h]; [simpl; tauto|].
  cbv zeta.
  repeat match goal with
         | |- context [if ?b then _ else _] => destruct b
         end; simpl; tauto.
Qed.

(** Whatever the history, the prediction reports a wellness score in
    [0, 1], a stability score in [0.1, 1], a confidence of at most 1, one
    of the three trend labels, at most four recommendations and between
    one and three insights. *)
Theorem predict_mood_payload_ranges :
  forall emotions_history : list emotions,
    let payload := MoodMore.predict_mood emotions_history in
    let p := MoodMore.prediction payload in
    (0 <= MoodMore.wellness_score p /\ MoodMore.wellness_score p <= 1)
    /\ (1 # 10 <= MoodMore.stability_score p /\ MoodMore.stability_score p <= 1)
    /\ MoodMore.confidence p <= 1
    /\ In (MoodMore.trend p) ["improving"; "declining"; "stable"]
    /\ (List.length (MoodMore.recommendations payload) <= 4)%nat
    /\ (1 <= List.length (MoodMore.insights payload) <= 3)%nat.
Proof.
  intros [|record history]; cbv zeta.
  { simpl. repeat split; try discriminate; try lia. tauto. }
  set (h := record :: history).
  unfold MoodMore.predict_mood. fold h.
  change (match h with [] => ?y | _ => ?x end) with x.
  pose proof (dominant_trend_confidence_le_1 h 5) as Hc.
  destruct (MoodMore.get_dominant_emotion_trend h 5) as [dominant confidence].
  cbn [snd] in Hc.
  cbn [MoodMore.prediction MoodMore.wellness_score MoodMore.stability_score
       MoodMore.confidence MoodMore.trend MoodMore.recommendations MoodMore.insights].
  destruct (wellness_score_in_unit_interval_aux h) as [W0 W1].
  destruct (stability_score_in_range_aux h) as [S0 S1].
  split; [split; [apply round2_ge_0, W0|apply round2_le_1, W1]|].
  split; [split; [apply round2_ge_tenth, S0|apply round2_le_1, S1]|].
  split; [apply round2_le_1, Hc|].
  split; [apply trend_labels|].
  split; [|apply insights_count].
  unfold generate_intelligent_recommendations. rewrite (slice_prefix 4).
  apply firstn_le_length.
Qed.

(** ** Constant data *)

Lemma mean_constant (c : Q) (l : list Q) :
  l <> [] -> Forall (eq c) l -> Py.mean l == c.
Proof.
  intros Hne Hall.
  destruct (mean_bounds c c l Hne) as [Hlo Hhi].
  - apply Forall_impl with (P := eq c); [|exact Hall].
    intros x E. subst x. split; apply Qle_refl.
  - apply Qle_antisym; assumption.
Qed.

Lemma mean_of_zeros (l : list Q) : Forall (fun x => x == 0) l -> Py.mean l == 0.
Proof.
  intro Hall. destruct l as [|x l]; [reflexivity|].
  destruct (mean_bounds 0 0 (x :: l)) as [Hlo Hhi]; [discriminate| |].
  - apply Forall_impl with (P := fun x => x == 0); [|exact Hall].
    intros y E. rewrite E. split; apply Qle_refl.
  - apply Qle_antisym; assumption.
Qed.

Lemma variance_constant (c : Q) (l : list Q) :
  Forall (eq c) l -> Spec.variance l == 0.
Proof.
  intro Hall. unfold Spec.variance. apply mean_of_zeros.
  destruct l as [|x l]; [constructor|].
  pose proof (mean_constant c (x :: l) ltac:(discriminate) Hall) as Hm.
  apply Forall_map. apply Forall_impl with (P := eq c); [|exact Hall].
  intros y E. subst y. rewrite Hm. ring.
Qed.

Lemma stability_agrees (emotions_history : list emotions) :
  calculate_stability_score emotions_history == Spec.stability emotions_history.
Proof.
  unfold calculate_stability_score, Spec.stability.
  destruct (Nat.ltb_spec (List.length emotions_history) 3) as [Hlt|Hge];
    destruct (lt_dec (List.length emotions_history) 3) as [Hlt'|Hge'];
    try lia; [reflexivity|].
  rewrite (slice_suffix 5) by lia.
  assert (Hwin : (1 < List.length (Spec.last_n 5 emotions_history))%nat).
  { unfold Spec.last_n. rewrite length_skipn. lia. }
  pose proof (emotion_variances_from _ Hwin (Py.keys emotion_weights) []
                emotion_weights_keys_NoDup) as E.
  cbv zeta in E |- *. rewrite E by (intros k _ []). clear E.
  cbn [app]. unfold Py.values. rewrite map_map. cbn [snd].
  rewrite clamp_floor_tenth. unfold Spec.clamp, stability_threshold.
  apply Q.max_compat; [reflexivity|].
  apply Q.min_compat; [reflexivity|].
  apply Q.max_compat; [reflexivity|].
  rewrite (avg_variance_agrees (Spec.last_n 5 emotions_history)). reflexivity.
Qed.

(** A history of at least three records whose last five records (or all,
    when fewer) carry the same vector has stability 1. *)
Theorem constant_history_is_stable :
  forall (emotions_history : list emotions) (record : emotions),
    (3 <= List.length emotions_history)%nat ->
    Forall (eq record) (Spec.last_n 5 emotions_history) ->
    calculate_stability_score emotions_history == 1.
Proof.
  intros h r Hlen Hall. rewrite stability_agrees. unfold Spec.stability.
  destruct (lt_dec (List.length h) 3) as [C|_]; [lia|].
  assert (Hz : Spec.avg_variance (Spec.last_n 5 h) == 0).
  { unfold Spec.avg_variance. apply mean_of_zeros.
    apply Forall_map, Forall_forall. intros e _.
    apply (variance_constant (Spec.value_of e r)).
    apply Forall_map. apply Forall_impl with (P := eq r); [|exact Hall].
    intros r' E. subst r'. reflexivity. }
  assert (E : 1 - Spec.avg_variance (Spec.last_n 5 h) / (3 # 10) == 1).
  { rewrite Hz. reflexivity. }
  unfold Spec.clamp.
  rewrite (Q.max_compat 0 0 (Qeq_refl 0) _ _
             (Q.min_compat 1 1 (Qeq_refl 1) _ _
                (Q.max_compat (1 # 10) (1 # 10) (Qeq_refl (1 # 10)) _ _ E))).
  reflexivity.
Qed.

Lemma constant_history_is_stable_witness :
  calculate_stability_score
    [ [("happy", 1 # 10)]; [("sad", 4 # 10)]; [("sad", 4 # 10)];
      [("sad", 4 # 10)]; [("sad", 4 # 10)]; [("sad", 4 # 10)] ] == 1.
Proof.
  apply (constant_history_is_stable _ [("sad", 4 # 10)]).
  - simpl. lia.
  - vm_compute. repeat constructor.
Defined.

(** ** What a returned peak or anomaly looks like *)

Lemma round3_lower (a : Z) (x : Q) :
  inject_Z a / 1000 <= x -> inject_Z a / 1000 <= Py.round x 3.
Proof.
  intro H. unfold Py.round. change (inject_Z (10 ^ Z.of_nat 3)) with 1000.
  apply Qle_shift_div_l; [reflexivity|].
  assert (E : inject_Z a / 1000 * 1000 == inject_Z a) by field. rewrite E.
  rewrite <- Zle_Qle. apply round_half_even_lower. lra.
Qed.

Lemma In_firstn_In {A} (n : nat) (l : list A) (x : A) :
  In x (firstn n l) -> In x l.
Proof.
  intro H. rewrite <- (firstn_skipn n l). apply in_or_app. left. exact H.
Qed.

Lemma In_skipn_In {A} (n : nat) (l : list A) (x : A) :
  In x (skipn n l) -> In x l.
Proof.
  intro H. rewrite <- (firstn_skipn n l). apply in_or_app. right. exact H.
Qed.

Lemma flagged_peak_is_high (records : list EmotionRecord) (p : peak) :
  In p (Spec.flagged_peaks records records) ->
  1 <= intensity p /\ 7 # 10 <= peak_value p.
Proof.
  intro H. apply In_flagged_peaks in H.
  destruct H as (record & emotion & value & _ & _ & [H1 H2] & E). subst p.
  cbn [Spec.peak_entry intensity peak_value]. split.
  - unfold Spec.rounded_intensity.
    destruct (Qlt_le_dec 0 (Spec.baseline records emotion)) as [Hb|_];
      [|apply Qle_refl].
    apply Qle_trans with (inject_Z 150 / 100); [discriminate|].
    apply round2_lower. apply Qle_shift_div_l; [exact Hb|].
    apply Qlt_le_weak.
    assert (E : inject_Z 150 / 100 * Spec.baseline records emotion
                == Spec.baseline records emotion * (15 # 10))
      by (change (inject_Z 150) with 150; field).
    rewrite E. exact H1.
  - apply Qle_trans with (inject_Z 700 / 1000); [discriminate|].
    apply round3_lower. apply Qle_trans with (7 # 10); [discriminate|].
    apply Qlt_le_weak, H2.
Qed.

Lemma flagged_anomaly_is_high (records : list EmotionRecord) (a : anomaly) :
  In a (Spec.flagged_anomalies records) ->
  9 # 10 <= anomaly_value a /\ anomaly_type a = "high_intensity".
Proof.
  intro H. apply In_flagged_anomalies in H.
  destruct H as (record & emotion & value & _ & _ & Han & E). subst a.
  cbn [Spec.anomaly_entry anomaly_value anomaly_type]. split; [|reflexivity].
  apply Qle_trans with (inject_Z 900 / 1000); [discriminate|].
  apply round3_lower. apply Qle_trans with (9 # 10); [discriminate|].
  apply Qlt_le_weak, Han.
Qed.

(** Every returned peak reports an intensity of at least 1 and a value of
    at least 0.7; every returned anomaly reports a value of at least 0.9. *)
Theorem returned_peaks_are_high :
  forall (records : list EmotionRecord) (payload : peaks_payload),
    get_emotion_peaks records = Some payload ->
    (forall p, In p (peaks payload) ->
               1 <= intensity p /\ 7 # 10 <= peak_value p)
    /\ (forall a, In a (anomalies payload) ->
                  9 # 10 <= anomaly_value a /\ anomaly_type a = "high_intensity").
Proof.
  intros records payload H.
  destruct records as [|record records].
  { injection H as H. subst payload. split; intros ? []. }
  set (rs := record :: records) in *.
  unfold get_emotion_peaks in H. fold rs in H.
  change (match rs with [] => ?y | _ => ?x end) with x in H.
  rewrite scan_records_spec in H. injection H as H. subst payload.
  cbn [peaks anomalies]. split.
  - intros p Hp. rewrite (slice_prefix 20) in Hp. apply In_firstn_In in Hp.
    apply (flagged_peak_is_high rs).
    apply (Permutation_in p
             (Permutation_sym (proj1 (sort_by_intensity_spec
                                        (Spec.flagged_peaks rs rs))))).
    exact Hp.
  - intros a Ha. rewrite (slice_suffix 10) in Ha by lia.
    unfold Spec.last_n in Ha. apply In_skipn_In in Ha.
    apply (flagged_anomaly_is_high rs a Ha).
Qed.

Lemma returned_peaks_are_high_witness :
  exists payload,
    get_emotion_peaks Examples.baseline_03 = Some payload
    /\ forall p, In p (peaks payload) ->
                 1 <= intensity p /\ 7 # 10 <= peak_value p.
Proof.
  eexists. split; [vm_compute; reflexivity|].
  apply (proj1 (returned_peaks_are_high Examples.baseline_03 _ eq_refl)).
Defined.

(** ** No peaks without variation *)

Lemma values_in_absent (d : emotions) (e : string) :
  ~ In e (Py.keys d) -> Spec.values_in d e = [].
Proof.
  induction d as [|[k v] d IH]; intro H; [reflexivity|].
  unfold Spec.values_in in *. cbn [flat_map fst snd].
  destruct (String.eqb_spec k e) as [E|_].
  - exfalso. apply H. left. exact E.
  - apply IH. intro Hin. apply H. right. exact Hin.
Qed.

Lemma values_in_NoDup (d : emotions) (e : string) (v : Q) :
  NoDup (Py.keys d) -> In (e, v) d -> Spec.values_in d e = [v].
Proof.
  induction d as [|[k0 v0] d IH]; intros Hnd Hin; [destruct Hin|].
  inversion Hnd as [|? ? Hnotin Hnd']; subst.
  unfold Spec.values_in in *. cbn [flat_map fst snd].
  destruct Hin as [E|Hin].
  - injection E as E1 E2. subst k0 v0. rewrite String.eqb_refl.
    fold (Spec.values_in d e). rewrite values_in_absent by exact Hnotin.
    reflexivity.
  - destruct (String.eqb_spec k0 e) as [E|_].
    + subst k0. exfalso. apply Hnotin.
      change e with (fst (e, v)). apply in_map, Hin.
    + apply IH; assumption.
Qed.

Lemma flat_map_nil {A B} (f : A -> list B) (l : list A) :
  (forall x, In x l -> f x = []) -> flat_map f l = [].
Proof.
  induction l as [|x l IH]; intro H; [reflexivity|]. cbn [flat_map].
  rewrite (H x (or_introl eq_refl)), IH; [reflexivity|].
  intros y Hy. apply H. right. exact Hy.
Qed.

Lemma values_of_identical (records : list EmotionRecord) (d : emotions)
    (e : string) (v : Q) :
  NoDup (Py.keys d) -> In (e, v) d ->
  Forall (fun record => emotions_json record = d) records ->
  Forall (eq v) (Spec.values_of records e).
Proof.
  intros Hnd Hin Hall. unfold Spec.values_of.
  induction Hall as [|record records E _ IH]; [constructor|].
  cbn [flat_map]. rewrite E, (values_in_NoDup d e v Hnd Hin).
  constructor; [reflexivity|exact IH].
Qed.

(** When every record carries the same vector, no value exceeds its own
    baseline, and no peak is reported. *)
Theorem identical_vectors_have_no_peaks :
  forall (records : list EmotionRecord) (d : emotions),
    NoDup (Py.keys d) ->
    Forall (fun record => emotions_json record = d) records ->
    exists payload,
      get_emotion_peaks records = Some payload /\ peaks payload = [].
Proof.
  intros records d Hnd Hall.
  destruct records as [|record records]; [eexists; split; reflexivity|].
  set (rs := record :: records) in *.
  unfold get_emotion_peaks. fold rs.
  change (match rs with [] => ?y | _ => ?x end) with x.
  rewrite scan_records_spec. eexists. split; [reflexivity|]. cbn [peaks].
  assert (F : Spec.flagged_peaks rs rs = []).
  { unfold Spec.flagged_peaks. apply flat_map_nil. intros r Hr.
    apply flat_map_nil. intros [e v] Hi. cbn [fst snd].
    destruct (Spec.is_peak_dec rs e v) as [[H1 H2]|_]; [|reflexivity].
    exfalso.
    assert (Ed : emotions_json r = d)
      by (apply (proj1 (Forall_forall _ rs) Hall r Hr)).
    assert (Hb : Spec.baseline rs e == v).
    { unfold Spec.baseline. apply mean_constant.
      - apply (item_has_values rs r (e, v) Hr Hi).
      - apply (values_of_identical rs d e v Hnd); [rewrite <- Ed; exact Hi|exact Hall]. }
    rewrite Hb in H1. lra. }
  rewrite F. reflexivity.
Qed.

Lemma identical_vectors_have_no_peaks_witness :
  exists payload,
    get_emotion_peaks
      [Examples.happy_at 1 (95 # 100); Examples.happy_at 2 (95 # 100)]
    = Some payload
    /\ peaks payload = [].
Proof.
  apply (identical_vectors_have_no_peaks _ [("happy", 95 # 100)]).
  - repeat constructor. intros [].
  - repeat constructor.
Defined.

(** ** The dominant emotion trend *)

Lemma fold_plus_acc (l : list Q) (a : Q) : fold_left Qplus l a == a + Py.sum l.
Proof.
  unfold Py.sum. revert a. induction l as [|x l IH]; intro a; simpl; [ring|].
  rewrite IH, (IH (0 + x)). ring.
Qed.

Lemma add_record_lookup (w : Q) (record : emotions) (e : string) :
  forall d : Py.dict Q,
    Py.get_default (MoodMore.add_record w d record) e 0
    == Py.get_default d e 0 + w * SpecMore.weighted_value record e.
Proof.
  unfold MoodMore.add_record, SpecMore.weighted_value.
  induction record as [|[k v] record IH]; intro d.
  - simpl. destruct (Py.contains emotion_weights e); unfold Py.sum; simpl; ring.
  - cbn [fold_left fst snd]. rewrite IH. clear IH.
    unfold Spec.values_in. cbn [flat_map fst snd].
    destruct (String.eqb_spec k e) as [E|N].
    + subst k. destruct (Py.contains emotion_weights e).
      * rewrite add_to_lookup, String.eqb_refl. cbn [app]. rewrite sum_cons. ring.
      * ring.
    + destruct (Py.contains emotion_weights k).
      * rewrite add_to_lookup. destruct (String.eqb_spec k e); [contradiction|].
        reflexivity.
      * reflexivity.
Qed.

Lemma add_record_keys (w : Q) (record : emotions) (e : string) :
  forall d : Py.dict Q,
    In e (Py.keys (MoodMore.add_record w d record))
    <-> In e (Py.keys d)
        \/ (Py.contains emotion_weights e = true /\ In e (Py.keys record)).
Proof.
  unfold MoodMore.add_record.
  induction record as [|[k v] record IH]; intro d.
  - simpl. intuition.
  - cbn [fold_left fst snd]. rewrite IH. cbn [Py.keys map fst In].
    destruct (Py.contains emotion_weights k) eqn:C.
    + rewrite In_keys_add_to. split.
      * intros [[H|E]|[H1 H2]]; [left; exact H| |right; split; [exact H1|right; exact H2]].
        subst e. right. split; [exact C|left; reflexivity].
      * intros [H|[H1 [E|H2]]]; [left; left; exact H| |right; split; assumption].
        subst e. left. right. reflexivity.
    + split.
      * intros [H|[H1 H2]]; [left; exact H|right; split; [exact H1|right; exact H2]].
      * intros [H|[H1 [E|H2]]]; [left; exact H| |right; split; assumption].
        subst e. congruence.
Qed.

Lemma accumulate_from (L : Q) (irs : list (Z * emotions)) (e : string) :
  forall (d : Py.dict Q) (tw : Q),
    let state :=
      fold_left
        (fun state ir =>
           let '(emotion_totals, total_weight) := state in
           let '(i, record) := ir in
           let weight := (inject_Z i + 1) / L in
           (MoodMore.add_record weight emotion_totals record, total_weight + weight))
        irs (d, tw) in
    Py.get_default (fst state) e 0
    == Py.get_default d e 0
       + Py.sum (map (fun ir => (inject_Z (fst ir) + 1) / L
                                * SpecMore.weighted_value (snd ir) e) irs)
    /\ snd state == tw + Py.sum (map (fun ir => (inject_Z (fst ir) + 1) / L) irs)
    /\ (In e (Py.keys (fst state))
        <-> In e (Py.keys d)
            \/ (Py.contains emotion_weights e = true
                /\ exists ir, In ir irs /\ In e (Py.keys (snd ir)))).
Proof.
  induction irs as [|[i record] irs IH]; intros d tw; cbv zeta.
  - cbn [fold_left fst snd map]. unfold Py.sum. cbn [fold_left].
    split; [ring|]. split; [ring|].
    split; [intro H; left; exact H|].
    intros [H|[_ [ir [[] _]]]]. exact H.
  - cbn [fold_left map fst snd].
    destruct (IH (MoodMore.add_record ((inject_Z i + 1) / L) d record)
                 (tw + (inject_Z i + 1) / L)) as (Hg & Hw & Hk).
    cbv zeta in Hg, Hw, Hk.
    split; [|split].
    + rewrite Hg, add_record_lookup, sum_cons. ring.
    + rewrite Hw, sum_cons. ring.
    + rewrite Hk, add_record_keys. split.
      * intros [[H|[H1 H2]]|[H1 [ir [H2 H3]]]].
        -- left. exact H.
        -- right. split; [exact H1|]. exists (i, record). split; [left; reflexivity|exact H2].
        -- right. split; [exact H1|]. exists ir. split; [right; exact H2|exact H3].
      * intros [H|[H1 [ir [[E|H2] H3]]]].
        -- left. left. exact H.
        -- subst ir. left. right. split; [exact H1|exact H3].
        -- right. split; [exact H1|]. exists ir. split; [exact H2|exact H3].
Qed.

Lemma enumerate_snd {A} (l : list A) : map snd (PyMore.enumerate l) = l.
Proof.
  unfold PyMore.enumerate, PyMore.range. rewrite Nat2Z.id.
  generalize 0%nat. induction l as [|x l IH]; intro s; [reflexivity|].
  cbn [List.length seq map combine snd]. rewrite IH. reflexivity.
Qed.

Lemma enumerate_fst_nonneg {A} (l : list A) :
  Forall (fun ir => (0 <= fst ir)%Z) (PyMore.enumerate l).
Proof.
  unfold PyMore.enumerate, PyMore.range. rewrite Nat2Z.id.
  generalize 0%nat. induction l as [|x l IH]; intro s; [constructor|].
  cbn [List.length seq map combine]. constructor; [simpl; lia|apply IH].
Qed.

Lemma enumerate_nonempty {A} (l : list A) : l <> [] -> PyMore.enumerate l <> [].
Proof.
  intros H E. apply H. rewrite <- (enumerate_snd l), E. reflexivity.
Qed.

Lemma sum_positive (l : list Q) :
  l <> [] -> Forall (fun x => 0 < x) l -> 0 < Py.sum l.
Proof.
  intros Hne Hall. destruct l as [|x l]; [contradiction|].
  inversion Hall as [|? ? Hx Hl]; subst. rewrite sum_cons.
  assert (G : 0 <= Py.sum l).
  { clear -Hl. induction Hl as [|y l Hy _ IH]; [discriminate|].
    rewrite sum_cons. lra. }
  lra.
Qed.

Lemma total_weight_positive (window : list emotions) :
  window <> [] -> 0 < SpecMore.total_weight window.
Proof.
  intro Hne. unfold SpecMore.total_weight. apply sum_positive.
  - intro E. apply map_eq_nil in E. apply (enumerate_nonempty window Hne E).
  - apply Forall_map.
    apply Forall_impl with (P := fun ir : Z * emotions => (0 <= fst ir)%Z);
      [|apply enumerate_fst_nonneg].
    intros [i r] Hi. cbn [fst] in *. unfold SpecMore.recency_weight.
    apply Qlt_shift_div_l.
    + change 0 with (inject_Z 0). rewrite <- Zlt_Qlt.
      destruct window; [contradiction|simpl; lia].
    + rewrite Qmult_0_l. apply Qlt_le_trans with 1; [reflexivity|].
      rewrite Zle_Qle in Hi. change (inject_Z 0) with 0 in Hi. lra.
Qed.

Lemma observed_enumerate (window : list emotions) (e : string) :
  (exists ir, In ir (PyMore.enumerate window) /\ In e (Py.keys (snd ir)))
  <-> exists record, In record window /\ In e (Py.keys record).
Proof.
  split.
  - intros [ir [H1 H2]]. exists (snd ir). split; [|exact H2].
    rewrite <- (enumerate_snd window). apply in_map, H1.
  - intros [r [H1 H2]]. rewrite <- (enumerate_snd window) in H1.
    apply in_map_iff in H1. destruct H1 as [ir [E H1]]. subst r.
    exists ir. split; assumption.
Qed.

Lemma normalized_totals_keys (window : list emotions) (e : string) :
  In e (Py.keys (MoodMore.normalized_totals window)) <-> SpecMore.observed window e.
Proof.
  unfold MoodMore.normalized_totals, MoodMore.accumulate, SpecMore.observed.
  destruct (accumulate_from (Py.len window) (PyMore.enumerate window) e [] 0)
    as (_ & _ & Hk0). cbv zeta in Hk0 |- *.
  match goal with
  | |- context [fold_left ?f (PyMore.enumerate window) ([], 0)] =>
      set (st := fold_left f (PyMore.enumerate window) ([], 0))
  end.
  assert (Hk : In e (Py.keys (fst st))
               <-> In e (Py.keys (@nil (string * Q)))
                   \/ (Py.contains emotion_weights e = true
                       /\ exists ir, In ir (PyMore.enumerate window)
                                     /\ In e (Py.keys (snd ir))))
    by exact Hk0.
  clear Hk0. clearbody st. destruct st as [totals tw].
  cbn [fst snd] in Hk. rewrite <- observed_enumerate.
  assert (K : In e (Py.keys totals)
              <-> Py.contains emotion_weights e = true
                  /\ exists ir, In ir (PyMore.enumerate window)
                                /\ In e (Py.keys (snd ir))).
  { rewrite Hk. simpl. intuition. }
  destruct (Py.gtb tw 0); [|exact K].
  unfold Py.keys in *. rewrite map_map. cbn [fst]. exact K.
Qed.

Lemma normalized_totals_lookup (window : list emotions) (e : string) :
  window <> [] ->
  Py.get_default (MoodMore.normalized_totals window) e 0
  == SpecMore.recency_mean window e.
Proof.
  intro Hne.
  unfold MoodMore.normalized_totals, MoodMore.accumulate, SpecMore.recency_mean.
  destruct (accumulate_from (Py.len window) (PyMore.enumerate window) e [] 0)
    as (Hg0 & Hw0 & _). cbv zeta in Hg0, Hw0 |- *.
  match goal with
  | |- context [fold_left ?f (PyMore.enumerate window) ([], 0)] =>
      set (st := fold_left f (PyMore.enumerate window) ([], 0))
  end.
  assert (Hg : Py.get_default (fst st) e 0
               == Py.get_default [] e 0
                  + Py.sum (map (fun ir => (inject_Z (fst ir) + 1) / Py.len window
                                           * SpecMore.weighted_value (snd ir) e)
                                (PyMore.enumerate window)))
    by exact Hg0.
  assert (Hw : snd st
               == 0 + Py.sum (map (fun ir : Z * emotions =>
                                     (inject_Z (fst ir) + 1) / Py.len window)
                                  (PyMore.enumerate window)))
    by exact Hw0.
  clear Hg0 Hw0. clearbody st. destruct st as [totals tw].
  cbn [fst snd] in Hg, Hw.
  assert (Etw : tw == SpecMore.total_weight window).
  { rewrite Hw. unfold SpecMore.total_weight, SpecMore.recency_weight, Py.len. ring. }
  assert (Eg : Py.get_default totals e 0 == SpecMore.recency_total window e).
  { rewrite Hg. unfold SpecMore.recency_total, SpecMore.recency_weight, Py.len.
    unfold Py.get_default. simpl. ring. }
  pose proof (total_weight_positive window Hne) as Hpos.
  assert (G : Py.gtb tw 0 = true) by (apply gtb_gt; rewrite Etw; exact Hpos).
  rewrite G.
  rewrite (get_default_map_values (fun v => v / tw)) by (unfold Qdiv; ring).
  rewrite Eg, Etw. reflexivity.
Qed.

Lemma py_min_morph_r (a b c : Q) : a == b -> Py.min c a == Qmin c b.
Proof.
  intro H. rewrite py_min_Qmin. apply Q.min_compat; [reflexivity|exact H].
Qed.

(** The trend's dominant emotion maximises the recency-weighted mean among
    the weighted emotions the window mentions, and the confidence is that
    mean capped at 1; when the window mentions no weighted emotion, or the
    history is empty, the answer is ("neutral", 0). *)
Theorem dominant_trend_maximises_recency_mean :
  forall (emotions_history : list emotions) (lookback : Z),
    let window := Py.slice (Some (- lookback)%Z) None emotions_history in
    let result := MoodMore.get_dominant_emotion_trend emotions_history lookback in
    ((emotions_history = [] \/ forall e, ~ SpecMore.observed window e) ->
       result = ("neutral", 0))
    /\ (emotions_history <> [] ->
        forall e, SpecMore.observed window e ->
          SpecMore.observed window (fst result)
          /\ SpecMore.recency_mean window e
             <= SpecMore.recency_mean window (fst result)
          /\ snd result == Qmin 1 (SpecMore.recency_mean window (fst result))).
Proof.
  intros h lookback window result. subst result.
  unfold MoodMore.get_dominant_emotion_trend.
  destruct h as [|r0 h0].
  { split; [reflexivity|]. intro C. contradiction. }
  set (h := r0 :: h0) in *. cbv zeta. fold window.
  pose proof (fun e => normalized_totals_keys window e) as K.
  set (totals := MoodMore.normalized_totals window) in *.
  split.
  - intros [C|Hnone]; [discriminate C|].
    destruct (Py.keys totals) as [|first rest] eqn:E; [reflexivity|].
    exfalso. apply (Hnone first), K. left. reflexivity.
  - intros _ e He.
    assert (Hne : window <> []).
    { destruct He as [_ [r [Hr _]]]. intro E. rewrite E in Hr. exact Hr. }
    pose proof (fun x => normalized_totals_lookup window x Hne) as L.
    fold totals in L.
    apply K in He.
    destruct (Py.keys totals) as [|first rest] eqn:E; [destruct He|].
    destruct (max_by_spec (fun k => Py.get_default totals k 0) rest first)
      as [Din Dmax].
    cbn [fst snd].
    set (dom := PyMore.max_by (fun k => Py.get_default totals k 0) first rest) in *.
    split; [apply K; exact Din|]. split.
    + rewrite <- (L e), <- (L dom). apply Dmax, He.
    + apply py_min_morph_r, L.
Qed.

Lemma dominant_trend_maximises_recency_mean_witness :
  MoodMore.get_dominant_emotion_trend [[("unknown", 1)]] 5 = ("neutral", 0)
  /\ SpecMore.recency_mean [[("happy", 2 # 10)]; [("sad", 6 # 10)]] "happy"
     <= SpecMore.recency_mean [[("happy", 2 # 10)]; [("sad", 6 # 10)]]
          (fst (MoodMore.get_dominant_emotion_trend
                  [[("happy", 2 # 10)]; [("sad", 6 # 10)]] 5)).
Proof.
  split.
  - apply (proj1 (dominant_trend_maximises_recency_mean [[("unknown", 1)]] 5)).
    right. intros e [Hw [r [Hr Hk]]].
    destruct Hr as [E|[]]. subst r. destruct Hk as [E|[]]. subst e.
    vm_compute in Hw. discriminate Hw.
  - apply (proj2 (dominant_trend_maximises_recency_mean
                    [[("happy", 2 # 10)]; [("sad", 6 # 10)]] 5)).
    + discriminate.
    + split; [reflexivity|].
      exists [("happy", 2 # 10)]. split; [left; reflexivity|left; reflexivity].
Defined.

(** ** Wellness depends on proportions only *)

Lemma sum_map_scaled {A} (k : Q) (g : A -> Q) (l : list A) :
  Py.sum (map (fun x => k * g x) l) == k * Py.sum (map g l).
Proof.
  induction l as [|x l IH].
  - unfold Py.sum. simpl. ring.
  - cbn [map]. rewrite !sum_cons, IH. ring.
Qed.

Lemma weighted_entries_scaled (k : Q) (record : emotions) :
  Spec.weighted_entries (map (fun kv => (fst kv, k * snd kv)) record)
  = map (fun vw => (k * fst vw, snd vw)) (Spec.weighted_entries record).
Proof.
  unfold Spec.weighted_entries.
  induction record as [|[e v] record IH]; [reflexivity|].
  cbn [map flat_map fst snd]. rewrite IH.
  destruct (Spec.weight e); reflexivity.
Qed.

Lemma total_intensity_scaled (k : Q) (record : emotions) :
  Spec.total_intensity (map (fun kv => (fst kv, k * snd kv)) record)
  == k * Spec.total_intensity record.
Proof.
  unfold Spec.total_intensity. rewrite weighted_entries_scaled, map_map.
  cbn [fst]. apply (sum_map_scaled k fst).
Qed.

Lemma weighted_sum_scaled (k : Q) (record : emotions) :
  Spec.weighted_sum (map (fun kv => (fst kv, k * snd kv)) record)
  == k * Spec.weighted_sum record.
Proof.
  unfold Spec.weighted_sum. rewrite weighted_entries_scaled, map_map.
  cbn [fst snd].
  rewrite <- (sum_map_scaled k (fun vw => fst vw * snd vw)).
  apply sum_morph. apply Forall2_map_same. intros x _. ring.
Qed.

Lemma usable_scaled (k : Q) (window : list emotions) :
  0 < k ->
  Spec.usable (map (fun record => map (fun kv => (fst kv, k * snd kv)) record) window)
  = map (fun record => map (fun kv => (fst kv, k * snd kv)) record)
        (Spec.usable window).
Proof.
  intro Hk. unfold Spec.usable.
  induction window as [|r window IH]; [reflexivity|].
  cbn [map filter]. rewrite IH.
  pose proof (total_intensity_scaled k r) as E.
  destruct (Qlt_le_dec 0 (Spec.total_intensity
                            (map (fun kv => (fst kv, k * snd kv)) r))) as [H|H];
    destruct (Qlt_le_dec 0 (Spec.total_intensity r)) as [H'|H'];
    try reflexivity; exfalso; rewrite E in H; nra.
Qed.

Lemma scaled_samples_agree (k : Q) (samples : list emotions) :
  0 < k ->
  Forall (fun r => 0 < Spec.total_intensity r) samples ->
  match map (fun record => map (fun kv => (fst kv, k * snd kv)) record) samples with
  | [] => 1 # 2
  | r :: l => Py.mean (map Spec.wellness_sample (r :: l))
  end
  == match samples with
     | [] => 1 # 2
     | r :: l => Py.mean (map Spec.wellness_sample (r :: l))
     end.
Proof.
  intros Hk Hpos. destruct samples as [|r rs]; [reflexivity|].
  set (l := r :: rs) in *.
  change (Py.mean (map Spec.wellness_sample
                       (map (fun record => map (fun kv => (fst kv, k * snd kv)) record) l))
          == Py.mean (map Spec.wellness_sample l)).
  rewrite map_map. apply mean_morph. apply Forall2_map_same.
  intros s Hs. pose proof (proj1 (Forall_forall _ _) Hpos s Hs) as Hti.
  cbv beta in Hti.
  unfold Spec.wellness_sample, Spec.clamp.
  apply Q.max_compat; [reflexivity|]. apply Q.min_compat; [reflexivity|].
  rewrite weighted_sum_scaled, total_intensity_scaled.
  field. split; lra.
Qed.

(** Multiplying every value of every record by the same positive factor
    leaves the wellness score unchanged. *)
Theorem wellness_is_scale_invariant :
  forall (emotions_history : list emotions) (k : Q),
    0 < k ->
    calculate_wellness_score
      (map (fun record => map (fun kv => (fst kv, k * snd kv)) record)
           emotions_history)
    == calculate_wellness_score emotions_history.
Proof.
  intros h k Hk. rewrite !wellness_agrees. unfold Spec.wellness, Spec.last_n.
  rewrite length_map, skipn_map, (usable_scaled k _ Hk).
  apply (scaled_samples_agree k _ Hk).
  unfold Spec.usable. apply Forall_forall. intros r Hr.
  apply filter_In in Hr. destruct Hr as [_ Hr].
  destruct (Qlt_le_dec 0 (Spec.total_intensity r)); [assumption|discriminate].
Qed.

Lemma wellness_is_scale_invariant_witness :
  calculate_wellness_score
    (map (fun record => map (fun kv => (fst kv, (1 # 2) * snd kv)) record)
         [[("happy", 6 # 10); ("sad", 2 # 10)]])
  == calculate_wellness_score [[("happy", 6 # 10); ("sad", 2 # 10)]].
Proof.
  apply (wellness_is_scale_invariant [[("happy", 6 # 10); ("sad", 2 # 10)]] (1 # 2)).
  reflexivity.
Defined.

(** ** Validated vectors give averages in the unit interval *)

Lemma validated_value_in_unit (record : emotions) (e : string) :
  validate_emotion_data (Spec.as_pyval record) = true ->
  In e Spec.canonical_emotions ->
  0 <= Spec.value_of e record /\ Spec.value_of e record <= 1.
Proof.
  intros Hv He. apply validate_iff in Hv.
  destruct Hv as [d [Ed Hd]]. unfold Spec.as_pyval in Ed.
  injection Ed as Ed. subst d.
  destruct (Hd e He) as (value & q & Hget & Hnum & H0 & H1).
  rewrite (get_map_values PFloat) in Hget. unfold Spec.value_of.
  destruct (Py.get record e) as [v|]; [|discriminate Hget].
  simpl in Hget. injection Hget as Hget. subst value.
  simpl in Hnum. injection Hnum as Hnum. subst q. split; assumption.
Qed.

(** When every record of a day passed validation, each of the day's seven
    averages lies in [0, 1]. *)
Theorem validated_averages_in_unit_interval :
  forall day_emotions : list EmotionRecord,
    Forall (fun record =>
              validate_emotion_data (Spec.as_pyval (emotions_json record)) = true)
           day_emotions ->
    forall emotion : string,
      In emotion Spec.canonical_emotions ->
      exists average,
        Py.get (AnalyticsMore.day_averages day_emotions) emotion = Some average
        /\ 0 <= average /\ average <= 1.
Proof.
  intros rs Hall e He. rewrite day_averages_means_aux, get_map_keys.
  destruct (in_dec string_dec e Spec.canonical_emotions) as [_|C];
    [|contradiction].
  eexists. split; [reflexivity|].
  destruct rs as [|record records]; [split; discriminate|].
  apply mean_bounds; [discriminate|].
  apply Forall_map. apply Forall_impl with (2 := Hall).
  intros r Hr. apply validated_value_in_unit; assumption.
Qed.

Lemma validated_averages_in_unit_interval_witness :
  exists average,
    Py.get (AnalyticsMore.day_averages
              [ {| timestamp := 1;
                   emotions_json :=
                     [ ("happy", 1); ("sad", 0); ("angry", 0); ("fearful", 0);
                       ("disgusted", 0); ("surprised", 1 # 2); ("neutral", 0) ] |} ])
           "surprised"
    = Some average
    /\ 0 <= average /\ average <= 1.
Proof.
  apply validated_averages_in_unit_interval.
  - repeat constructor.
  - simpl. tauto.
Defined.

(** ** The baselines a peak analysis reports *)

(** On a non-empty sequence the reported baselines hold, for exactly the
    emotions that occur in some record, the mean of the emotion's values
    (their sum divided by their number) rounded to three decimals as
    [round] does it on floats; on an empty sequence no baselines are
    reported.  A single value 0.9015 is reported as 0.901: the float lies
    below the decimal. *)
Theorem reported_baselines_cover_observed :
  (forall (sum : list float -> float) (records : list FloatAnalytics.EmotionRecord),
      exists entry,
        FloatAnalytics.baselines_entry sum records = Some entry
        /\ match records with
           | [] => entry = None
           | _ =>
               exists reported,
                 entry = Some reported
                 /\ forall emotion : string,
                      Py.get reported emotion
                      = match FloatSpec.values_of records emotion with
                        | [] => None
                        | values =>
                            Some (PyFloat.round
                                    (PrimFloat.div (sum values) (PyFloat.len values)) 3)
                        end
           end)
  /\ FloatAnalytics.baselines_entry PyFloat.sum_compensated FloatExamples.one_value
     = Some (Some [("happy", 0.901%float)])
  /\ FloatAnalytics.baselines_entry PyFloat.sum_left FloatExamples.one_value
     = Some (Some [("happy", 0.901%float)]).
Proof.
  split; [|split; vm_compute; reflexivity].
  intros sum [|record records]; [eexists; split; reflexivity|].
  set (rs := record :: records).
  unfold FloatAnalytics.baselines_entry. fold rs.
  change (match rs with [] => ?y | _ => ?x end) with x.
  cbv zeta. rewrite float_scan_records_spec. eexists. split; [reflexivity|].
  eexists. split; [reflexivity|].
  intro e. rewrite (get_map_values (fun v => PyFloat.round v 3)), float_baselines_lookup.
  unfold FloatSpec.baseline, FloatSpec.mean.
  destruct (FloatSpec.values_of rs e); reflexivity.
Qed.

(** ** Patterns by hour and by day of week *)

Lemma zget_zset {V} (d : FloatAnalytics.zdict V) (k k' : Z) (v : V) :
  FloatAnalytics.zget (FloatAnalytics.zset d k v) k'
  = if (k' =? k)%Z then Some v else FloatAnalytics.zget d k'.
Proof.
  induction d as [|[k0 v0] d IH]; simpl.
  - reflexivity.
  - destruct (Z.eqb_spec k k0) as [E|N]; simpl.
    + subst k0. destruct (k' =? k)%Z; reflexivity.
    + rewrite IH. destruct (Z.eqb_spec k' k0) as [E'|N']; [|reflexivity].
      subst k0. destruct (Z.eqb_spec k' k) as [E''|_]; [|reflexivity].
      congruence.
Qed.

Lemma values_at_append_at (p : FloatAnalytics.zdict (Py.dict (list float)))
    (b b' : Z) (k e : string) (v : float) :
  FloatAnalytics.values_at (FloatAnalytics.append_at p b k v) b' e
  = FloatAnalytics.values_at p b' e
    ++ (if (b =? b')%Z && String.eqb k e then [v] else []).
Proof.
  unfold FloatAnalytics.values_at, FloatAnalytics.append_at, FloatAnalytics.inner at 1.
  rewrite zget_zset, (Z.eqb_sym b' b).
  destruct (Z.eqb_spec b b') as [E|N].
  - subst b'. rewrite float_append_value_lookup. reflexivity.
  - cbn [andb]. rewrite app_nil_r. reflexivity.
Qed.

Lemma fill_items (hour dow : Z) (items : Py.dict float) (bh bd : Z) (e : string) :
  forall hp dp : FloatAnalytics.zdict (Py.dict (list float)),
    let state :=
      fold_left
        (fun state item =>
           let '(hour_patterns, day_patterns) := state in
           (FloatAnalytics.append_at hour_patterns hour (fst item) (snd item),
            FloatAnalytics.append_at day_patterns dow (fst item) (snd item)))
        items (hp, dp) in
    FloatAnalytics.values_at (fst state) bh e
    = FloatAnalytics.values_at hp bh e
      ++ (if (hour =? bh)%Z then FloatSpec.values_in items e else [])
    /\ FloatAnalytics.values_at (snd state) bd e
       = FloatAnalytics.values_at dp bd e
         ++ (if (dow =? bd)%Z then FloatSpec.values_in items e else []).
Proof.
  induction items as [|[k v] items IH]; intros hp dp; cbv zeta.
  - cbn [fold_left fst snd]. unfold FloatSpec.values_in. cbn [flat_map].
    destruct (hour =? bh)%Z, (dow =? bd)%Z; rewrite !app_nil_r; split; reflexivity.
  - cbn [fold_left fst snd].
    destruct (IH (FloatAnalytics.append_at hp hour k v)
                 (FloatAnalytics.append_at dp dow k v))
      as [Hh Hd]. cbv zeta in Hh, Hd.
    rewrite Hh, Hd, !values_at_append_at.
    unfold FloatSpec.values_in. cbn [flat_map fst snd].
    destruct (hour =? bh)%Z, (dow =? bd)%Z, (String.eqb k e); cbn [andb app];
      rewrite <- ?app_assoc, ?app_nil_r; split; reflexivity.
Qed.

Lemma fill_records (records : list FloatAnalytics.EmotionRecord)
    (bh bd : Z) (e : string) :
  forall state0 : FloatAnalytics.zdict (Py.dict (list float))
                  * FloatAnalytics.zdict (Py.dict (list float)),
    let state :=
      fold_left
        (fun state record =>
           fold_left
             (fun state item =>
                let '(hour_patterns, day_patterns) := state in
                (FloatAnalytics.append_at hour_patterns
                   (FloatAnalytics.hour_of (FloatAnalytics.timestamp record))
                   (fst item) (snd item),
                 FloatAnalytics.append_at day_patterns
                   (FloatAnalytics.weekday_of (FloatAnalytics.timestamp record))
                   (fst item) (snd item)))
             (FloatAnalytics.emotions_json record) state)
        records state0 in
    FloatAnalytics.values_at (fst state) bh e
    = FloatAnalytics.values_at (fst state0) bh e
      ++ FloatSpec.values_of
           (filter (fun record =>
                      (FloatAnalytics.hour_of (FloatAnalytics.timestamp record) =? bh)%Z)
                   records) e
    /\ FloatAnalytics.values_at (snd state) bd e
       = FloatAnalytics.values_at (snd state0) bd e
         ++ FloatSpec.values_of
              (filter (fun record =>
                         (FloatAnalytics.weekday_of (FloatAnalytics.timestamp record)
                          =? bd)%Z)
                      records) e.
Proof.
  induction records as [|record records IH]; intros [hp dp]; cbv zeta.
  - cbn [fold_left filter fst snd]. unfold FloatSpec.values_of. cbn [flat_map].
    rewrite !app_nil_r. split; reflexivity.
  - cbn [fold_left filter].
    destruct (fill_items (FloatAnalytics.hour_of (FloatAnalytics.timestamp record))
                (FloatAnalytics.weekday_of (FloatAnalytics.timestamp record))
                (FloatAnalytics.emotions_json record) bh bd e hp dp) as [Hh Hd].
    cbv zeta in Hh, Hd.
    match goal with
    | |- context [fold_left _ records ?st] =>
        destruct (IH st) as [Ih Id]; cbv zeta in Ih, Id
    end.
    rewrite Ih, Id, Hh, Hd. cbn [fst snd].
    unfold FloatSpec.values_of.
    destruct (FloatAnalytics.hour_of (FloatAnalytics.timestamp record) =? bh)%Z,
             (FloatAnalytics.weekday_of (FloatAnalytics.timestamp record) =? bd)%Z;
      cbn [flat_map]; rewrite <- ?app_assoc, ?app_nil_r; split; reflexivity.
Qed.

Lemma filter_both {A} (f g : A -> bool) (l : list A) :
  filter g (filter f l) = filter (fun x => f x && g x) l.
Proof.
  induction l as [|x l IH]; [reflexivity|].
  cbn [filter]. destruct (f x); cbn [filter andb]; rewrite IH; reflexivity.
Qed.

Lemma bucket_averages_means (sum : list float -> float)
    (p : FloatAnalytics.zdict (Py.dict (list float))) (b : Z)
    (bucket : list FloatAnalytics.EmotionRecord) :
  (forall e, FloatAnalytics.values_at p b e = FloatSpec.values_of bucket e) ->
  FloatAnalytics.bucket_averages sum p b = FloatSpec.bucket_means sum bucket.
Proof.
  intro H. unfold FloatAnalytics.bucket_averages, FloatSpec.bucket_means.
  change FloatAnalytics.pattern_emotions with Spec.canonical_emotions.
  apply map_ext. intro e. cbv zeta. rewrite H.
  destruct (FloatSpec.values_of bucket e); reflexivity.
Qed.

(** With the current instant one a [datetime] holds: the request fails
    when [days] exceeds 999999999 in magnitude or [days] days before now
    is no such instant.  Otherwise the hourly patterns have the 24 hours
    0..23, in order, and the daily patterns the 7 days Monday..Sunday;
    each entry holds, per canonical emotion, the mean of the values that
    the stored rows from the start instant on give it in that hour (or on
    that weekday), rounded to three decimals as [round] does it on floats,
    and 0 when no such row mentions the emotion; no hour or day is
    omitted. *)
Theorem emotion_patterns_cover_buckets :
  forall (sum : list float -> float) (stored : list FloatAnalytics.EmotionRecord)
         (now days : Z),
    (0 <= now <= FloatAnalytics.max_instant)%Z ->
    let result := FloatAnalytics.get_emotion_patterns sum stored now days in
    let start_date := (now - days * FloatAnalytics.microseconds_per_day)%Z in
    ((999999999 < Z.abs days)%Z -> result = None)
    /\ ((start_date < 0)%Z -> result = None)
    /\ ((FloatAnalytics.max_instant < start_date)%Z -> result = None)
    /\ ((Z.abs days <= 999999999)%Z ->
        (0 <= start_date <= FloatAnalytics.max_instant)%Z ->
        exists hour_data day_data,
          result = Some (hour_data, day_data)
          /\ List.length hour_data = 24%nat
          /\ List.length day_data = 7%nat
          /\ (forall h : Z,
                (0 <= h < 24)%Z ->
                nth_error hour_data (Z.to_nat h)
                = Some {| FloatAnalytics.hour := h;
                          FloatAnalytics.hour_emotions :=
                            FloatSpec.bucket_means sum
                              (FloatSpec.in_hour stored start_date h) |})
          /\ (forall d : Z,
                (0 <= d < 7)%Z ->
                nth_error day_data (Z.to_nat d)
                = Some {| FloatAnalytics.day :=
                            nth (Z.to_nat d) FloatAnalytics.day_names "";
                          FloatAnalytics.day_num := d;
                          FloatAnalytics.day_emotions :=
                            FloatSpec.bucket_means sum
                              (FloatSpec.on_weekday stored start_date d) |})).
Proof.
  intros sum stored now days Hnow result start_date. subst result.
  unfold FloatAnalytics.get_emotion_patterns, FloatAnalytics.days_before.
  cbv zeta. fold start_date.
  destruct (Z.leb_spec (Z.abs days) 999999999) as [Hd|Hd].
  2: { repeat split; intros; try reflexivity; exfalso; lia. }
  destruct (Z.leb_spec 0 start_date) as [Hlo|Hlo]; cbn [andb].
  2: { repeat split; intros; try reflexivity; exfalso; lia. }
  destruct (Z.leb_spec start_date FloatAnalytics.max_instant) as [Hhi|Hhi].
  2: { repeat split; intros; try reflexivity; exfalso; lia. }
  split; [intro; exfalso; lia|].
  split; [intro; exfalso; lia|].
  split; [intro; exfalso; lia|].
  intros _ _.
  set (records :=
         filter (fun record => (start_date <=? FloatAnalytics.timestamp record)%Z)
                stored).
  pose proof (fun bh bd e => fill_records records bh bd e ([], [])) as F.
  cbv zeta in F. unfold FloatAnalytics.fill_patterns.
  match goal with
  | |- context [fold_left ?f records ([], [])] =>
      set (st := fold_left f records ([], []))
  end.
  assert (Fh : forall bh e,
             FloatAnalytics.values_at (fst st) bh e
             = FloatSpec.values_of (FloatSpec.in_hour stored start_date bh) e).
  { intros bh e. unfold FloatSpec.in_hour. rewrite <- filter_both.
    exact (proj1 (F bh 0%Z e)). }
  assert (Fd : forall bd e,
             FloatAnalytics.values_at (snd st) bd e
             = FloatSpec.values_of (FloatSpec.on_weekday stored start_date bd) e).
  { intros bd e. unfold FloatSpec.on_weekday. rewrite <- filter_both.
    exact (proj2 (F 0%Z bd e)). }
  clear F. clearbody st. destruct st as [hp dp]. cbn [fst snd] in *.
  eexists. eexists. split; [reflexivity|].
  split; [reflexivity|]. split; [reflexivity|]. split.
  - intros h Hh. rewrite nth_error_map, (range_nth 24 h Hh). cbn [option_map].
    rewrite (bucket_averages_means sum hp h _ (Fh h)). reflexivity.
  - intros d Hd'. rewrite nth_error_map, (range_nth 7 d Hd'). cbn [option_map].
    rewrite (bucket_averages_means sum dp d _ (Fd d)). reflexivity.
Qed.

Lemma emotion_patterns_cover_buckets_witness :
  (exists hour_data day_data,
      FloatAnalytics.get_emotion_patterns PyFloat.sum_compensated
        FloatExamples.stored FloatExamples.now 30
      = Some (hour_data, day_data)
      /\ nth_error hour_data 5
         = Some {| FloatAnalytics.hour := 5;
                   FloatAnalytics.hour_emotions :=
                     [ ("happy", 0.901%float); ("sad", 0%float); ("angry", 0%float);
                       ("fearful", 0%float); ("disgusted", 0%float);
                       ("surprised", 0%float); ("neutral", 0%float) ] |}
      /\ nth_error day_data 3
         = Some {| FloatAnalytics.day := "Thursday";
                   FloatAnalytics.day_num := 3;
                   FloatAnalytics.day_emotions :=
                     [ ("happy", 0.684%float); ("sad", 0%float); ("angry", 0%float);
                       ("fearful", 0%float); ("disgusted", 0%float);
                       ("surprised", 0%float); ("neutral", 0%float) ] |})
  /\ FloatAnalytics.get_emotion_patterns PyFloat.sum_compensated
       FloatExamples.stored FloatExamples.now 1000000000
     = None
  /\ FloatAnalytics.get_emotion_patterns PyFloat.sum_compensated
       FloatExamples.stored FloatExamples.now 1000000
     = None
  /\ FloatAnalytics.get_emotion_patterns PyFloat.sum_compensated
       FloatExamples.stored FloatExamples.now (-3000000)
     = None.
Proof.
  assert (Hnow : (0 <= FloatExamples.now <= FloatAnalytics.max_instant)%Z)
    by (vm_compute; split; discriminate).
  split; [|split; [|split]].
  - destruct (emotion_patterns_cover_buckets PyFloat.sum_compensated
                FloatExamples.stored FloatExamples.now 30 Hnow)
      as (_ & _ & _ & H).
    destruct H as (hour_data & day_data & E & _ & _ & Hh & Hd).
    + vm_compute. discriminate.
    + vm_compute. split; discriminate.
    + exists hour_data, day_data. split; [exact E|]. split.
      * change 5%nat with (Z.to_nat 5). rewrite (Hh 5%Z) by lia.
        vm_compute. reflexivity.
      * change 3%nat with (Z.to_nat 3). rewrite (Hd 3%Z) by lia.
        vm_compute. reflexivity.
  - apply (proj1 (emotion_patterns_cover_buckets PyFloat.sum_compensated
                    FloatExamples.stored FloatExamples.now 1000000000 Hnow)).
    vm_compute. reflexivity.
  - apply (proj1 (proj2 (emotion_patterns_cover_buckets PyFloat.sum_compensated
                           FloatExamples.stored FloatExamples.now 1000000 Hnow))).
    vm_compute. reflexivity.
  - apply (proj1 (proj2 (proj2 (emotion_patterns_cover_buckets PyFloat.sum_compensated
                                  FloatExamples.stored FloatExamples.now
                                  (-3000000) Hnow)))).
    vm_compute. reflexivity.
Defined.
